(** * Verification of the sailing behavioural-cloning pipeline

    A shallow embedding of [training/dataset.py], [training/model.py],
    [training/train.py] and [training/export_onnx.py].

    - Python floats are IEEE-754 binary64 values ([spec_float] at precision
      53), torch [float32] tensors hold binary32 values (precision 24).
    - Python exceptions are the error side of [result].
    - The file system is a finite map from paths to file contents together
      with a journal of the mutating operations performed on it and the
      answers of the operating system, which may refuse an operation.
    - numpy's generators are objects in a store; its bit generator, the
      optimiser and the loss evaluation are parameters of the development
      (a section variable, [Numpy.BitGenerator] and the fields of
      [Train.Backend]). *)

From Stdlib Require Import ZArith Bool List Permutation Lia Ascii String.
From Stdlib Require Import Floats.SpecFloat.
From stdpp Require Import gmap strings list fin_maps pretty.

Local Open Scope Z_scope.

(** ** Exceptions *)

Inductive exn : Type :=
  | KeyError
  | ValueError
  | OverflowError
  | ZeroDivisionError
  | IndexError
  | FileNotFoundError
  | ParserError
  | UnpicklingError
  | RuntimeError.

Inductive result (A : Type) : Type :=
  | Ok (a : A)
  | Err (e : exn).
Arguments Ok {A} a.
Arguments Err {A} e.

Definition rbind {A B : Type} (r : result A) (k : A -> result B) : result B :=
  match r with
  | Ok a => k a
  | Err e => Err e
  end.

Notation "x <~ r ;; k" := (rbind r (fun x => k))
  (at level 100, r at next level, right associativity).

(** ** Python floats *)

Module PyFloat.

Definition float : Type := spec_float.

Definition prec : Z := 53.
Definition emax : Z := 1024.

Definition zero : float := S754_zero false.
Definition inf : float := S754_infinity false.
Definition nan : float := S754_nan.

Definition add : float -> float -> float := SFadd prec emax.
Definition sub : float -> float -> float := SFsub prec emax.
Definition mul : float -> float -> float := SFmul prec emax.
Definition ltb : float -> float -> bool := SFltb.

Definition is_zero (x : float) : bool :=
  match x with
  | S754_zero _ => true
  | _ => false
  end.

(** [float(z)] for a Python int: round to nearest even, [OverflowError]
    when the integer is too large for a double. *)
Definition of_int (z : Z) : result float :=
  match binary_normalize prec emax z 0 false with
  | S754_infinity _ => Err OverflowError
  | f => Ok f
  end.

(** Integer part of [m * 2^e] for a positive mantissa. *)
Definition trunc_pos (m : positive) (e : Z) : Z := Z.shiftl (Zpos m) e.

(** [int(x)]: truncation towards zero; [ValueError] on NaN and
    [OverflowError] on an infinity. *)
Definition to_int (x : float) : result Z :=
  match x with
  | S754_nan => Err ValueError
  | S754_infinity _ => Err OverflowError
  | S754_zero _ => Ok 0
  | S754_finite s m e => Ok (cond_Zopp s (trunc_pos m e))
  end.

(** [math.floor(x)], same exceptions as [int]. *)
Definition floor (x : float) : result Z :=
  match x with
  | S754_nan => Err ValueError
  | S754_infinity _ => Err OverflowError
  | S754_zero _ => Ok 0
  | S754_finite s m e => Ok (Z.shiftl (cond_Zopp s (Zpos m)) e)
  end.

(** Sign test used to delimit the inputs on which [int] and
    [math.floor] agree: zeros and positive finite numbers. *)
Definition nonneg (x : float) : bool :=
  match x with
  | S754_zero _ | S754_finite false _ _ => true
  | _ => false
  end.

(** Rounding a double to a torch [float32]. *)
Definition to_f32 (x : float) : float :=
  match x with
  | S754_finite s m e => binary_normalize 24 128 (cond_Zopp s (Zpos m)) e s
  | _ => x
  end.

(** [i - x] and [i * x] with a Python int on the left: the int is
    converted first. *)
Definition int_sub (i : Z) (x : float) : result float :=
  fi <~ of_int i ;; Ok (sub fi x).

Definition int_mul (i : Z) (x : float) : result float :=
  fi <~ of_int i ;; Ok (mul fi x).

(** [x / k] with a Python int divisor. *)
Definition div_int (x : float) (k : Z) : result float :=
  fk <~ of_int k ;;
  if is_zero fk then Err ZeroDivisionError
  else Ok (SFdiv prec emax x fk).

(** A decimal literal [p / q] with both parts exactly representable
    denotes the correctly rounded quotient. *)
Definition literal (p q : Z) : float :=
  SFdiv prec emax (binary_normalize prec emax p 0 false)
                  (binary_normalize prec emax q 0 false).

End PyFloat.

(** ** Tensors, checkpoints and files *)

Inductive tensor : Type :=
  | Vec (v : list PyFloat.float)
  | Mat (m : list (list PyFloat.float)).

(** [t.shape] for the two ranks that occur. *)
Definition shape (t : tensor) : list nat :=
  match t with
  | Vec v => [length v]
  | Mat m => [length m; length (hd [] m)]
  end.

Inductive onnx_op : Type :=
  | Gemm
  | Relu.

Record onnx_model : Type := {
  onnx_graph : list onnx_op;
  onnx_initializers : gmap string tensor;
  onnx_opset : Z;
  onnx_input_names : list string;
  onnx_output_names : list string;
  onnx_dynamic_axes : list (string * (Z * string));
}.

Record DataFrame : Type := {
  columns : list string;
  rows : list (list PyFloat.float);
}.

Inductive file : Type :=
  | CsvFile (df : DataFrame)
  | CheckpointFile (sd : gmap string tensor)
  | OnnxFile (m : onnx_model).

Inductive fs_op : Type :=
  | MakeDirs (dir : string)
  | WriteFile (path : string).

(** [refusal] is the answer of the operating system to a mutating
    operation, given the operations carried out so far: [None] when it
    performs the operation, the [OSError] it raises otherwise (a path
    below a regular file, a directory in the place of a file, a missing
    parent directory, missing permissions, a full disk). *)
Record FileSystem : Type := {
  files : gmap string file;
  journal : list fs_op;
  refusal : list fs_op -> fs_op -> option exn;
}.

(** The effect of an operation that the operating system performs. *)
Definition write_file (path : string) (f : file) (fs : FileSystem) : FileSystem :=
  {| files := <[path := f]> (files fs);
     journal := journal fs ++ [WriteFile path];
     refusal := refusal fs |}.

Definition makedirs (dir : string) (fs : FileSystem) : FileSystem :=
  {| files := files fs;
     journal := journal fs ++ [MakeDirs dir];
     refusal := refusal fs |}.

Definition op_path (op : fs_op) : string :=
  match op with
  | MakeDirs dir => dir
  | WriteFile path => path
  end.

(** The operating system decides on an operation.  The empty path names
    no file and no directory: it is refused with [FileNotFoundError]
    whatever the state of the disk. *)
Definition os_check (op : fs_op) (fs : FileSystem) : result unit :=
  if String.eqb (op_path op) ""%string then Err FileNotFoundError
  else match refusal fs (journal fs) op with
       | Some e => Err e
       | None => Ok tt
       end.

(** [os.makedirs(dir, exist_ok=True)] *)
Definition try_makedirs (dir : string) (fs : FileSystem) : result FileSystem :=
  _ <~ os_check (MakeDirs dir) fs ;; Ok (makedirs dir fs).

(** Opening [path] for writing and writing [f]: nothing is written when
    the file cannot be opened. *)
Definition try_write_file (path : string) (f : file) (fs : FileSystem)
  : result FileSystem :=
  _ <~ os_check (WriteFile path) fs ;; Ok (write_file path f fs).

(** ** Python sequence slicing *)

(** Normalisation of a slice bound against a sequence of length [n]:
    negative bounds count from the end, everything is clamped to
    [[0, n]]. *)
Definition slice_bound (n : nat) (k : Z) : nat :=
  Z.to_nat (if k <? 0 then Z.max 0 (k + Z.of_nat n) else Z.min k (Z.of_nat n)).

(** [l[:k]] and [l[k:]]. *)
Definition slice_to {A : Type} (l : list A) (k : Z) : list A :=
  firstn (slice_bound (length l) k) l.

Definition slice_from {A : Type} (l : list A) (k : Z) : list A :=
  skipn (slice_bound (length l) k) l.

(** [l[i]] for a Python int index: negative indices wrap once. *)
Definition py_index {A : Type} (l : list A) (i : Z) : result A :=
  let n := Z.of_nat (length l) in
  let j := if i <? 0 then i + n else i in
  if (0 <=? j) && (j <? n) then
    match nth_error l (Z.to_nat j) with
    | Some a => Ok a
    | None => Err IndexError
    end
  else Err IndexError.

(** ** dataset.py *)

Module Dataset.

Import PyFloat.
Local Open Scope string_scope.
Local Open Scope Z_scope.

Definition FEATURE_COLS : list string :=
  [ "twaSin"; "twaCos"; "windSpeed"; "boatSpeed";
    "bearingToMarkSin"; "bearingToMarkCos"; "distToMark";
    "legUpwind"; "legDownwind"; "tack"; "raceTime";
    "stallTimer"; "tackTimer";
    "near1Bearing"; "near1Dist";
    "near2Bearing"; "near2Dist";
    "near3Bearing"; "near3Dist" ].

Definition TARGET_COLS : list string := [ "target_twa_sin"; "target_twa_cos" ].

Definition INPUT_DIM : nat := length FEATURE_COLS.
Definition OUTPUT_DIM : nat := length TARGET_COLS.

(** [pd.read_csv]: the file must exist and hold a table. *)
Definition read_csv (fs : FileSystem) (path : string) : result DataFrame :=
  match files fs !! path with
  | None => Err FileNotFoundError
  | Some (CsvFile df) => Ok df
  | Some _ => Err ParserError
  end.

(** Position of a column label in the header. *)
Fixpoint column_index (name : string) (cols : list string) : option nat :=
  match cols with
  | [] => None
  | c :: cs => if String.eqb c name then Some O
               else option_map S (column_index name cs)
  end.

(** Positions of a list of labels; a missing label is a [KeyError]. *)
Fixpoint column_indices (names cols : list string) : result (list nat) :=
  match names with
  | [] => Ok []
  | nm :: rest =>
      match column_index nm cols with
      | None => Err KeyError
      | Some i => ixs <~ column_indices rest cols ;; Ok (i :: ixs)
      end
  end.

(** [df[names].values]: the selected columns, in the order of [names];
    a short row reads as NaN, as pandas pads it. *)
Definition select_values (names : list string) (df : DataFrame)
  : result (list (list float)) :=
  ixs <~ column_indices names (columns df) ;;
  Ok (map (fun row => map (fun i => nth i row nan) ixs) (rows df)).

(** [torch.tensor(values, dtype=torch.float32)] *)
Definition float32_tensor (values : list (list float)) : list (list float) :=
  map (map to_f32) values.

Record SailingDataset : Type := {
  features : list (list float);
  targets : list (list float);
}.

Definition SailingDataset_init (fs : FileSystem) (csv_path : string)
  : result SailingDataset :=
  df <~ read_csv fs csv_path ;;
  fv <~ select_values FEATURE_COLS df ;;
  tv <~ select_values TARGET_COLS df ;;
  Ok {| features := float32_tensor fv; targets := float32_tensor tv |}.

Definition SailingDataset_len (ds : SailingDataset) : nat :=
  length (features ds).

Definition SailingDataset_getitem (ds : SailingDataset) (idx : Z)
  : result (list float * list float) :=
  f <~ py_index (features ds) idx ;;
  t <~ py_index (targets ds) idx ;;
  Ok (f, t).

(** [torch.utils.data.Subset]: a view, the dataset is shared. *)
Record Subset : Type := {
  dataset : SailingDataset;
  indices : list nat;
}.

Definition Subset_len (s : Subset) : nat := length (indices s).

Definition Subset_getitem (s : Subset) (idx : Z)
  : result (list float * list float) :=
  i <~ py_index (indices s) idx ;;
  SailingDataset_getitem (dataset s) (Z.of_nat i).

(** [np.random.default_rng(seed)]: a fresh generator determined by the
    seed alone; negative seeds are rejected. *)
Definition default_rng (seed : Z) : result Z :=
  if seed <? 0 then Err ValueError else Ok seed.

(** [int(n * (1 - val_fraction))] *)
Definition split_product (n : nat) (val_fraction : float) : result float :=
  c <~ int_sub 1 val_fraction ;;
  int_mul (Z.of_nat n) c.

Definition split_point (n : nat) (val_fraction : float) : result Z :=
  p <~ split_product n val_fraction ;;
  to_int p.

(** The spec's wording of the split point:
    [floor(n * (1 - val_fraction))], read on the same doubles. *)
Definition spec_split_point (n : nat) (val_fraction : float) : result Z :=
  p <~ split_product n val_fraction ;;
  floor p.

Definition default_val_fraction : float := literal 2 10.
Definition default_seed : Z := 42.

Section LoadAndSplit.

(** [rng.permutation(n)] for the generator seeded with [seed]: what a
    freshly seeded generator draws first.  [Session.load_and_split] has
    the generator as the object it is. *)
Variable permutation : Z -> nat -> list nat.

Definition load_and_split (fs : FileSystem) (csv_path : string)
    (val_fraction : float) (seed : Z) : result (Subset * Subset) :=
  ds <~ SailingDataset_init fs csv_path ;;
  let n := SailingDataset_len ds in
  rng <~ default_rng seed ;;
  let indices := permutation rng n in
  split <~ split_point n val_fraction ;;
  let train_idx := slice_to indices split in
  let val_idx := slice_from indices split in
  let train_ds := {| dataset := ds; indices := train_idx |} in
  let val_ds := {| dataset := ds; indices := val_idx |} in
  Ok (train_ds, val_ds).

End LoadAndSplit.

(** The header holds every feature and target column. *)
Definition has_required_columns (df : DataFrame) : Prop :=
  Forall (fun c => In c (columns df)) (FEATURE_COLS ++ TARGET_COLS).

(** Two views over one dataset of [n] samples whose index lists are
    disjoint, cover exactly the indices below [n] and have [n] entries in
    all. *)
Definition partitions (n : nat) (train_ds val_ds : Subset) : Prop :=
  dataset train_ds = dataset val_ds
  /\ SailingDataset_len (dataset train_ds) = n
  /\ (forall i, In i (indices train_ds) -> ~ In i (indices val_ds))
  /\ (forall i, In i (indices train_ds) \/ In i (indices val_ds) <-> (i < n)%nat)
  /\ (Subset_len train_ds + Subset_len val_ds = n)%nat.

(** The index lists of a pair of views. *)
Definition view_indices (r : result (Subset * Subset))
  : result (list nat * list nat) :=
  p <~ r ;; Ok (indices (fst p), indices (snd p)).

(** A stand-in for numpy's generator on concrete inputs: it rotates the
    identity by [seed] places.  Only used to evaluate the definitions. *)
Definition rotate_permutation (seed : Z) (n : nat) : list nat :=
  let k := (Z.to_nat seed mod (Nat.max n 1))%nat in
  skipn k (seq 0 n) ++ firstn k (seq 0 n).

(** A table of [n] rows whose header is the canonical column list and
    whose cells all hold [v]. *)
Definition constant_frame (n : nat) (v : float) : DataFrame :=
  {| columns := FEATURE_COLS ++ TARGET_COLS;
     rows := repeat (repeat v (INPUT_DIM + OUTPUT_DIM)) n |}.

Definition single_file (path : string) (f : file) : FileSystem :=
  {| files := {[ path := f ]}; journal := []; refusal := fun _ _ => None |}.

End Dataset.

(** ** numpy's random generators

    A generator is a mutable object: [np.random.default_rng] creates
    one, its methods advance its state.  The store holds every generator
    alive in the interpreter, the global one of [np.random] included. *)

Module Numpy.

(** The bit generator of the library: the type of its states, the state
    a seed initialises, and how drawing a permutation of [n] positions
    advances a state. *)
Record BitGenerator : Type := {
  state : Type;
  seeded : Z -> state;
  draw_permutation : state -> nat -> state * list nat;
}.

(** A computation on the store that returns or raises. *)
Definition rng (bg : BitGenerator) (A : Type) : Type :=
  gmap positive (state bg) -> gmap positive (state bg) * result A.

Definition rng_ret {bg : BitGenerator} {A : Type} (a : A) : rng bg A :=
  fun s => (s, Ok a).

Definition rng_bind {bg : BitGenerator} {A B : Type} (m : rng bg A)
    (k : A -> rng bg B) : rng bg B :=
  fun s =>
    match m s with
    | (s', Ok a) => k a s'
    | (s', Err e) => (s', Err e)
    end.

Definition rng_lift {bg : BitGenerator} {A : Type} (r : result A) : rng bg A :=
  fun s => (s, r).

Section Generators.

Variable bg : BitGenerator.

(** [np.random.default_rng(seed)]: a new object, initialised from the
    seed alone; a negative seed is rejected. *)
Definition default_rng (seed : Z) : rng bg positive :=
  fun s =>
    if seed <? 0 then (s, Err ValueError)
    else
      let r := fresh (dom s) in
      (<[r := seeded bg seed]> s, Ok r).

(** [rng.permutation(n)]: draws from the object behind the reference
    and leaves it advanced.  A reference always names a live object; the
    first branch is there for totality. *)
Definition Generator_permutation (r : positive) (n : nat) : rng bg (list nat) :=
  fun s =>
    match s !! r with
    | None => (s, Err RuntimeError)
    | Some g =>
        let '(g', p) := draw_permutation bg g n in
        (<[r := g']> s, Ok p)
    end.

(** What a generator seeded with [seed] draws first. *)
Definition seeded_permutation (seed : Z) (n : nat) : list nat :=
  snd (draw_permutation bg (seeded bg seed) n).

End Generators.

(** A stand-in for the library's bit generator on concrete inputs: the
    state counts from the seed and a draw rotates the identity by the
    state.  Only used to evaluate the definitions. *)
Definition counting_generator : BitGenerator :=
  {| state := Z;
     seeded := fun seed => seed;
     draw_permutation := fun g n => (g + 1, Dataset.rotate_permutation g n) |}.

End Numpy.

(** ** dataset.py, called in a running interpreter *)

Module Session.

Import PyFloat Dataset Numpy.

Notation "x <<- m ;; k" := (rng_bind m (fun x => k))
  (at level 100, m at next level, right associativity).

(** [load_and_split] with the generator as the object it is. *)
Definition load_and_split (bg : BitGenerator) (fs : FileSystem)
    (csv_path : string) (val_fraction : float) (seed : Z)
  : rng bg (Subset * Subset) :=
  ds <<- rng_lift (SailingDataset_init fs csv_path) ;;
  let n := SailingDataset_len ds in
  rng <<- Numpy.default_rng bg seed ;;
  indices <<- Generator_permutation bg rng n ;;
  split <<- rng_lift (split_point n val_fraction) ;;
  let train_idx := slice_to indices split in
  let val_idx := slice_from indices split in
  let train_ds := {| dataset := ds; indices := train_idx |} in
  let val_ds := {| dataset := ds; indices := val_idx |} in
  rng_ret (train_ds, val_ds).

End Session.

(** ** model.py *)

Module Model.

Import PyFloat Dataset.
Local Open Scope string_scope.
Local Open Scope nat_scope.

(** float32 arithmetic of the tensor library *)
Definition add32 : float -> float -> float := SFadd 24 128.
Definition mul32 : float -> float -> float := SFmul 24 128.

(** [nn.ReLU] on one element: negative numbers become zero, NaN stays. *)
Definition relu (x : float) : float :=
  if SFltb x zero then zero else x.

Record Linear : Type := {
  in_features : nat;
  out_features : nat;
  weight : list (list float);
  bias : list float;
}.

Inductive layer : Type :=
  | LinearLayer (l : Linear)
  | ReLULayer.

(** [nn.Linear(n_in, n_out)]: a weight of shape [(n_out, n_in)] and a
    bias of shape [(n_out)], filled by the library's initialiser
    [init row col] (the bias takes column [n_in]). *)
Definition Linear_init (init : nat -> nat -> float) (n_in n_out : nat) : Linear :=
  {| in_features := n_in;
     out_features := n_out;
     weight := map (fun i => map (init i) (seq 0 n_in)) (seq 0 n_out);
     bias := map (fun i => init i n_in) (seq 0 n_out) |}.

Record SailingAI : Type := {
  net : list layer;
  training : bool;
}.

(** [SailingAI(input_dim, output_dim)]; [init k] initialises the
    [k]-th linear layer. *)
Definition SailingAI_init (init : nat -> nat -> nat -> float)
    (input_dim output_dim : nat) : SailingAI :=
  {| net := [ LinearLayer (Linear_init (init 0) input_dim 128);
              ReLULayer;
              LinearLayer (Linear_init (init 1) 128 64);
              ReLULayer;
              LinearLayer (Linear_init (init 2) 64 32);
              ReLULayer;
              LinearLayer (Linear_init (init 3) 32 output_dim) ];
     training := true |}.

Definition SailingAI_default (init : nat -> nat -> nat -> float) : SailingAI :=
  SailingAI_init init INPUT_DIM OUTPUT_DIM.

Definition set_training (mode : bool) (m : SailingAI) : SailingAI :=
  {| net := net m; training := mode |}.

Definition dot (u v : list float) : float :=
  fold_left (fun acc p => add32 acc (mul32 (fst p) (snd p))) (combine u v) zero.

(** [x @ weight.T + bias] on a batch of rows; a row whose width is not
    [in_features] is the library's shape error. *)
Definition Linear_forward (l : Linear) (x : list (list float))
  : result (list (list float)) :=
  if forallb (fun row => Nat.eqb (length row) (in_features l)) x then
    Ok (map (fun row =>
               map (fun wb => add32 (dot row (fst wb)) (snd wb))
                   (combine (weight l) (bias l))) x)
  else Err RuntimeError.

Definition layer_forward (ly : layer) (x : list (list float))
  : result (list (list float)) :=
  match ly with
  | LinearLayer l => Linear_forward l x
  | ReLULayer => Ok (map (map relu) x)
  end.

(** [nn.Sequential.forward]: the layers in order. *)
Fixpoint Sequential_forward (layers : list layer) (x : list (list float))
  : result (list (list float)) :=
  match layers with
  | [] => Ok x
  | ly :: rest => y <~ layer_forward ly x ;; Sequential_forward rest y
  end.

Definition forward (m : SailingAI) (x : list (list float))
  : result (list (list float)) :=
  Sequential_forward (net m) x.

(** A batch of [b] rows of width [c]. *)
Definition has_shape (b c : nat) (x : list (list float)) : Prop :=
  length x = b /\ Forall (fun row => length row = c) x.

Definition Linear_shaped (n_in n_out : nat) (l : Linear) : Prop :=
  in_features l = n_in /\ has_shape n_out n_in (weight l) /\ length (bias l) = n_out.

(** The topology built by the constructor, whatever the parameter
    values. *)
Definition SailingAI_shaped (m : SailingAI) : Prop :=
  exists l1 l2 l3 l4,
    net m = [ LinearLayer l1; ReLULayer; LinearLayer l2; ReLULayer;
              LinearLayer l3; ReLULayer; LinearLayer l4 ]
    /\ Linear_shaped 19 128 l1 /\ Linear_shaped 128 64 l2
    /\ Linear_shaped 64 32 l3 /\ Linear_shaped 32 2 l4.

(** *** Parameter names and checkpoints *)

Definition param_name (i : nat) (field : string) : string :=
  "net." ++ pretty i ++ "." ++ field.

Fixpoint named_parameters_from (i : nat) (layers : list layer)
  : list (string * tensor) :=
  match layers with
  | [] => []
  | LinearLayer l :: rest =>
      (param_name i "weight", Mat (weight l))
        :: (param_name i "bias", Vec (bias l))
        :: named_parameters_from (S i) rest
  | ReLULayer :: rest => named_parameters_from (S i) rest
  end.

Definition named_parameters (m : SailingAI) : list (string * tensor) :=
  named_parameters_from 0 (net m).

Definition state_dict (m : SailingAI) : gmap string tensor :=
  list_to_map (named_parameters m).

(** One parameter of a strict load: the key must be present and the
    stored tensor must have the shape of the model's parameter. *)
Definition load_param (sd : gmap string tensor) (name : string)
    (current : tensor) : result tensor :=
  match sd !! name with
  | None => Err RuntimeError
  | Some t => if bool_decide (shape t = shape current) then Ok t
              else Err RuntimeError
  end.

Fixpoint load_layers (i : nat) (layers : list layer) (sd : gmap string tensor)
  : result (list layer) :=
  match layers with
  | [] => Ok []
  | ReLULayer :: rest =>
      rest' <~ load_layers (S i) rest sd ;; Ok (ReLULayer :: rest')
  | LinearLayer l :: rest =>
      w <~ load_param sd (param_name i "weight") (Mat (weight l)) ;;
      b <~ load_param sd (param_name i "bias") (Vec (bias l)) ;;
      rest' <~ load_layers (S i) rest sd ;;
      match w, b with
      | Mat w', Vec b' =>
          Ok (LinearLayer {| in_features := in_features l;
                             out_features := out_features l;
                             weight := w'; bias := b' |} :: rest')
      | _, _ => Err RuntimeError
      end
  end.

(** [model.load_state_dict(sd)] with the default [strict=True]: missing
    keys, unexpected keys and size mismatches are all errors. *)
Definition load_state_dict (m : SailingAI) (sd : gmap string tensor)
  : result SailingAI :=
  if bool_decide (dom sd ⊆ dom (state_dict m)) then
    layers <~ load_layers 0 (net m) sd ;;
    Ok {| net := layers; training := training m |}
  else Err RuntimeError.

(** The checkpoint has exactly the model's parameter names, each with
    the model's shape. *)
Definition state_dict_matches (m : SailingAI) (sd : gmap string tensor) : Prop :=
  dom sd = dom (state_dict m)
  /\ forall k t t', sd !! k = Some t -> state_dict m !! k = Some t' ->
                    shape t = shape t'.

End Model.

(** ** Programs with a file system, an output stream and exceptions *)

Inductive event : Type :=
  | PrintDevice (cuda : bool)
  | PrintSamples (n_train n_val : nat)
  | PrintWarning
  | PrintEpoch (epoch epochs : Z) (avg_train avg_val lr : PyFloat.float)
  | PrintSaved (best : PyFloat.float)
  | PrintEarlyStop (epoch patience : Z)
  | PrintComplete (best : PyFloat.float)
  | PrintModelSavedTo (path : string)
  | PrintExported (path : string)
  | PrintInputShape (dim : nat)
  | PrintOutputShape.

Record world : Type := {
  fs : FileSystem;
  stdout : list event;
}.

(** A computation transforms the world and either returns or raises; the
    effects performed before an exception stay. *)
Definition io (A : Type) : Type := world -> world * result A.

Definition io_ret {A : Type} (a : A) : io A := fun w => (w, Ok a).

Definition io_bind {A B : Type} (m : io A) (k : A -> io B) : io B :=
  fun w =>
    match m w with
    | (w', Ok a) => k a w'
    | (w', Err e) => (w', Err e)
    end.

Notation "x <- m ;;; k" := (io_bind m (fun x => k))
  (at level 100, m at next level, right associativity).
Notation "m ;;; k" := (io_bind m (fun _ => k))
  (at level 100, right associativity).

(** A pure, possibly failing step. *)
Definition io_lift {A : Type} (r : result A) : io A := fun w => (w, r).

Definition print (e : event) : io unit :=
  fun w => ({| fs := fs w; stdout := stdout w ++ [e] |}, Ok tt).

(** A step on the file system that the operating system may refuse; a
    refused step changes nothing. *)
Definition try_fs (f : FileSystem -> result FileSystem) : io unit :=
  fun w =>
    match f (fs w) with
    | Ok fs' => ({| fs := fs'; stdout := stdout w |}, Ok tt)
    | Err e => (w, Err e)
    end.

Definition read_fs {A : Type} (f : FileSystem -> result A) : io A :=
  fun w => (w, f (fs w)).

(** A process starts on a file system with an empty output stream. *)
Definition run_main {A : Type} (m : io A) (fs0 : FileSystem) : world * result A :=
  m {| fs := fs0; stdout := [] |}.

(** ** Paths *)

Module Path.

Definition slash : ascii := "/"%char.

Definition is_slash (c : ascii) : bool := Ascii.eqb c slash.

Fixpoint drop_while {A : Type} (f : A -> bool) (l : list A) : list A :=
  match l with
  | [] => []
  | a :: rest => if f a then drop_while f rest else l
  end.

(** [os.path.dirname]: everything up to the last slash, without the
    trailing slashes unless the head is made of slashes only. *)
Definition dirname (p : string) : string :=
  let head_rev := drop_while (fun c => negb (is_slash c))
                             (rev (list_ascii_of_string p)) in
  if forallb is_slash head_rev then string_of_list_ascii (rev head_rev)
  else string_of_list_ascii (rev (drop_while is_slash head_rev)).

(** [os.path.dirname(p) or "."] *)
Definition dirname_or_dot (p : string) : string :=
  let d := dirname p in
  if String.eqb d ""%string then "."%string else d.

End Path.

(** ** train.py *)

Module Train.

Import PyFloat Dataset Model.
Local Open Scope Z_scope.

Definition sample : Type := (list float * list float)%type.

Record Args : Type := {
  data : string;
  output : string;
  epochs : Z;
  batch_size : Z;
  lr : float;
  patience : Z;
}.

(** What the numerical libraries contribute.  [Trainer] gathers the
    model parameters, the optimiser and scheduler state and the state
    of torch's random generator.
    - [new_trainer lr epochs] stands for the three constructors
      [SailingAI().to(device)], [Adam(..., lr=lr)] and
      [CosineAnnealingLR(..., T_max=epochs)]; a constructor may reject
      its argument (the optimiser raises [ValueError] on a negative
      learning rate).
    - [random_order] is the iterator of a shuffling loader: it draws
      from torch's generator.  [base_seed] is what creating the iterator
      of a loader that does not shuffle does to that generator. *)
Record Backend : Type := {
  Trainer : Type;
  cuda_is_available : bool;
  permutation : Z -> nat -> list nat;
  new_trainer : float -> Z -> result Trainer;
  model : Trainer -> SailingAI;
  set_mode : bool -> Trainer -> Trainer;
  random_order : Trainer -> nat -> Trainer * list nat;
  base_seed : Trainer -> Trainer;
  fit_batch : Trainer -> list sample -> Trainer * float;
  scheduler_step : Trainer -> Trainer;
  get_last_lr : Trainer -> float;
  eval_batch : Trainer -> list sample -> float;
}.

(** *** DataLoader *)

Record DataLoader : Type := {
  dl_dataset : Subset;
  dl_batch_size : nat;
  dl_shuffle : bool;
  dl_drop_last : bool;
}.

(** [DataLoader(ds, batch_size=..., shuffle=..., drop_last=...)]: with
    [shuffle] the loader builds a [RandomSampler], which rejects an empty
    dataset; the batch sampler then rejects a batch size that is not
    positive.  Both raise [ValueError]. *)
Definition DataLoader_init (ds : Subset) (batch_size : Z)
    (shuffle drop_last : bool) : result DataLoader :=
  if shuffle && (Subset_len ds =? 0)%nat then Err ValueError
  else if batch_size <=? 0 then Err ValueError
  else Ok {| dl_dataset := ds; dl_batch_size := Z.to_nat batch_size;
             dl_shuffle := shuffle; dl_drop_last := drop_last |}.

(** Consecutive groups of [bs] positions; the last one may be short. *)
Fixpoint chunks {A : Type} (fuel bs : nat) (l : list A) : list (list A) :=
  match fuel with
  | O => []
  | S fuel' =>
      match l with
      | [] => []
      | _ :: _ => firstn bs l :: chunks fuel' bs (skipn bs l)
      end
  end.

Definition batches {A : Type} (bs : nat) (drop_last : bool) (l : list A)
  : list (list A) :=
  let cs := chunks (length l) bs l in
  if drop_last then List.filter (fun c => Nat.eqb (length c) bs) cs else cs.

(** The rows of one batch. *)
Fixpoint fetch (ds : Subset) (positions : list nat) : result (list sample) :=
  match positions with
  | [] => Ok []
  | p :: rest =>
      s <~ Subset_getitem ds (Z.of_nat p) ;;
      ss <~ fetch ds rest ;;
      Ok (s :: ss)
  end.

Section Loop.

Variable B : Backend.

(** The position batches of one pass over a loader. *)
Definition loader_batches (dl : DataLoader) (t : Trainer B)
  : Trainer B * list (list nat) :=
  let n := Subset_len (dl_dataset dl) in
  let '(t', order) :=
    if dl_shuffle dl then random_order B t n
    else (base_seed B t, seq 0 n) in
  (t', batches (dl_batch_size dl) (dl_drop_last dl) order).

(** The body of [for features, targets in train_loader]. *)
Fixpoint fit_batches (ds : Subset) (bl : list (list nat)) (t : Trainer B)
    (train_loss : float) (train_batches : Z)
  : result (Trainer B * float * Z) :=
  match bl with
  | [] => Ok (t, train_loss, train_batches)
  | b :: rest =>
      ss <~ fetch ds b ;;
      let '(t', loss) := fit_batch B t ss in
      fit_batches ds rest t' (add train_loss loss) (train_batches + 1)
  end.

(** The body of [for features, targets in val_loader]. *)
Fixpoint eval_batches (ds : Subset) (bl : list (list nat)) (t : Trainer B)
    (val_loss : float) (val_batches : Z) : result (float * Z) :=
  match bl with
  | [] => Ok (val_loss, val_batches)
  | b :: rest =>
      ss <~ fetch ds b ;;
      eval_batches ds rest t (add val_loss (eval_batch B t ss)) (val_batches + 1)
  end.

(** [loss_sum / max(n_batches, 1)] *)
Definition average (loss_sum : float) (n_batches : Z) : result float :=
  div_int loss_sum (Z.max n_batches 1).

(** First half of the loop body: one training pass, the scheduler
    step, one validation pass and the two averages. *)
Definition epoch_losses (train_loader val_loader : DataLoader) (t : Trainer B)
  : result (Trainer B * float * float) :=
  let t := set_mode B true t in
  let '(t, train_bl) := loader_batches train_loader t in
  r <~ fit_batches (dl_dataset train_loader) train_bl t zero 0 ;;
  let '(t, train_loss, train_batches) := r in
  let t := scheduler_step B t in
  let t := set_mode B false t in
  let '(t, val_bl) := loader_batches val_loader t in
  v <~ eval_batches (dl_dataset val_loader) val_bl t zero 0 ;;
  let '(val_loss, val_batches) := v in
  avg_train <~ average train_loss train_batches ;;
  avg_val <~ average val_loss val_batches ;;
  Ok (t, avg_train, avg_val).

(** The variables the loop carries from one epoch to the next. *)
Record locals : Type := {
  trainer : Trainer B;
  best_val_loss : float;
  patience_counter : Z;
}.

Definition save_checkpoint (path : string) (t : Trainer B) : io unit :=
  try_fs (try_makedirs (Path.dirname_or_dot path)) ;;;
  try_fs (try_write_file path (CheckpointFile (state_dict (model B t)))).

(** The operating system lets the directory of [path] be created and
    then [path] be written. *)
Definition accepts_save (path : string) (fs : FileSystem) : Prop :=
  os_check (MakeDirs (Path.dirname_or_dot path)) fs = Ok tt
  /\ os_check (WriteFile path) (makedirs (Path.dirname_or_dot path) fs) = Ok tt.

(** Second half of the loop body; the boolean is [true] on [break]. *)
Definition epoch_update (args : Args) (epoch : Z) (t : Trainer B)
    (avg_train avg_val : float) (st : locals) : io (locals * bool) :=
  print (PrintEpoch epoch (epochs args) avg_train avg_val (get_last_lr B t)) ;;;
  if ltb avg_val (best_val_loss st) then
    save_checkpoint (output args) t ;;;
    print (PrintSaved avg_val) ;;;
    io_ret ({| trainer := t; best_val_loss := avg_val;
               patience_counter := 0 |}, false)
  else
    let c := patience_counter st + 1 in
    let st' := {| trainer := t; best_val_loss := best_val_loss st;
                  patience_counter := c |} in
    if patience args <=? c then
      print (PrintEarlyStop epoch (patience args)) ;;;
      io_ret (st', true)
    else io_ret (st', false).

Definition run_epoch (args : Args) (train_loader val_loader : DataLoader)
    (epoch : Z) (st : locals) : io (locals * bool) :=
  r <- io_lift (epoch_losses train_loader val_loader (trainer st)) ;;;
  let '(t, avg_train, avg_val) := r in
  epoch_update args epoch t avg_train avg_val st.

Fixpoint epoch_loop (args : Args) (train_loader val_loader : DataLoader)
    (epoch_range : list Z) (st : locals) : io locals :=
  match epoch_range with
  | [] => io_ret st
  | epoch :: rest =>
      r <- run_epoch args train_loader val_loader epoch st ;;;
      if snd r then io_ret (fst r)
      else epoch_loop args train_loader val_loader rest (fst r)
  end.

(** [range(1, epochs + 1)] *)
Definition epoch_range (epochs : Z) : list Z :=
  map Z.of_nat (seq 1 (Z.to_nat epochs)).

Definition train (args : Args) : io locals :=
  print (PrintDevice (cuda_is_available B)) ;;;
  p <- read_fs (fun fs =>
         load_and_split (permutation B) fs (data args)
                        default_val_fraction default_seed) ;;;
  let '(train_ds, val_ds) := p in
  print (PrintSamples (Subset_len train_ds) (Subset_len val_ds)) ;;;
  (if (Subset_len train_ds <? 100)%nat then print PrintWarning
   else io_ret tt) ;;;
  train_loader <- io_lift (DataLoader_init train_ds (batch_size args) true true) ;;;
  val_loader <- io_lift (DataLoader_init val_ds (batch_size args) false false) ;;;
  t0 <- io_lift (new_trainer B (lr args) (epochs args)) ;;;
  let st0 := {| trainer := t0;
                best_val_loss := inf;
                patience_counter := 0 |} in
  st <- epoch_loop args train_loader val_loader (epoch_range (epochs args)) st0 ;;;
  print (PrintComplete (best_val_loss st)) ;;;
  print (PrintModelSavedTo (output args)) ;;;
  io_ret st.

End Loop.

Arguments trainer {B} _.
Arguments best_val_loss {B} _.
Arguments patience_counter {B} _.

(** *** Reading a run off its output *)

(** For every epoch line, in order: was it followed by the line that
    reports a saved checkpoint? *)
Definition mark_last (os : list bool) : list bool :=
  match rev os with
  | [] => []
  | _ :: r => rev (true :: r)
  end.

Definition outcome_step (os : list bool) (e : event) : list bool :=
  match e with
  | PrintEpoch _ _ _ _ _ => os ++ [false]
  | PrintSaved _ => mark_last os
  | _ => os
  end.

Definition outcomes (out : list event) : list bool :=
  fold_left outcome_step out [].

(** The epoch numbers and the validation averages of the epoch lines. *)
Definition epoch_lines (out : list event) : list (Z * float) :=
  flat_map (fun e => match e with
                     | PrintEpoch ep _ _ av _ => [(ep, av)]
                     | _ => []
                     end) out.

Definition early_stopped (out : list event) : bool :=
  existsb (fun e => match e with PrintEarlyStop _ _ => true | _ => false end) out.

(** Number of trailing non-improving epochs. *)
Fixpoint leading_false (l : list bool) : nat :=
  match l with
  | false :: r => S (leading_false r)
  | _ => O
  end.

Definition stall (os : list bool) : nat := leading_false (rev os).

(** The 1-based position of the last improving epoch, [0] when there is
    none: the epoch that produced the best loss. *)
Definition best_epoch (os : list bool) : nat := (length os - stall os)%nat.

(** The best validation average after the epochs [vals], from [best]. *)
Definition running_best (best : float) (vals : list float) : float :=
  fold_left (fun b v => if ltb v b then v else b) vals best.

(** For every epoch: does its validation average strictly improve on the
    best seen before it? *)
Fixpoint improvements (best : float) (vals : list float) : list bool :=
  match vals with
  | [] => []
  | v :: rest =>
      if ltb v best then true :: improvements v rest
      else false :: improvements best rest
  end.

Definition checkpoint_exists (fs : FileSystem) (path : string) : Prop :=
  exists sd, files fs !! path = Some (CheckpointFile sd).

(** What holds of the loop variables and the world between two epochs
    and when the loop is left. *)
Record loop_inv (B : Backend) (args : Args) (st : locals B) (w : world) : Prop := {
  inv_epochs :
    map fst (epoch_lines (stdout w))
    = epoch_range (Z.of_nat (length (outcomes (stdout w))));
  inv_outcomes :
    outcomes (stdout w) = improvements inf (map snd (epoch_lines (stdout w)));
  inv_best :
    best_val_loss st = running_best inf (map snd (epoch_lines (stdout w)));
  inv_counter :
    patience_counter st = Z.of_nat (stall (outcomes (stdout w)));
  inv_saved :
    existsb id (outcomes (stdout w)) = true ->
    checkpoint_exists (fs w) (output args);
  inv_windows :
    forall pre post, outcomes (stdout w) = pre ++ post -> post <> [] ->
      stall pre = O \/ Z.of_nat (stall pre) < patience args;
}.

(** *** A backend that replays given validation losses

    The trainer state counts scheduler steps; every validation batch of
    epoch [k] evaluates to the [k]-th scripted loss, every training
    batch to zero.  Only used to evaluate the definitions. *)
Definition scripted (script : list float) : Backend :=
  {| Trainer := nat;
     cuda_is_available := false;
     permutation := rotate_permutation;
     new_trainer := fun _ _ => Ok O;
     model := fun _ => SailingAI_default (fun _ _ _ => zero);
     set_mode := fun _ t => t;
     random_order := fun t n => (t, seq 0 n);
     base_seed := fun t => t;
     fit_batch := fun t _ => (t, zero);
     scheduler_step := S;
     get_last_lr := fun _ => zero;
     eval_batch := fun t _ => nth (t - 1) script nan |}.

Definition one : float := literal 1 1.

Definition demo_args (n_epochs n_patience : Z) : Args :=
  {| data := "data/training_data.csv";
     output := "checkpoints/sailing_ai.pt";
     epochs := n_epochs;
     batch_size := 256;
     lr := literal 1 1000;
     patience := n_patience |}.

Definition demo_fs (n_rows : nat) : FileSystem :=
  single_file "data/training_data.csv" (CsvFile (constant_frame n_rows zero)).

Definition demo_dataset (n : nat) : SailingDataset :=
  {| features := repeat (repeat zero INPUT_DIM) n;
     targets := repeat (repeat zero OUTPUT_DIM) n |}.

(** Eight training samples and two validation samples, batches of 256. *)
Definition demo_train_loader : DataLoader :=
  {| dl_dataset := {| dataset := demo_dataset 10; indices := seq 0 8 |};
     dl_batch_size := 256; dl_shuffle := true; dl_drop_last := true |}.

Definition demo_val_loader : DataLoader :=
  {| dl_dataset := {| dataset := demo_dataset 10; indices := [8; 9]%nat |};
     dl_batch_size := 256; dl_shuffle := false; dl_drop_last := false |}.



(** The world left by [train] on ten rows with the scripted losses. *)
Definition demo_run (script : list float) (n_epochs n_patience : Z) : world :=
  fst (run_main (train (scripted script) (demo_args n_epochs n_patience))
                (demo_fs 10)).

End Train.

(** ** export_onnx.py *)

Module ExportOnnx.

Import PyFloat Dataset Model.
Local Open Scope string_scope.
Local Open Scope Z_scope.

Record Args : Type := {
  checkpoint : string;
  output : string;
}.

(** [torch.load(path, map_location="cpu", weights_only=True)] *)
Definition torch_load (fs : FileSystem) (path : string)
  : result (gmap string tensor) :=
  match files fs !! path with
  | None => Err FileNotFoundError
  | Some (CheckpointFile sd) => Ok sd
  | Some _ => Err UnpicklingError
  end.

Definition op_of_layer (ly : layer) : onnx_op :=
  match ly with
  | LinearLayer _ => Gemm
  | ReLULayer => Relu
  end.

(** [torch.onnx.export]: the model is traced on the dummy input, then
    the graph and the parameters are written. *)
Definition onnx_export (m : SailingAI) (dummy_input : list (list float))
    (path : string) : io unit :=
  _ <- io_lift (forward m dummy_input) ;;;
  try_fs (try_write_file path (OnnxFile
    {| onnx_graph := map op_of_layer (net m);
       onnx_initializers := state_dict m;
       onnx_opset := 17;
       onnx_input_names := ["features"];
       onnx_output_names := ["heading"];
       onnx_dynamic_axes := [("features", (0, "batch_size"));
                             ("heading", (0, "batch_size"))] |})).

Section Exporter.

(** The initialiser of a fresh model and [torch.randn]. *)
Variable init : nat -> nat -> nat -> float.
Variable randn : nat -> nat -> list (list float).

Definition export (args : Args) : io unit :=
  let model := SailingAI_default init in
  sd <- read_fs (fun fs => torch_load fs (checkpoint args)) ;;;
  model <- io_lift (load_state_dict model sd) ;;;
  let model := set_training false model in
  let dummy_input := randn 1%nat INPUT_DIM in
  onnx_export model dummy_input (output args) ;;;
  print (PrintExported (output args)) ;;;
  print (PrintInputShape INPUT_DIM) ;;;
  print PrintOutputShape.

End Exporter.

(** A checkpoint of a network whose first hidden layer is 64 wide. *)
Definition narrow_checkpoint : gmap string tensor :=
  state_dict
    {| net := [ LinearLayer (Linear_init (fun _ _ => zero) 19 64);
                ReLULayer;
                LinearLayer (Linear_init (fun _ _ => zero) 64 64);
                ReLULayer;
                LinearLayer (Linear_init (fun _ _ => zero) 64 32);
                ReLULayer;
                LinearLayer (Linear_init (fun _ _ => zero) 32 2) ];
       training := false |}.

Definition zero_init : nat -> nat -> nat -> float := fun _ _ _ => zero.

Definition zeros : nat -> nat -> list (list float) :=
  fun r c => repeat (repeat zero c) r.

Definition demo_args : Args :=
  {| checkpoint := "checkpoints/sailing_ai.pt";
     output := "../server/models/sailing_ai.onnx" |}.

End ExportOnnx.

(** ** Further definitions used by the additional properties *)

Module Extras.

Import PyFloat Dataset Model Train.
Local Open Scope Z_scope.

(** Every row has one cell per column. *)
Definition rectangular (df : DataFrame) : Prop :=
  Forall (fun row => length row = length (columns df)) (rows df).

(** The table [df] with further columns appended on the right: [cells]
    gives, row by row, the cells of the new columns. *)
Definition append_columns (df : DataFrame) (names : list string)
    (cells : list (list float)) : DataFrame :=
  {| columns := columns df ++ names;
     rows := map (fun rc => fst rc ++ snd rc) (combine (rows df) cells) |}.

(** A table that has the feature columns but no target column. *)
Definition features_only_frame (n : nat) : DataFrame :=
  {| columns := FEATURE_COLS; rows := repeat (repeat zero INPUT_DIM) n |}.

(** The lines the epoch loop prints. *)
Definition loop_event (e : event) : Prop :=
  match e with
  | PrintEpoch _ _ _ _ _ | PrintSaved _ | PrintEarlyStop _ _ => True
  | _ => False
  end.

(** The two file-system operations of saving a checkpoint at [path]. *)
Definition checkpoint_op (path : string) (op : fs_op) : Prop :=
  op = MakeDirs (Path.dirname_or_dot path) \/ op = WriteFile path.

(** [fs'] is [fs] after zero or more checkpoints of the backend's model
    have been saved at [path], and nothing else. *)
Definition only_checkpoint_written (B : Backend) (path : string)
    (fs fs' : FileSystem) : Prop :=
  (forall p, p <> path -> files fs' !! p = files fs !! p)
  /\ (files fs' !! path = files fs !! path
      \/ exists t, files fs' !! path
                   = Some (CheckpointFile (state_dict (model B t))))
  /\ exists ops, journal fs' = journal fs ++ ops
                 /\ Forall (checkpoint_op path) ops.

(** The operating system, whatever has been done before, refuses
    neither of the two operations of a save at [path], which is not the
    empty path. *)
Definition never_refused (path : string) (fs : FileSystem) : Prop :=
  path <> ""%string
  /\ forall h op, checkpoint_op path op -> refusal fs h op = None.

(** Every position of the view can be fetched. *)
Definition fetchable (v : Subset) : Prop :=
  forall idx, 0 <= idx < Z.of_nat (Subset_len v) ->
              exists s, Subset_getitem v idx = Ok s.

(** What is assumed of the two random sources of a backend: numpy's
    permutation and the sampler's order are permutations of the positions
    [0 .. n-1]. *)
Definition shuffles (B : Backend) : Prop :=
  (forall seed n, Permutation (permutation B seed n) (seq 0 n))
  /\ (forall t n, Permutation (snd (random_order B t n)) (seq 0 n)).

(** Two layers of the same kind whose parameters have the same
    shapes. *)
Definition layer_compat (ly ly' : layer) : Prop :=
  match ly, ly' with
  | ReLULayer, ReLULayer => True
  | LinearLayer l, LinearLayer l' =>
      in_features l = in_features l'
      /\ shape (Mat (weight l)) = shape (Mat (weight l'))
      /\ length (bias l) = length (bias l')
  | _, _ => False
  end.



End Extras.

(** * Properties *)

(** ** Results and floats *)

Lemma rbind_ok {A B : Type} (r : result A) (k : A -> result B) (b : B) :
  rbind r k = Ok b -> exists a, r = Ok a /\ k a = Ok b.
Proof.
  destruct r as [a | e]; simpl; intros H; [eauto | discriminate].
Qed.

Ltac inv_ok H :=
  repeat match type of H with
  | rbind _ _ = Ok _ =>
      let a := fresh "a" in
      let Ha := fresh "Ha" in
      apply rbind_ok in H; destruct H as (a & Ha & H)
  | Ok _ = Ok _ => injection H as H
  end.

Lemma to_int_floor_nonneg (x : PyFloat.float) :
  PyFloat.nonneg x = true -> PyFloat.floor x = PyFloat.to_int x.
Proof.
  destruct x as [s | s | | s m e]; simpl; try discriminate; auto.
  destruct s; [discriminate | reflexivity].
Qed.

Lemma to_int_nonneg (x : PyFloat.float) (k : Z) :
  PyFloat.nonneg x = true -> PyFloat.to_int x = Ok k -> 0 <= k.
Proof.
  destruct x as [s | s | | s m e]; simpl; try discriminate.
  - intros _ [= <-]. lia.
  - destruct s; [discriminate |]. intros _ [= <-].
    unfold PyFloat.trunc_pos. simpl. apply Z.shiftl_nonneg. lia.
Qed.

(** ** Slices *)

Lemma slice_to_from {A : Type} (l : list A) (k : Z) :
  slice_to l k ++ slice_from l k = l.
Proof. apply firstn_skipn. Qed.

Lemma slice_bound_nonneg (n : nat) (k : Z) :
  0 <= k -> slice_bound n k = Nat.min (Z.to_nat k) n.
Proof.
  intros Hk. unfold slice_bound.
  destruct (k <? 0) eqn:E; [apply Z.ltb_lt in E; lia |]. lia.
Qed.

Lemma slice_to_nonneg {A : Type} (l : list A) (k : Z) :
  0 <= k -> slice_to l k = firstn (Z.to_nat k) l.
Proof.
  intros Hk. unfold slice_to. rewrite slice_bound_nonneg by assumption.
  destruct (Nat.le_ge_cases (Z.to_nat k) (length l)) as [Hle | Hge].
  - rewrite Nat.min_l by assumption. reflexivity.
  - rewrite Nat.min_r by assumption.
    rewrite !firstn_all2 by lia. reflexivity.
Qed.

Lemma slice_from_nonneg {A : Type} (l : list A) (k : Z) :
  0 <= k -> slice_from l k = skipn (Z.to_nat k) l.
Proof.
  intros Hk. unfold slice_from. rewrite slice_bound_nonneg by assumption.
  destruct (Nat.le_ge_cases (Z.to_nat k) (length l)) as [Hle | Hge].
  - rewrite Nat.min_l by assumption. reflexivity.
  - rewrite Nat.min_r by assumption.
    rewrite !skipn_all2 by lia. reflexivity.
Qed.

(** ** Doubles obtained from integers *)

Module FloatFacts.

Lemma digits2_pos_lower (m : positive) :
  2 ^ (Zpos (digits2_pos m) - 1) <= Zpos m.
Proof.
  induction m as [m IH | m IH |]; simpl digits2_pos.
  - rewrite Pos2Z.inj_succ.
    replace (Z.succ (Zpos (digits2_pos m)) - 1)
      with (Z.succ (Zpos (digits2_pos m) - 1)) by lia.
    rewrite Z.pow_succ_r by lia. lia.
  - rewrite Pos2Z.inj_succ.
    replace (Z.succ (Zpos (digits2_pos m)) - 1)
      with (Z.succ (Zpos (digits2_pos m) - 1)) by lia.
    rewrite Z.pow_succ_r by lia. lia.
  - simpl. lia.
Qed.

Lemma shr_1_half (mrs : shr_record) :
  0 <= shr_m mrs -> shr_m (shr_1 mrs) = shr_m mrs / 2.
Proof.
  destruct mrs as [m r s]. simpl.
  destruct m as [| p | p]; [reflexivity | | lia].
  intros _. destruct p as [p | p |]; simpl shr_m.
  - apply Z.div_unique with 1; lia.
  - apply Z.div_unique with 0; lia.
  - reflexivity.
Qed.

Lemma iter_shr_1 (n : positive) :
  forall mrs, 0 <= shr_m mrs ->
    shr_m (SpecFloat.iter_pos shr_1 n mrs) = shr_m mrs / 2 ^ Zpos n.
Proof.
  induction n as [n IH | n IH |]; intros mrs Hm; simpl SpecFloat.iter_pos.
  - assert (H1 : 0 <= shr_m (shr_1 mrs)).
    { rewrite shr_1_half by assumption. apply Z.div_pos; lia. }
    assert (H2 : 0 <= shr_m (SpecFloat.iter_pos shr_1 n (shr_1 mrs))).
    { rewrite IH by assumption.
      apply Z.div_pos; [assumption | apply Z.pow_pos_nonneg; lia]. }
    rewrite IH, IH, shr_1_half by assumption.
    rewrite !Z.div_div by (try apply Z.pow_pos_nonneg; lia).
    f_equal. rewrite (Pos2Z.inj_xI n).
    replace (2 * Zpos n + 1) with (1 + Zpos n + Zpos n) by lia.
    rewrite !Z.pow_add_r by lia. change (2 ^ 1) with 2. lia.
  - assert (H2 : 0 <= shr_m (SpecFloat.iter_pos shr_1 n mrs)).
    { rewrite IH by assumption.
      apply Z.div_pos; [assumption | apply Z.pow_pos_nonneg; lia]. }
    rewrite IH, IH by assumption.
    rewrite !Z.div_div by (try apply Z.pow_pos_nonneg; lia).
    f_equal. rewrite (Pos2Z.inj_xO n).
    replace (2 * Zpos n) with (Zpos n + Zpos n) by lia.
    rewrite !Z.pow_add_r by lia. lia.
  - rewrite shr_1_half by assumption. reflexivity.
Qed.

Lemma digits2_pos_upper (m : positive) : Zpos m < 2 ^ Zpos (digits2_pos m).
Proof.
  induction m as [m IH | m IH |]; simpl digits2_pos.
  - rewrite Pos2Z.inj_succ, Z.pow_succ_r by lia. lia.
  - rewrite Pos2Z.inj_succ, Z.pow_succ_r by lia. lia.
  - simpl. lia.
Qed.

Lemma digits2_pos_le (m : positive) (k : Z) :
  0 <= k -> Zpos m < 2 ^ k -> Zpos (digits2_pos m) <= k.
Proof.
  intros Hk Hm. pose proof (digits2_pos_lower m) as Hl.
  destruct (Z.le_gt_cases (Zpos (digits2_pos m)) k) as [H | H]; [exact H |].
  exfalso.
  assert (2 ^ k <= 2 ^ (Zpos (digits2_pos m) - 1)) by (apply Z.pow_le_mono_r; lia).
  lia.
Qed.

Lemma digits2_pos_mul (a b : positive) :
  Zpos (digits2_pos (a * b)) <= Zpos (digits2_pos a) + Zpos (digits2_pos b).
Proof.
  apply digits2_pos_le; [lia |].
  rewrite Z.pow_add_r by lia. rewrite Pos2Z.inj_mul.
  pose proof (digits2_pos_upper a). pose proof (digits2_pos_upper b).
  nia.
Qed.

Lemma digits2_pos_shift (p : positive) (k : positive) :
  Zpos (digits2_pos (Pos.iter xO p k)) = Zpos (digits2_pos p) + Zpos k.
Proof.
  induction k as [| k IH] using Pos.peano_ind.
  - simpl. lia.
  - rewrite Pos.iter_succ. simpl digits2_pos. lia.
Qed.

Section Format.

Variables prec emax : Z.
Hypothesis prec_pos : 0 < prec.

(** Above the smallest exponent the shift of the rounding step never
    empties the mantissa. *)
Lemma shr_fexp_pos (m : positive) (e : Z) (l : location) :
  emin prec emax <= e ->
  0 < shr_m (fst (shr_fexp prec emax (Zpos m) e l))
  /\ emin prec emax <= snd (shr_fexp prec emax (Zpos m) e l).
Proof.
  intros He. unfold shr_fexp, shr.
  assert (Hrec : shr_m (shr_record_of_loc (Zpos m) l) = Zpos m).
  { destruct l as [| []]; reflexivity. }
  set (d := Zdigits2 (Zpos m)).
  destruct (fexp prec emax (d + e) - e) as [| n | n] eqn:Hn; simpl fst; simpl snd.
  - rewrite Hrec. lia.
  - rewrite iter_shr_1 by (rewrite Hrec; lia). rewrite Hrec.
    assert (Hnd : Zpos n <= Zpos (digits2_pos m) - 1).
    { unfold fexp in Hn. subst d. simpl Zdigits2 in Hn. lia. }
    split; [| lia].
    apply Z.div_str_pos. split; [apply Z.pow_pos_nonneg; lia |].
    etransitivity; [| apply digits2_pos_lower].
    apply Z.pow_le_mono_r; lia.
  - rewrite Hrec. lia.
Qed.

Lemma binary_round_aux_nonzero (sx : bool) (m : positive) (e : Z) (l : location) :
  emin prec emax <= e ->
  match binary_round_aux prec emax sx (Zpos m) e l with
  | S754_zero _ | S754_nan => False
  | _ => True
  end.
Proof.
  intros He. unfold binary_round_aux.
  pose proof (shr_fexp_pos m e l He) as [H1 H1e].
  destruct (shr_fexp prec emax (Zpos m) e l) as [mrs' e'] eqn:E1.
  simpl fst in H1. simpl snd in H1e.
  set (m1 := round_nearest_even (shr_m mrs') (loc_of_shr_record mrs')).
  assert (Hm1 : 0 < m1).
  { subst m1. unfold round_nearest_even.
    destruct (loc_of_shr_record mrs') as [| []]; try lia.
    destruct (Z.even (shr_m mrs')); lia. }
  destruct m1 as [| p1 | p1] eqn:Em1; try lia.
  pose proof (shr_fexp_pos p1 e' loc_Exact H1e) as [H2 _].
  destruct (shr_fexp prec emax (Zpos p1) e' loc_Exact) as [mrs'' e''] eqn:E2.
  simpl fst in H2.
  destruct (shr_m mrs'') as [| p2 | p2]; try lia.
  destruct (e'' <=? emax - prec); exact I.
Qed.

(** The shift of the rounding step does not enlarge the mantissa and
    raises the exponent by less than the number of digits. *)
Lemma shr_fexp_bounds (m : positive) (e : Z) (l : location) :
  emin prec emax <= e ->
  0 < shr_m (fst (shr_fexp prec emax (Zpos m) e l)) <= Zpos m
  /\ e <= snd (shr_fexp prec emax (Zpos m) e l) <= e + Zpos (digits2_pos m).
Proof.
  intros He. pose proof (shr_fexp_pos m e l He) as [Hpos _].
  split; [split; [exact Hpos |] |].
  - unfold shr_fexp, shr.
    assert (Hrec : shr_m (shr_record_of_loc (Zpos m) l) = Zpos m).
    { destruct l as [| []]; reflexivity. }
    destruct (fexp prec emax (Zdigits2 (Zpos m) + e) - e) as [| n | n];
      simpl fst; rewrite ?Hrec; try lia.
    rewrite iter_shr_1 by (rewrite Hrec; lia). rewrite Hrec.
    apply Z.div_le_upper_bound; [apply Z.pow_pos_nonneg; lia |].
    pose proof (Z.pow_pos_nonneg 2 (Zpos n) ltac:(lia) ltac:(lia)) as Hpow.
    nia.
  - unfold shr_fexp, shr.
    destruct (fexp prec emax (Zdigits2 (Zpos m) + e) - e) as [| n | n] eqn:Hn;
      simpl snd; try lia.
    unfold fexp in Hn. simpl Zdigits2 in Hn. lia.
Qed.

Lemma binary_round_aux_finite (sx : bool) (m : positive) (e : Z) (l : location) :
  emin prec emax <= e ->
  e + 2 * Zpos (digits2_pos m) + 1 <= emax - prec ->
  exists m' e',
    binary_round_aux prec emax sx (Zpos m) e l = S754_finite sx m' e'
    /\ e <= e' <= e + 2 * Zpos (digits2_pos m) + 1
    /\ Zpos (digits2_pos m') <= Zpos (digits2_pos m) + 1.
Proof.
  intros He Hmax. unfold binary_round_aux.
  pose proof (shr_fexp_bounds m e l He) as [[H1 H1m] H1e].
  destruct (shr_fexp prec emax (Zpos m) e l) as [mrs' e'] eqn:E1.
  simpl fst in H1, H1m. simpl snd in H1e.
  set (m1 := round_nearest_even (shr_m mrs') (loc_of_shr_record mrs')).
  assert (Hm1 : 0 < m1 <= Zpos m + 1).
  { subst m1. unfold round_nearest_even.
    destruct (loc_of_shr_record mrs') as [| []]; try lia.
    destruct (Z.even (shr_m mrs')); lia. }
  destruct m1 as [| p1 | p1] eqn:Em1; try lia.
  assert (Hd1 : Zpos (digits2_pos p1) <= Zpos (digits2_pos m) + 1).
  { apply digits2_pos_le; [lia |].
    rewrite Z.pow_add_r by lia. pose proof (digits2_pos_upper m).
    change (2 ^ 1) with 2. lia. }
  assert (He' : emin prec emax <= e') by lia.
  pose proof (shr_fexp_bounds p1 e' loc_Exact He') as [[H2 H2m] H2e].
  destruct (shr_fexp prec emax (Zpos p1) e' loc_Exact) as [mrs'' e''] eqn:E2.
  simpl fst in H2, H2m. simpl snd in H2e.
  destruct (shr_m mrs'') as [| p2 | p2] eqn:Ep2; try lia.
  destruct (Z.leb_spec e'' (emax - prec)) as [Hle | Hgt]; [| lia].
  exists p2, e''. split; [reflexivity |]. split; [lia |].
  apply digits2_pos_le; [lia |].
  pose proof (digits2_pos_upper p1).
  assert (2 ^ Zpos (digits2_pos p1) <= 2 ^ (Zpos (digits2_pos m) + 1))
    by (apply Z.pow_le_mono_r; lia).
  lia.
Qed.

End Format.

Lemma binary_normalize_nonzero (p : positive) :
  match binary_normalize 53 1024 (Zpos p) 0 false with
  | S754_zero _ | S754_nan => False
  | _ => True
  end.
Proof.
  unfold binary_normalize, binary_round.
  destruct (shl_align p 0 (fexp 53 1024 (Zpos (digits2_pos p) + 0)))
    as [mz ez] eqn:E.
  apply binary_round_aux_nonzero; [lia |].
  unfold shl_align in E.
  destruct (fexp 53 1024 (Zpos (digits2_pos p) + 0) - 0) as [| d | d] eqn:Hd;
    injection E as <- <-.
  - unfold emin. lia.
  - unfold emin. lia.
  - unfold fexp, emin in *. lia.
Qed.

(** [float(k)] of a positive Python int is a non-zero number, unless the
    conversion overflows. *)
Lemma of_int_pos_nonzero (k : Z) (f : PyFloat.float) :
  1 <= k -> PyFloat.of_int k = Ok f -> PyFloat.is_zero f = false.
Proof.
  intros Hk. unfold PyFloat.of_int.
  destruct k as [| p | p]; try lia.
  pose proof (binary_normalize_nonzero p) as Hnz.
  unfold PyFloat.prec, PyFloat.emax.
  destruct (binary_normalize 53 1024 (Z.pos p) 0 false); try contradiction.
  - discriminate.
  - intros [= <-]. reflexivity.
Qed.

Lemma div_int_no_zero_division (x : PyFloat.float) (k : Z) :
  1 <= k -> PyFloat.div_int x k <> Err ZeroDivisionError.
Proof.
  intros Hk. unfold PyFloat.div_int.
  destruct (PyFloat.of_int k) as [fk | e] eqn:Hof; simpl.
  - rewrite (of_int_pos_nonzero k fk Hk Hof). discriminate.
  - unfold PyFloat.of_int in Hof.
    destruct (binary_normalize PyFloat.prec PyFloat.emax k 0 false);
      congruence.
Qed.

(** [float(n)] for a natural number below [2^53]. *)
Lemma of_int_small (n : Z) :
  1 <= n < 2 ^ 53 ->
  exists m e, PyFloat.of_int n = Ok (S754_finite false m e)
              /\ -52 <= e <= 108 /\ Zpos (digits2_pos m) <= 54.
Proof.
  intros [Hn1 Hn2]. destruct n as [| p | p]; try lia.
  unfold PyFloat.of_int, binary_normalize, binary_round.
  assert (Hd : Zpos (digits2_pos p) <= 53) by (apply digits2_pos_le; lia).
  unfold PyFloat.prec, PyFloat.emax.
  destruct (shl_align p 0 (fexp 53 1024 (Zpos (digits2_pos p) + 0)))
    as [mz ez] eqn:E.
  assert (Hz : -52 <= ez <= 0 /\ Zpos (digits2_pos mz) <= 53).
  { unfold shl_align in E.
    destruct (fexp 53 1024 (Zpos (digits2_pos p) + 0) - 0) as [| d | d] eqn:Hd';
      injection E as <- <-.
    - lia.
    - lia.
    - unfold fexp, emin in *. rewrite digits2_pos_shift. lia. }
  destruct Hz as [Hez Hdz].
  destruct (binary_round_aux_finite 53 1024 ltac:(lia) false mz ez loc_Exact)
    as (m' & e' & Heq & He' & Hd'); [unfold emin; lia | lia |].
  rewrite Heq. exists m', e'. split; [reflexivity |]. lia.
Qed.

End FloatFacts.

(** ** dataset.py *)

Module DatasetFacts.

Import PyFloat Dataset FloatFacts.

Lemma column_index_In (name : string) (cols : list string) :
  In name cols -> exists i, column_index name cols = Some i.
Proof.
  induction cols as [| c cs IH]; simpl; [tauto |].
  intros Hin. destruct (String.eqb c name) eqn:E; [eauto |].
  destruct Hin as [-> | Hin].
  - rewrite String.eqb_refl in E. discriminate.
  - destruct (IH Hin) as [i ->]. simpl. eauto.
Qed.

Lemma column_indices_ok (names cols : list string) :
  Forall (fun c => In c cols) names ->
  exists ixs, column_indices names cols = Ok ixs.
Proof.
  induction 1 as [| nm rest Hnm _ IH]; simpl; [eauto |].
  destruct (column_index_In _ _ Hnm) as [i ->].
  destruct IH as [ixs ->]. simpl. eauto.
Qed.

Lemma select_values_ok (names : list string) (df : DataFrame) :
  Forall (fun c => In c (columns df)) names ->
  exists v, select_values names df = Ok v /\ length v = length (rows df).
Proof.
  intros H. unfold select_values.
  destruct (column_indices_ok _ _ H) as [ixs ->]. simpl.
  eexists; split; [reflexivity |]. apply length_map.
Qed.

(** A table with the required columns loads, and the dataset has one
    sample per row. *)
Lemma SailingDataset_init_ok (fs : FileSystem) (csv_path : string) (df : DataFrame) :
  files fs !! csv_path = Some (CsvFile df) ->
  has_required_columns df ->
  exists ds, SailingDataset_init fs csv_path = Ok ds
             /\ SailingDataset_len ds = length (rows df).
Proof.
  intros Hfile Hcols. unfold has_required_columns in Hcols.
  apply Forall_app in Hcols as [Hf Ht].
  unfold SailingDataset_init, read_csv. rewrite Hfile. simpl.
  destruct (select_values_ok _ _ Hf) as (fv & -> & Hlen).
  destruct (select_values_ok _ _ Ht) as (tv & -> & _). simpl.
  eexists; split; [reflexivity |].
  unfold SailingDataset_len, float32_tensor. simpl.
  rewrite length_map. exact Hlen.
Qed.

Lemma default_rng_ok (seed : Z) : 0 <= seed -> default_rng seed = Ok seed.
Proof.
  intros H. unfold default_rng.
  destruct (seed <? 0) eqn:E; [apply Z.ltb_lt in E; lia | reflexivity].
Qed.

(** What [load_and_split] returns once its three fallible steps have
    succeeded. *)
Lemma load_and_split_ok (permutation : Z -> nat -> list nat)
    (fs : FileSystem) (csv_path : string) (df : DataFrame)
    (val_fraction : float) (seed split : Z) :
  files fs !! csv_path = Some (CsvFile df) ->
  has_required_columns df ->
  0 <= seed ->
  split_point (length (rows df)) val_fraction = Ok split ->
  exists ds,
    SailingDataset_len ds = length (rows df)
    /\ load_and_split permutation fs csv_path val_fraction seed
       = Ok ({| dataset := ds;
                indices := slice_to (permutation seed (length (rows df))) split |},
             {| dataset := ds;
                indices := slice_from (permutation seed (length (rows df))) split |}).
Proof.
  intros Hfile Hcols Hseed Hsplit.
  destruct (SailingDataset_init_ok _ _ _ Hfile Hcols) as (ds & Hds & Hlen).
  exists ds. split; [exact Hlen |].
  unfold load_and_split. rewrite Hds. simpl.
  rewrite default_rng_ok by assumption. simpl.
  rewrite Hlen, Hsplit. reflexivity.
Qed.

Lemma split_point_default_1000 : split_point 1000 default_val_fraction = Ok 800.
Proof. vm_compute. reflexivity. Qed.

Lemma int_sub_default :
  int_sub 1 default_val_fraction = Ok (S754_finite false 7205759403792794 (-53)).
Proof. vm_compute. reflexivity. Qed.

(** With the default fraction the split point is defined for every
    dataset of fewer than [2^53] rows. *)
Lemma split_point_default_defined (n : nat) :
  Z.of_nat n < 2 ^ 53 ->
  exists x k, split_product n default_val_fraction = Ok x
              /\ nonneg x = true
              /\ split_point n default_val_fraction = Ok k /\ 0 <= k.
Proof.
  intros Hn. unfold split_point, split_product. rewrite int_sub_default.
  simpl rbind. unfold int_mul.
  destruct (Z.eq_dec (Z.of_nat n) 0) as [H0 | H0].
  - rewrite H0. do 2 eexists. vm_compute. repeat split. discriminate.
  - destruct (of_int_small (Z.of_nat n) ltac:(lia)) as (m & e & -> & He & Hd).
    simpl rbind. unfold mul, SFmul.
    pose proof (digits2_pos_mul m 7205759403792794) as Hdm.
    change (Zpos (digits2_pos 7205759403792794)) with 53 in Hdm.
    destruct (binary_round_aux_finite prec emax ltac:(unfold prec; lia)
                false (m * 7205759403792794) (e + -53) loc_Exact)
      as (m' & e' & Heq & _ & _).
    + unfold emin, prec, emax. lia.
    + unfold prec, emax. lia.
    + rewrite Heq. do 2 eexists. split; [reflexivity |].
      split; [reflexivity |]. split; [reflexivity |]. simpl.
      unfold trunc_pos. apply Z.shiftl_nonneg. lia.
Qed.

Lemma demo_frame_required (n : nat) (v : float) :
  has_required_columns (constant_frame n v).
Proof.
  unfold has_required_columns, constant_frame. simpl columns.
  apply List.Forall_forall. intros c Hc. exact Hc.
Qed.

Lemma rotate_permutation_perm (seed : Z) (n : nat) :
  Permutation (rotate_permutation seed n) (seq 0 n).
Proof.
  unfold rotate_permutation.
  rewrite Permutation_app_comm, firstn_skipn. reflexivity.
Qed.

End DatasetFacts.

Section SplitClaims.

Import PyFloat Dataset DatasetFacts.

Variable permutation : Z -> nat -> list nat.
Hypothesis permutation_spec :
  forall seed n, Permutation (permutation seed n) (seq 0 n).

(** Cutting a permutation of the indices below [n] at any Python slice
    bound gives two views that partition them. *)
Lemma slices_partition (ds : SailingDataset) (n : nat) (seed split : Z) :
  SailingDataset_len ds = n ->
  partitions n
    {| dataset := ds; indices := slice_to (permutation seed n) split |}
    {| dataset := ds; indices := slice_from (permutation seed n) split |}.
Proof.
  intros Hlen.
  set (p := permutation seed n).
  assert (Hp : Permutation p (seq 0 n)) by apply permutation_spec.
  assert (Happ : slice_to p split ++ slice_from p split = p)
    by apply slice_to_from.
  assert (Hnd : List.NoDup (slice_to p split ++ slice_from p split)).
  { rewrite Happ. eapply Permutation_NoDup; [symmetry; exact Hp |].
    apply List.seq_NoDup. }
  unfold partitions. simpl.
  split; [reflexivity |]. split; [exact Hlen |].
  split; [| split].
  - intros i Hi Hv.
    revert Hnd Hi Hv. generalize (slice_to p split) (slice_from p split).
    intros l1 l2. induction l1 as [| a l1 IH]; simpl; [tauto |].
    intros Hnd [-> | Hi] Hv.
    + apply List.NoDup_cons_iff in Hnd as [Hnot _].
      apply Hnot, List.in_or_app. right. exact Hv.
    + apply List.NoDup_cons_iff in Hnd as [_ Hnd]. eauto.
  - intros i. rewrite <- List.in_app_iff, Happ.
    split; intros Hi.
    + apply (Permutation_in _ Hp) in Hi. apply List.in_seq in Hi. lia.
    + apply (Permutation_in _ (Permutation_sym Hp)). apply List.in_seq. lia.
  - unfold Subset_len. simpl. rewrite <- List.length_app, Happ.
    rewrite (Permutation_length Hp). apply List.length_seq.
Qed.

(** C1: for every CSV file that has all the required columns,
    [load_and_split] returns a train and a validation view over one
    dataset of [n] samples, [n] the number of rows, whose index lists are
    disjoint, together cover exactly the indices below [n], and whose
    lengths sum to [n].  This holds for every seed numpy accepts and every
    val_fraction for which the split point [int(n * (1 - val_fraction))]
    is defined, and in particular for the default arguments (0.2, 42) on
    every file of fewer than [2^53] rows. *)
Theorem load_and_split_partition :
  (forall (fs : FileSystem) (csv_path : string) (df : DataFrame)
          (val_fraction : float) (seed split : Z),
      files fs !! csv_path = Some (CsvFile df) ->
      has_required_columns df ->
      0 <= seed ->
      split_point (length (rows df)) val_fraction = Ok split ->
      exists train_ds val_ds,
        load_and_split permutation fs csv_path val_fraction seed
        = Ok (train_ds, val_ds)
        /\ partitions (length (rows df)) train_ds val_ds)
  /\ (forall (fs : FileSystem) (csv_path : string) (df : DataFrame),
      files fs !! csv_path = Some (CsvFile df) ->
      has_required_columns df ->
      Z.of_nat (length (rows df)) < 2 ^ 53 ->
      exists train_ds val_ds,
        load_and_split permutation fs csv_path default_val_fraction default_seed
        = Ok (train_ds, val_ds)
        /\ partitions (length (rows df)) train_ds val_ds).
Proof.
  assert (Hgen : forall fs csv_path df val_fraction seed split,
             files fs !! csv_path = Some (CsvFile df) ->
             has_required_columns df ->
             0 <= seed ->
             split_point (length (rows df)) val_fraction = Ok split ->
             exists train_ds val_ds,
               load_and_split permutation fs csv_path val_fraction seed
               = Ok (train_ds, val_ds)
               /\ partitions (length (rows df)) train_ds val_ds).
  { intros fs csv_path df val_fraction seed split Hfile Hcols Hseed Hsplit.
    destruct (load_and_split_ok permutation _ _ _ _ _ _ Hfile Hcols Hseed Hsplit)
      as (ds & Hlen & Hres).
    do 2 eexists. split; [exact Hres |].
    apply slices_partition. exact Hlen. }
  split; [exact Hgen |].
  intros fs csv_path df Hfile Hcols Hrows.
  destruct (split_point_default_defined _ Hrows) as (x & k & _ & _ & Hk & _).
  apply (Hgen fs csv_path df default_val_fraction default_seed k);
    try assumption.
  unfold default_seed. lia.
Qed.

(** C2 (amended): whenever the product [n * (1 - val_fraction)],
    computed on doubles, is a non-negative finite number, the train view
    holds exactly the first [floor(n * (1 - val_fraction))] indices of
    the seeded permutation and the validation view the remaining ones;
    this is the case for the defaults (0.2, seed 42) on every file of
    fewer than [2^53] rows; and a file of 1000 rows split with the
    defaults gives a train view of length 800 and a validation view of
    length 200. *)
Theorem load_and_split_prefix :
  (forall (fs : FileSystem) (csv_path : string) (df : DataFrame)
          (val_fraction : float) (seed : Z) (x : float),
      files fs !! csv_path = Some (CsvFile df) ->
      has_required_columns df ->
      0 <= seed ->
      split_product (length (rows df)) val_fraction = Ok x ->
      nonneg x = true ->
      exists k train_ds val_ds,
        spec_split_point (length (rows df)) val_fraction = Ok k
        /\ load_and_split permutation fs csv_path val_fraction seed
           = Ok (train_ds, val_ds)
        /\ indices train_ds
           = firstn (Z.to_nat k) (permutation seed (length (rows df)))
        /\ indices val_ds
           = skipn (Z.to_nat k) (permutation seed (length (rows df))))
  /\ (forall (fs : FileSystem) (csv_path : string) (df : DataFrame),
      files fs !! csv_path = Some (CsvFile df) ->
      has_required_columns df ->
      Z.of_nat (length (rows df)) < 2 ^ 53 ->
      exists k train_ds val_ds,
        spec_split_point (length (rows df)) default_val_fraction = Ok k
        /\ load_and_split permutation fs csv_path default_val_fraction default_seed
           = Ok (train_ds, val_ds)
        /\ indices train_ds
           = firstn (Z.to_nat k) (permutation default_seed (length (rows df)))
        /\ indices val_ds
           = skipn (Z.to_nat k) (permutation default_seed (length (rows df))))
  /\ (forall (fs : FileSystem) (csv_path : string) (df : DataFrame),
      files fs !! csv_path = Some (CsvFile df) ->
      has_required_columns df ->
      length (rows df) = 1000%nat ->
      exists train_ds val_ds,
        load_and_split permutation fs csv_path default_val_fraction default_seed
        = Ok (train_ds, val_ds)
        /\ Subset_len train_ds = 800%nat
        /\ Subset_len val_ds = 200%nat).
Proof.
  assert (Hgen : forall fs csv_path df val_fraction seed x,
             files fs !! csv_path = Some (CsvFile df) ->
             has_required_columns df ->
             0 <= seed ->
             split_product (length (rows df)) val_fraction = Ok x ->
             nonneg x = true ->
             exists k train_ds val_ds,
               spec_split_point (length (rows df)) val_fraction = Ok k
               /\ load_and_split permutation fs csv_path val_fraction seed
                  = Ok (train_ds, val_ds)
               /\ indices train_ds
                  = firstn (Z.to_nat k) (permutation seed (length (rows df)))
               /\ indices val_ds
                  = skipn (Z.to_nat k) (permutation seed (length (rows df)))).
  { intros fs csv_path df val_fraction seed x Hfile Hcols Hseed Hx Hnn.
    assert (Hfin : exists k, to_int x = Ok k).
    { destruct x as [s | s | | s m e]; simpl in *; try discriminate; eauto. }
    destruct Hfin as [k Hk].
    assert (Hk0 : 0 <= k) by (eapply to_int_nonneg; eassumption).
    assert (Hsplit : split_point (length (rows df)) val_fraction = Ok k).
    { unfold split_point. rewrite Hx. exact Hk. }
    destruct (load_and_split_ok permutation _ _ _ _ _ _ Hfile Hcols Hseed Hsplit)
      as (ds & _ & Hres).
    exists k. do 2 eexists. split; [| split; [exact Hres |]].
    - unfold spec_split_point. rewrite Hx. simpl.
      rewrite to_int_floor_nonneg by assumption. exact Hk.
    - simpl. split; [apply slice_to_nonneg | apply slice_from_nonneg];
        assumption. }
  split; [exact Hgen |]. split.
  - intros fs csv_path df Hfile Hcols Hrows.
    destruct (split_point_default_defined _ Hrows) as (x & k & Hx & Hnn & _).
    apply (Hgen fs csv_path df default_val_fraction default_seed x);
      try assumption.
    unfold default_seed. lia.
  - intros fs csv_path df Hfile Hcols Hn.
    assert (Hsplit : split_point (length (rows df)) default_val_fraction = Ok 800)
      by (rewrite Hn; apply split_point_default_1000).
    assert (Hseed : 0 <= default_seed) by (unfold default_seed; lia).
    destruct (load_and_split_ok permutation _ _ _ _ _ _ Hfile Hcols Hseed Hsplit)
      as (ds & _ & Hres).
    do 2 eexists. split; [exact Hres |].
    assert (Hlen : length (permutation default_seed (length (rows df))) = 1000%nat).
    { rewrite (Permutation_length (permutation_spec _ _)), List.length_seq.
      exact Hn. }
    unfold Subset_len. simpl.
    rewrite slice_to_nonneg, slice_from_nonneg by lia.
    rewrite List.length_firstn, List.length_skipn, Hlen.
    split; reflexivity.
Qed.

(** C10: the index lists of the two views depend on the table only
    through its number of rows: two CSV files with the required columns
    and equally many rows give, for the same seed and val_fraction, the
    same train and validation index lists (or fail alike). *)
Theorem load_and_split_data_independent (fs1 fs2 : FileSystem)
    (path1 path2 : string) (df1 df2 : DataFrame)
    (val_fraction : float) (seed : Z) :
  files fs1 !! path1 = Some (CsvFile df1) ->
  files fs2 !! path2 = Some (CsvFile df2) ->
  has_required_columns df1 ->
  has_required_columns df2 ->
  length (rows df1) = length (rows df2) ->
  view_indices (load_and_split permutation fs1 path1 val_fraction seed)
  = view_indices (load_and_split permutation fs2 path2 val_fraction seed).
Proof.
  intros Hf1 Hf2 Hc1 Hc2 Hrows.
  destruct (SailingDataset_init_ok _ _ _ Hf1 Hc1) as (ds1 & Hds1 & Hl1).
  destruct (SailingDataset_init_ok _ _ _ Hf2 Hc2) as (ds2 & Hds2 & Hl2).
  unfold load_and_split. rewrite Hds1, Hds2. simpl.
  rewrite Hl1, Hl2, Hrows.
  destruct (default_rng seed) as [rng | e]; simpl; [| reflexivity].
  destruct (split_point (length (rows df2)) val_fraction) as [k | e];
    reflexivity.
Qed.

End SplitClaims.

Section SplitInstances.

Import PyFloat Dataset DatasetFacts.
Local Open Scope string_scope.

Lemma load_and_split_partition_witness :
  (exists train_ds val_ds,
      load_and_split rotate_permutation (Train.demo_fs 5) "data/training_data.csv"
                     (literal 1 2) 7 = Ok (train_ds, val_ds)
      /\ partitions (length (rows (constant_frame 5 zero))) train_ds val_ds)
  /\ (exists train_ds val_ds,
      load_and_split rotate_permutation (Train.demo_fs 5) "data/training_data.csv"
                     default_val_fraction default_seed = Ok (train_ds, val_ds)
      /\ partitions (length (rows (constant_frame 5 zero))) train_ds val_ds).
Proof.
  split.
  - apply (proj1 (load_and_split_partition rotate_permutation rotate_permutation_perm)
             (Train.demo_fs 5) "data/training_data.csv" (constant_frame 5 zero)
             (literal 1 2) 7 2).
    + reflexivity.
    + apply demo_frame_required.
    + lia.
    + vm_compute. reflexivity.
  - apply (proj2 (load_and_split_partition rotate_permutation rotate_permutation_perm)
             (Train.demo_fs 5) "data/training_data.csv" (constant_frame 5 zero)).
    + reflexivity.
    + apply demo_frame_required.
    + vm_compute. reflexivity.
Defined.

Lemma load_and_split_prefix_witness :
  (exists k train_ds val_ds,
      spec_split_point (length (rows (constant_frame 5 zero))) default_val_fraction
      = Ok k
      /\ load_and_split rotate_permutation (Train.demo_fs 5)
           "data/training_data.csv" default_val_fraction 42
         = Ok (train_ds, val_ds)
      /\ indices train_ds
         = firstn (Z.to_nat k)
                  (rotate_permutation 42 (length (rows (constant_frame 5 zero))))
      /\ indices val_ds
         = skipn (Z.to_nat k)
                 (rotate_permutation 42 (length (rows (constant_frame 5 zero)))))
  /\ (exists train_ds val_ds,
      load_and_split rotate_permutation (Train.demo_fs 1000)
        "data/training_data.csv" default_val_fraction default_seed
      = Ok (train_ds, val_ds)
      /\ Subset_len train_ds = 800%nat
      /\ Subset_len val_ds = 200%nat).
Proof.
  split.
  - apply (proj1 (load_and_split_prefix rotate_permutation rotate_permutation_perm)
             (Train.demo_fs 5) "data/training_data.csv" (constant_frame 5 zero)
             default_val_fraction 42
             (S754_finite false 4503599627370496 (-50))).
    + reflexivity.
    + apply demo_frame_required.
    + lia.
    + vm_compute. reflexivity.
    + reflexivity.
  - apply (proj2 (proj2 (load_and_split_prefix rotate_permutation
                           rotate_permutation_perm))
             (Train.demo_fs 1000) "data/training_data.csv"
             (constant_frame 1000 zero)).
    + reflexivity.
    + apply demo_frame_required.
    + apply List.repeat_length.
Defined.

(** With [val_fraction = 1.5] and three rows the product is [-1.5]:
    [int] gives [-1], the slice [indices[:-1]] keeps two indices, and
    neither reading of "the first [floor(-1.5) = -2] indices" (none, or
    Python's [indices[:-2]]) gives the train view. *)
Lemma load_and_split_prefix_counterexample :
  exists train_ds val_ds k,
    load_and_split rotate_permutation (Train.demo_fs 3) "data/training_data.csv"
                   (literal 3 2) 42 = Ok (train_ds, val_ds)
    /\ spec_split_point 3 (literal 3 2) = Ok k
    /\ length (indices train_ds) = 2%nat
    /\ indices train_ds <> firstn (Z.to_nat k) (rotate_permutation 42 3)
    /\ indices train_ds <> slice_to (rotate_permutation 42 3) k.
Proof.
  do 3 eexists.
  split; [vm_compute; reflexivity |].
  split; [vm_compute; reflexivity |].
  split; [reflexivity |].
  split; vm_compute; discriminate.
Qed.

Lemma load_and_split_data_independent_witness :
  view_indices
    (load_and_split rotate_permutation (Train.demo_fs 5)
       "data/training_data.csv" default_val_fraction 42)
  = view_indices
      (load_and_split rotate_permutation
         (single_file "other.csv" (CsvFile (constant_frame 5 Train.one)))
         "other.csv" default_val_fraction 42).
Proof.
  apply (load_and_split_data_independent rotate_permutation
           (Train.demo_fs 5)
           (single_file "other.csv" (CsvFile (constant_frame 5 Train.one)))
           "data/training_data.csv" "other.csv"
           (constant_frame 5 zero) (constant_frame 5 Train.one)
           default_val_fraction 42).
  - reflexivity.
  - reflexivity.
  - apply demo_frame_required.
  - apply demo_frame_required.
  - reflexivity.
Defined.

End SplitInstances.

(** ** dataset.py: the generator is local to the call *)

Module SessionFacts.

Import PyFloat Dataset Numpy.

(** A call allocates one generator, seeds it, draws from it once and
    drops it: its result is what the seeded generator draws first, and
    every generator that was alive before the call is as it was. *)
Lemma load_and_split_session (bg : BitGenerator) (fs : FileSystem)
    (csv_path : string) (val_fraction : float) (seed : Z)
    (s : gmap positive (state bg)) :
  snd (Session.load_and_split bg fs csv_path val_fraction seed s)
  = Dataset.load_and_split (seeded_permutation bg) fs csv_path val_fraction seed
  /\ (forall r g, s !! r = Some g ->
        fst (Session.load_and_split bg fs csv_path val_fraction seed s) !! r
        = Some g).
Proof.
  unfold Session.load_and_split, Dataset.load_and_split, rng_bind, rng_lift,
    rng_ret.
  destruct (SailingDataset_init fs csv_path) as [ds | e]; simpl;
    [| split; [reflexivity | auto]].
  unfold Numpy.default_rng, Dataset.default_rng.
  destruct (seed <? 0); simpl; [split; [reflexivity | auto] |].
  unfold Generator_permutation, seeded_permutation.
  rewrite lookup_insert_eq.
  destruct (draw_permutation bg (seeded bg seed) (SailingDataset_len ds))
    as [g' p]. simpl.
  assert (Hkeep : forall r g, s !! r = Some g ->
            (<[fresh (dom s) := g']> (<[fresh (dom s) := seeded bg seed]> s))
              !! r = Some g).
  { intros r g Hr.
    assert (Hne : fresh (dom s) <> r).
    { intros <-. apply (is_fresh (dom s)). apply elem_of_dom. eauto. }
    rewrite !lookup_insert_ne by exact Hne. exact Hr. }
  destruct (split_point (SailingDataset_len ds) val_fraction) as [k | e]; simpl;
    (split; [reflexivity | exact Hkeep]).
Qed.

End SessionFacts.

Section SessionClaims.

Import PyFloat Dataset Numpy SessionFacts.

(** C3: a call of [load_and_split] seeds a generator of its own, so its
    result does not depend on what the interpreter's generators have drawn
    before.  Called again in the same session with the same path,
    val_fraction and seed (the file at the path unchanged, whatever else
    was written in between), or called in another session whose
    generators are in any other state, it returns the same result, hence
    index-identical views; and no generator that was alive before a call
    is advanced by it. *)
Theorem load_and_split_deterministic (bg : BitGenerator)
    (fs1 fs2 : FileSystem) (csv_path : string) (val_fraction : float)
    (seed : Z) (s1 s2 : gmap positive (state bg)) :
  files fs1 !! csv_path = files fs2 !! csv_path ->
  let first := Session.load_and_split bg fs1 csv_path val_fraction seed s1 in
  let again := Session.load_and_split bg fs2 csv_path val_fraction seed
                 (fst first) in
  let other := Session.load_and_split bg fs2 csv_path val_fraction seed s2 in
  snd again = snd first
  /\ snd other = snd first
  /\ view_indices (snd again) = view_indices (snd first)
  /\ view_indices (snd other) = view_indices (snd first)
  /\ (forall r g, s1 !! r = Some g -> fst first !! r = Some g).
Proof.
  intros Hfile first again other. subst first again other.
  destruct (load_and_split_session bg fs1 csv_path val_fraction seed s1)
    as [H1 Hkeep].
  destruct (load_and_split_session bg fs2 csv_path val_fraction seed
              (fst (Session.load_and_split bg fs1 csv_path val_fraction seed s1)))
    as [H2 _].
  destruct (load_and_split_session bg fs2 csv_path val_fraction seed s2)
    as [H3 _].
  assert (Hpure : Dataset.load_and_split (seeded_permutation bg) fs2 csv_path
                    val_fraction seed
                  = Dataset.load_and_split (seeded_permutation bg) fs1 csv_path
                      val_fraction seed).
  { unfold Dataset.load_and_split, SailingDataset_init, read_csv.
    rewrite Hfile. reflexivity. }
  rewrite H1, H2, H3, Hpure.
  repeat split; try reflexivity. exact Hkeep.
Qed.

Lemma load_and_split_deterministic_witness :
  let fs1 := Train.demo_fs 5 in
  let fs2 := write_file "notes.txt" (CsvFile (constant_frame 1 zero))
               (Train.demo_fs 5) in
  let s1 : gmap positive (state counting_generator) := {[ 1%positive := 7 ]} in
  let s2 : gmap positive (state counting_generator) := ∅ in
  let first := Session.load_and_split counting_generator fs1
                 "data/training_data.csv" default_val_fraction 42 s1 in
  let again := Session.load_and_split counting_generator fs2
                 "data/training_data.csv" default_val_fraction 42 (fst first) in
  let other := Session.load_and_split counting_generator fs2
                 "data/training_data.csv" default_val_fraction 42 s2 in
  snd again = snd first
  /\ snd other = snd first
  /\ view_indices (snd again) = view_indices (snd first)
  /\ view_indices (snd other) = view_indices (snd first)
  /\ (forall r g, s1 !! r = Some g -> fst first !! r = Some g).
Proof.
  apply (load_and_split_deterministic counting_generator (Train.demo_fs 5)
           (write_file "notes.txt" (CsvFile (constant_frame 1 zero))
                       (Train.demo_fs 5))
           "data/training_data.csv" default_val_fraction 42
           {[ 1%positive := 7 ]} ∅).
  vm_compute. reflexivity.
Defined.

End SessionClaims.

(** ** model.py *)

Module ModelFacts.

Import PyFloat Dataset Model.
Local Open Scope nat_scope.

Lemma has_shape_map (f : float -> float) (b c : nat) (x : list (list float)) :
  has_shape b c x -> has_shape b c (map (map f) x).
Proof.
  intros [Hb Hc]. split; [rewrite length_map; exact Hb |].
  apply List.Forall_map. eapply List.Forall_impl; [| exact Hc].
  intros row Hrow. simpl. rewrite length_map. exact Hrow.
Qed.

Lemma Linear_forward_shaped (l : Linear) (n_in n_out b : nat)
    (x : list (list float)) :
  Linear_shaped n_in n_out l ->
  has_shape b n_in x ->
  exists y, Linear_forward l x = Ok y /\ has_shape b n_out y.
Proof.
  intros (Hin & [Hw _] & Hb) [Hx Hrows].
  unfold Linear_forward.
  assert (Hcheck : forallb (fun row => Nat.eqb (length row) (in_features l)) x = true).
  { apply List.forallb_forall. intros row Hrow.
    rewrite List.Forall_forall in Hrows.
    apply Nat.eqb_eq. rewrite Hin. apply Hrows. exact Hrow. }
  rewrite Hcheck. eexists; split; [reflexivity |].
  split; [rewrite length_map; exact Hx |].
  apply List.Forall_map, List.Forall_forall. intros row _. simpl.
  rewrite length_map, List.length_combine. lia.
Qed.

Lemma Linear_init_shaped (init : nat -> nat -> float) (n_in n_out : nat) :
  Linear_shaped n_in n_out (Linear_init init n_in n_out).
Proof.
  unfold Linear_shaped, Linear_init, has_shape. simpl.
  rewrite !length_map, !List.length_seq.
  repeat split.
  apply List.Forall_map, List.Forall_forall. intros i _. simpl.
  rewrite length_map, List.length_seq. reflexivity.
Qed.

Lemma SailingAI_default_shaped (init : nat -> nat -> nat -> float) :
  SailingAI_shaped (SailingAI_default init).
Proof.
  unfold SailingAI_shaped, SailingAI_default, SailingAI_init.
  do 4 eexists. simpl net.
  split; [reflexivity |].
  repeat split; apply Linear_init_shaped.
Qed.

(** The forward pass of any model with the constructor's topology, for
    instance a trained or a reloaded one. *)
Lemma forward_shaped (m : SailingAI) (b : nat) (x : list (list float)) :
  SailingAI_shaped m ->
  has_shape b 19 x ->
  exists l1 l2 l3 l4 h1 h2 h3 y,
    net m = [ LinearLayer l1; ReLULayer; LinearLayer l2; ReLULayer;
              LinearLayer l3; ReLULayer; LinearLayer l4 ]
    /\ Linear_shaped 19 128 l1 /\ Linear_shaped 128 64 l2
    /\ Linear_shaped 64 32 l3 /\ Linear_shaped 32 2 l4
    /\ Linear_forward l1 x = Ok h1 /\ has_shape b 128 h1
    /\ Linear_forward l2 (map (map relu) h1) = Ok h2 /\ has_shape b 64 h2
    /\ Linear_forward l3 (map (map relu) h2) = Ok h3 /\ has_shape b 32 h3
    /\ Linear_forward l4 (map (map relu) h3) = Ok y /\ has_shape b 2 y
    /\ forward m x = Ok y.
Proof.
  intros (l1 & l2 & l3 & l4 & Hnet & S1 & S2 & S3 & S4) Hx.
  destruct (Linear_forward_shaped _ _ _ _ _ S1 Hx) as (h1 & F1 & H1).
  destruct (Linear_forward_shaped _ _ _ _ _ S2 (has_shape_map relu _ _ _ H1))
    as (h2 & F2 & H2).
  destruct (Linear_forward_shaped _ _ _ _ _ S3 (has_shape_map relu _ _ _ H2))
    as (h3 & F3 & H3).
  destruct (Linear_forward_shaped _ _ _ _ _ S4 (has_shape_map relu _ _ _ H3))
    as (y & F4 & H4).
  exists l1, l2, l3, l4, h1, h2, h3, y.
  repeat (split; [assumption |]).
  unfold forward. rewrite Hnet. simpl.
  rewrite F1. simpl. rewrite F2. simpl. rewrite F3. simpl. rewrite F4.
  reflexivity.
Qed.

End ModelFacts.

Section ModelClaims.

Import PyFloat Dataset Model ModelFacts.
Local Open Scope nat_scope.

(** C8: for every batch of shape (B, 19) with B >= 1 and every value of
    the parameters, the forward pass of [SailingAI()] succeeds and returns
    a batch of shape (B, 2).  The network is four linear layers of widths
    19 -> 128 -> 64 -> 32 -> 2; the result is the fourth layer applied to
    the rectified output of the third, and so on down to the input, with
    no activation after the fourth. *)
Theorem forward_shape (init : nat -> nat -> nat -> float) (b : nat)
    (x : list (list float)) :
  1 <= b ->
  has_shape b INPUT_DIM x ->
  exists l1 l2 l3 l4 h1 h2 h3 y,
    net (SailingAI_default init)
    = [ LinearLayer l1; ReLULayer; LinearLayer l2; ReLULayer;
        LinearLayer l3; ReLULayer; LinearLayer l4 ]
    /\ Linear_shaped 19 128 l1 /\ Linear_shaped 128 64 l2
    /\ Linear_shaped 64 32 l3 /\ Linear_shaped 32 2 l4
    /\ Linear_forward l1 x = Ok h1 /\ has_shape b 128 h1
    /\ Linear_forward l2 (map (map relu) h1) = Ok h2 /\ has_shape b 64 h2
    /\ Linear_forward l3 (map (map relu) h2) = Ok h3 /\ has_shape b 32 h3
    /\ Linear_forward l4 (map (map relu) h3) = Ok y
    /\ forward (SailingAI_default init) x = Ok y
    /\ has_shape b OUTPUT_DIM y.
Proof.
  intros _ Hx.
  destruct (forward_shaped _ b x (SailingAI_default_shaped init) Hx)
    as (l1 & l2 & l3 & l4 & h1 & h2 & h3 & y & H).
  exists l1, l2, l3, l4, h1, h2, h3, y. tauto.
Qed.

Lemma forward_shape_witness :
  exists l1 l2 l3 l4 h1 h2 h3 y,
    net (SailingAI_default ExportOnnx.zero_init)
    = [ LinearLayer l1; ReLULayer; LinearLayer l2; ReLULayer;
        LinearLayer l3; ReLULayer; LinearLayer l4 ]
    /\ Linear_shaped 19 128 l1 /\ Linear_shaped 128 64 l2
    /\ Linear_shaped 64 32 l3 /\ Linear_shaped 32 2 l4
    /\ Linear_forward l1 (ExportOnnx.zeros 3 19) = Ok h1 /\ has_shape 3 128 h1
    /\ Linear_forward l2 (map (map relu) h1) = Ok h2 /\ has_shape 3 64 h2
    /\ Linear_forward l3 (map (map relu) h2) = Ok h3 /\ has_shape 3 32 h3
    /\ Linear_forward l4 (map (map relu) h3) = Ok y
    /\ forward (SailingAI_default ExportOnnx.zero_init) (ExportOnnx.zeros 3 19) = Ok y
    /\ has_shape 3 OUTPUT_DIM y.
Proof.
  apply (forward_shape ExportOnnx.zero_init 3 (ExportOnnx.zeros 3 19)).
  - lia.
  - split; [reflexivity |]. repeat constructor.
Defined.

End ModelClaims.

(** ** export_onnx.py *)

Module ExportFacts.

Import PyFloat Dataset Model ExportOnnx.

Lemma load_param_ok (sd : gmap string tensor) (name : string) (current t : tensor) :
  load_param sd name current = Ok t ->
  sd !! name = Some t /\ shape t = shape current.
Proof.
  unfold load_param. destruct (sd !! name) as [t0 |]; [| discriminate].
  case_bool_decide; [| discriminate]. intros [= <-]. auto.
Qed.

Lemma load_param_err (sd : gmap string tensor) (name : string) (current : tensor)
    (e : exn) :
  load_param sd name current = Err e -> e = RuntimeError.
Proof.
  unfold load_param. destruct (sd !! name) as [t0 |].
  - case_bool_decide; [discriminate | congruence].
  - congruence.
Qed.

(** A successful strict load has found every parameter of the model in
    the checkpoint, with the model's shape. *)
Lemma load_layers_ok (layers : list layer) :
  forall (i : nat) (sd : gmap string tensor) (layers' : list layer),
    load_layers i layers sd = Ok layers' ->
    forall k t', In (k, t') (named_parameters_from i layers) ->
                 exists t, sd !! k = Some t /\ shape t = shape t'.
Proof.
  induction layers as [| ly rest IH]; intros i sd layers' Hload k t' Hin.
  - destruct Hin.
  - destruct ly as [l |]; simpl in Hload, Hin.
    + apply rbind_ok in Hload as (w & Hw & Hload).
      apply rbind_ok in Hload as (b & Hb & Hload).
      apply rbind_ok in Hload as (rest' & Hrest & _).
      apply load_param_ok in Hw as [Hw1 Hw2].
      apply load_param_ok in Hb as [Hb1 Hb2].
      destruct Hin as [[= <- <-] | [[= <- <-] | Hin]]; eauto.
    + apply rbind_ok in Hload as (rest' & Hrest & _). eauto.
Qed.

Lemma load_layers_err (layers : list layer) :
  forall (i : nat) (sd : gmap string tensor) (e : exn),
    load_layers i layers sd = Err e -> e = RuntimeError.
Proof.
  induction layers as [| ly rest IH]; intros i sd e Hload; [discriminate |].
  destruct ly as [l |]; simpl in Hload.
  - destruct (load_param sd (param_name i "weight") (Mat (weight l)))
      as [w | e1] eqn:Hw; [| apply load_param_err in Hw; simpl in Hload; congruence].
    destruct (load_param sd (param_name i "bias") (Vec (bias l)))
      as [b | e2] eqn:Hb; [| apply load_param_err in Hb; simpl in Hload; congruence].
    simpl in Hload.
    destruct (load_layers (S i) rest sd) as [rest' | e3] eqn:Hrest;
      [| apply IH in Hrest; simpl in Hload; congruence].
    simpl in Hload. destruct w, b; congruence.
  - destruct (load_layers (S i) rest sd) as [rest' | e3] eqn:Hrest;
      [discriminate | apply IH in Hrest; simpl in Hload; congruence].
Qed.

Lemma load_state_dict_err (m : SailingAI) (sd : gmap string tensor) (e : exn) :
  load_state_dict m sd = Err e -> e = RuntimeError.
Proof.
  unfold load_state_dict. case_bool_decide; [| congruence].
  destruct (load_layers 0 (net m) sd) as [layers |e'] eqn:Hl; [discriminate |].
  apply load_layers_err in Hl. simpl. congruence.
Qed.

Lemma load_state_dict_matches (m m' : SailingAI) (sd : gmap string tensor) :
  load_state_dict m sd = Ok m' -> state_dict_matches m sd.
Proof.
  unfold load_state_dict. case_bool_decide as Hsub; [| discriminate].
  intros Hload. apply rbind_ok in Hload as (layers & Hlayers & _).
  assert (Hfound : forall k t', state_dict m !! k = Some t' ->
                     exists t, sd !! k = Some t /\ shape t = shape t').
  { intros k t' Hk. unfold state_dict in Hk.
    apply elem_of_list_to_map_2, list_elem_of_In in Hk.
    eapply load_layers_ok; eassumption. }
  split.
  - apply (anti_symm (⊆)); [exact Hsub |].
    intros k Hk. apply elem_of_dom in Hk as [t' Hk].
    destruct (Hfound k t' Hk) as (t & Ht & _).
    apply elem_of_dom. eauto.
  - intros k t t' Ht Ht'.
    destruct (Hfound k t' Ht') as (t0 & Ht0 & Hshape). congruence.
Qed.

(** A checkpoint written from a model of the same topology is exported:
    the artifact is written and the confirmation printed. *)
Example export_matching_checkpoint :
  let fs0 := single_file "checkpoints/sailing_ai.pt"
               (CheckpointFile (state_dict (SailingAI_default (fun _ _ _ => Train.one)))) in
  let (w, r) := run_main (export zero_init zeros demo_args) fs0 in
  r = Ok tt
  /\ journal (fs w) = [WriteFile "../server/models/sailing_ai.onnx"]
  /\ stdout w = [PrintExported "../server/models/sailing_ai.onnx";
                 PrintInputShape 19; PrintOutputShape].
Proof. vm_compute. repeat split. Qed.

End ExportFacts.

Section ExportClaims.

Import PyFloat Dataset Model ExportOnnx ExportFacts.

(** C9: when the checkpoint's parameter names or shapes do not exactly
    match the freshly constructed model, [export] raises the load error
    and leaves the world as it found it: no artifact is written, nothing
    is printed. *)
Theorem export_mismatch_writes_nothing (init : nat -> nat -> nat -> float)
    (randn : nat -> nat -> list (list float)) (args : Args) (w : world)
    (sd : gmap string tensor) :
  files (fs w) !! checkpoint args = Some (CheckpointFile sd) ->
  ~ state_dict_matches (SailingAI_default init) sd ->
  export init randn args w = (w, Err RuntimeError).
Proof.
  intros Hfile Hmis.
  unfold export, io_bind, read_fs, torch_load, io_lift. rewrite Hfile.
  destruct (load_state_dict (SailingAI_default init) sd) as [m' | e] eqn:Hload.
  - exfalso. apply Hmis. eapply load_state_dict_matches. exact Hload.
  - apply load_state_dict_err in Hload. subst e. reflexivity.
Qed.

Lemma export_mismatch_writes_nothing_witness :
  export zero_init zeros demo_args
    {| fs := single_file "checkpoints/sailing_ai.pt" (CheckpointFile narrow_checkpoint);
       stdout := [] |}
  = ({| fs := single_file "checkpoints/sailing_ai.pt" (CheckpointFile narrow_checkpoint);
        stdout := [] |}, Err RuntimeError).
Proof.
  apply (export_mismatch_writes_nothing zero_init zeros demo_args
           {| fs := single_file "checkpoints/sailing_ai.pt"
                      (CheckpointFile narrow_checkpoint);
              stdout := [] |}
           narrow_checkpoint).
  - reflexivity.
  - intros [_ Hshape].
    assert (Hs : shape (Mat (weight (Linear_init (fun _ _ => zero) 19 64)))
                 = shape (Mat (weight (Linear_init (zero_init 0%nat) 19 128)))).
    { apply (Hshape "net.0.weight"%string); reflexivity. }
    vm_compute in Hs. discriminate Hs.
Defined.

End ExportClaims.

(** ** train.py *)

Module TrainFacts.

Import PyFloat Dataset Model Train.
Local Open Scope Z_scope.

(** *** Reading the output *)

Lemma outcomes_app (out out' : list event) :
  outcomes (out ++ out') = fold_left outcome_step out' (outcomes out).
Proof. unfold outcomes. apply List.fold_left_app. Qed.

Lemma mark_last_false (os : list bool) : mark_last (os ++ [false]) = os ++ [true].
Proof.
  unfold mark_last. rewrite List.rev_unit. simpl.
  rewrite List.rev_involutive. reflexivity.
Qed.

Lemma epoch_lines_app (out out' : list event) :
  epoch_lines (out ++ out') = epoch_lines out ++ epoch_lines out'.
Proof. unfold epoch_lines. apply List.flat_map_app. Qed.

Lemma early_stopped_app (out out' : list event) :
  early_stopped (out ++ out') = early_stopped out || early_stopped out'.
Proof. unfold early_stopped. apply List.existsb_app. Qed.

Lemma stall_true (os : list bool) : stall (os ++ [true]) = O.
Proof. unfold stall. rewrite List.rev_unit. reflexivity. Qed.

Lemma stall_false (os : list bool) : stall (os ++ [false]) = S (stall os).
Proof. unfold stall. rewrite List.rev_unit. reflexivity. Qed.

Lemma leading_false_le (l : list bool) : (leading_false l <= length l)%nat.
Proof.
  induction l as [| [] l IH]; simpl; lia.
Qed.

Lemma stall_le (os : list bool) : (stall os <= length os)%nat.
Proof.
  unfold stall. rewrite <- (List.length_rev os). apply leading_false_le.
Qed.

Lemma running_best_app (b v : float) (vs : list float) :
  running_best b (vs ++ [v])
  = if ltb v (running_best b vs) then v else running_best b vs.
Proof. unfold running_best. rewrite List.fold_left_app. reflexivity. Qed.

Lemma improvements_app (v : float) (vs : list float) :
  forall b, improvements b (vs ++ [v])
            = improvements b vs ++ [ltb v (running_best b vs)].
Proof.
  induction vs as [| u vs IH]; intros b; simpl.
  - unfold running_best. simpl. destruct (ltb v b); reflexivity.
  - unfold running_best. simpl. fold (running_best (if ltb u b then u else b) vs).
    destruct (ltb u b); rewrite IH; reflexivity.
Qed.

Lemma epoch_range_S (n : nat) :
  epoch_range (Z.of_nat (S n)) = epoch_range (Z.of_nat n) ++ [Z.of_nat (S n)].
Proof.
  unfold epoch_range. rewrite !Nat2Z.id.
  rewrite List.seq_S, List.map_app. reflexivity.
Qed.

(** A split of [os ++ [x]] with a non-empty right part splits [os]. *)
Lemma app_unit_split {A : Type} (os pre post : list A) (x : A) :
  os ++ [x] = pre ++ post -> post <> [] ->
  exists post', os = pre ++ post'.
Proof.
  intros Heq Hne.
  destruct (List.exists_last Hne) as (post' & y & ->).
  rewrite List.app_assoc in Heq.
  apply List.app_inj_tail in Heq as [Heq _]. eauto.
Qed.

(** *** One epoch *)

Section EpochFacts.

Variable B : Backend.
Variable args : Args.
Variables train_loader val_loader : DataLoader.

Lemma run_epoch_err (epoch : Z) (st : locals B) (w : world) (e : exn) :
  epoch_losses B train_loader val_loader (trainer st) = Err e ->
  run_epoch B args train_loader val_loader epoch st w = (w, Err e).
Proof.
  intros H. unfold run_epoch, io_bind, io_lift. rewrite H. reflexivity.
Qed.

(** Saving either goes through or is refused by the operating system;
    a refused save leaves every file as it was and at most the
    directory created. *)
Lemma save_checkpoint_cases (path : string) (t : Trainer B) (w : world) :
  (accepts_save path (fs w)
   /\ save_checkpoint B path t w
      = ({| fs := write_file path (CheckpointFile (state_dict (model B t)))
                    (makedirs (Path.dirname_or_dot path) (fs w));
            stdout := stdout w |}, Ok tt))
  \/ (~ accepts_save path (fs w)
      /\ exists e fs',
           save_checkpoint B path t w
           = ({| fs := fs'; stdout := stdout w |}, Err e)
           /\ (fs' = fs w \/ fs' = makedirs (Path.dirname_or_dot path) (fs w))).
Proof.
  unfold accepts_save, save_checkpoint, io_bind, try_fs, try_makedirs,
    try_write_file.
  destruct (os_check (MakeDirs (Path.dirname_or_dot path)) (fs w))
    as [[] | e] eqn:Hdir; simpl.
  - destruct (os_check (WriteFile path)
                (makedirs (Path.dirname_or_dot path) (fs w)))
      as [[] | e] eqn:Hfile; simpl.
    + left. split; [split; reflexivity | reflexivity].
    + right. split; [intros [_ H]; discriminate H |].
      exists e, (makedirs (Path.dirname_or_dot path) (fs w)).
      split; [reflexivity | right; reflexivity].
  - right. split; [intros [H _]; discriminate H |].
    exists e, (fs w). split; [destruct w; reflexivity | left; reflexivity].
Qed.

Lemma run_epoch_improved (epoch : Z) (st : locals B) (w : world)
    (t : Trainer B) (avg_train avg_val : float) :
  epoch_losses B train_loader val_loader (trainer st) = Ok (t, avg_train, avg_val) ->
  ltb avg_val (best_val_loss st) = true ->
  accepts_save (output args) (fs w) ->
  run_epoch B args train_loader val_loader epoch st w
  = ({| fs := write_file (output args) (CheckpointFile (state_dict (model B t)))
                 (makedirs (Path.dirname_or_dot (output args)) (fs w));
        stdout := (stdout w ++ [PrintEpoch epoch (epochs args) avg_train avg_val
                                           (get_last_lr B t)])
                  ++ [PrintSaved avg_val] |},
     Ok ({| trainer := t; best_val_loss := avg_val; patience_counter := 0 |},
         false)).
Proof.
  intros H Hlt Hacc. unfold run_epoch, io_bind, io_lift. rewrite H.
  unfold epoch_update, io_bind, print. simpl. rewrite Hlt.
  destruct (save_checkpoint_cases (output args) t
              {| fs := fs w;
                 stdout := stdout w ++ [PrintEpoch epoch (epochs args) avg_train
                                          avg_val (get_last_lr B t)] |})
    as [[_ Hsave] | [Hrej _]]; [| contradiction].
  rewrite Hsave. reflexivity.
Qed.

(** An improving epoch whose save the operating system refuses raises
    the error after the epoch line; no file has changed. *)
Lemma run_epoch_refused (epoch : Z) (st : locals B) (w : world)
    (t : Trainer B) (avg_train avg_val : float) :
  epoch_losses B train_loader val_loader (trainer st) = Ok (t, avg_train, avg_val) ->
  ltb avg_val (best_val_loss st) = true ->
  ~ accepts_save (output args) (fs w) ->
  exists e fs',
    run_epoch B args train_loader val_loader epoch st w
    = ({| fs := fs';
          stdout := stdout w ++ [PrintEpoch epoch (epochs args) avg_train avg_val
                                            (get_last_lr B t)] |}, Err e)
    /\ (fs' = fs w
        \/ fs' = makedirs (Path.dirname_or_dot (output args)) (fs w)).
Proof.
  intros H Hlt Hrej. unfold run_epoch, io_bind, io_lift. rewrite H.
  unfold epoch_update, io_bind, print. simpl. rewrite Hlt.
  destruct (save_checkpoint_cases (output args) t
              {| fs := fs w;
                 stdout := stdout w ++ [PrintEpoch epoch (epochs args) avg_train
                                          avg_val (get_last_lr B t)] |})
    as [[Hacc _] | (_ & e & fs' & Hsave & Hfs)]; [contradiction |].
  rewrite Hsave. exists e, fs'. split; [reflexivity | exact Hfs].
Qed.

(** The two ways an improving epoch can end. *)
Lemma run_epoch_improving (epoch : Z) (st : locals B) (w : world)
    (t : Trainer B) (avg_train avg_val : float) :
  epoch_losses B train_loader val_loader (trainer st) = Ok (t, avg_train, avg_val) ->
  ltb avg_val (best_val_loss st) = true ->
  (accepts_save (output args) (fs w)
   /\ run_epoch B args train_loader val_loader epoch st w
      = ({| fs := write_file (output args)
                    (CheckpointFile (state_dict (model B t)))
                    (makedirs (Path.dirname_or_dot (output args)) (fs w));
            stdout := (stdout w ++ [PrintEpoch epoch (epochs args) avg_train
                                               avg_val (get_last_lr B t)])
                      ++ [PrintSaved avg_val] |},
         Ok ({| trainer := t; best_val_loss := avg_val; patience_counter := 0 |},
             false)))
  \/ (~ accepts_save (output args) (fs w)
      /\ exists e fs',
           run_epoch B args train_loader val_loader epoch st w
           = ({| fs := fs';
                 stdout := stdout w ++ [PrintEpoch epoch (epochs args) avg_train
                                          avg_val (get_last_lr B t)] |}, Err e)
           /\ (fs' = fs w
               \/ fs' = makedirs (Path.dirname_or_dot (output args)) (fs w))).
Proof.
  intros H Hlt.
  destruct (save_checkpoint_cases (output args) t w) as [[Hacc _] | [Hrej _]].
  - left. split; [exact Hacc | apply run_epoch_improved; assumption].
  - right. split; [exact Hrej | apply run_epoch_refused; assumption].
Qed.

Lemma run_epoch_stalled (epoch : Z) (st : locals B) (w : world)
    (t : Trainer B) (avg_train avg_val : float) :
  epoch_losses B train_loader val_loader (trainer st) = Ok (t, avg_train, avg_val) ->
  ltb avg_val (best_val_loss st) = false ->
  patience_counter st + 1 < patience args ->
  run_epoch B args train_loader val_loader epoch st w
  = ({| fs := fs w;
        stdout := stdout w ++ [PrintEpoch epoch (epochs args) avg_train avg_val
                                          (get_last_lr B t)] |},
     Ok ({| trainer := t; best_val_loss := best_val_loss st;
            patience_counter := patience_counter st + 1 |}, false)).
Proof.
  intros H Hlt Hp. unfold run_epoch, io_bind, io_lift. rewrite H.
  unfold epoch_update, io_bind, print. simpl. rewrite Hlt.
  destruct (patience args <=? patience_counter st + 1) eqn:E;
    [apply Z.leb_le in E; lia | reflexivity].
Qed.

Lemma run_epoch_stopped (epoch : Z) (st : locals B) (w : world)
    (t : Trainer B) (avg_train avg_val : float) :
  epoch_losses B train_loader val_loader (trainer st) = Ok (t, avg_train, avg_val) ->
  ltb avg_val (best_val_loss st) = false ->
  patience args <= patience_counter st + 1 ->
  run_epoch B args train_loader val_loader epoch st w
  = ({| fs := fs w;
        stdout := (stdout w ++ [PrintEpoch epoch (epochs args) avg_train avg_val
                                           (get_last_lr B t)])
                  ++ [PrintEarlyStop epoch (patience args)] |},
     Ok ({| trainer := t; best_val_loss := best_val_loss st;
            patience_counter := patience_counter st + 1 |}, true)).
Proof.
  intros H Hlt Hp. unfold run_epoch, io_bind, io_lift. rewrite H.
  unfold epoch_update, io_bind, print. simpl. rewrite Hlt.
  destruct (patience args <=? patience_counter st + 1) eqn:E;
    [reflexivity | apply Z.leb_gt in E; lia].
Qed.

End EpochFacts.

(** *** The loop invariant *)

Section LoopFacts.

Variable B : Backend.
Variable args : Args.
Variables train_loader val_loader : DataLoader.

Lemma outcomes_epoch (out : list event) (ep eps : Z) (a v l : float) :
  outcomes (out ++ [PrintEpoch ep eps a v l]) = outcomes out ++ [false].
Proof. rewrite outcomes_app. reflexivity. Qed.

Lemma outcomes_epoch_saved (out : list event) (ep eps : Z) (a v l b : float) :
  outcomes ((out ++ [PrintEpoch ep eps a v l]) ++ [PrintSaved b])
  = outcomes out ++ [true].
Proof.
  rewrite outcomes_app, outcomes_epoch. simpl. apply mark_last_false.
Qed.

Lemma outcomes_epoch_stop (out : list event) (ep eps : Z) (a v l : float) (e p : Z) :
  outcomes ((out ++ [PrintEpoch ep eps a v l]) ++ [PrintEarlyStop e p])
  = outcomes out ++ [false].
Proof. rewrite outcomes_app, outcomes_epoch. reflexivity. Qed.

Lemma existsb_unit (os : list bool) (b : bool) :
  existsb id (os ++ [b]) = existsb id os || b.
Proof. rewrite List.existsb_app. simpl. rewrite orb_false_r. reflexivity. Qed.

(** The invariant after one more epoch line for [avg_val], improving or
    not, printed on top of a world that satisfies it. *)
Lemma loop_inv_extend (st st' : locals B) (w w' : world) (avg_val : float)
    (improved : bool) :
  loop_inv B args st w ->
  stall (outcomes (stdout w)) = O
  \/ Z.of_nat (stall (outcomes (stdout w))) < patience args ->
  improved = ltb avg_val (best_val_loss st) ->
  outcomes (stdout w') = outcomes (stdout w) ++ [improved] ->
  epoch_lines (stdout w')
  = epoch_lines (stdout w)
    ++ [(Z.of_nat (S (length (outcomes (stdout w)))), avg_val)] ->
  best_val_loss st' = (if improved then avg_val else best_val_loss st) ->
  patience_counter st' = (if improved then 0 else patience_counter st + 1) ->
  (if improved then checkpoint_exists (fs w') (output args)
   else fs w' = fs w) ->
  loop_inv B args st' w'.
Proof.
  intros [He Ho Hb Hc Hs Hw] Hhead Himp Hos Hls Hbest Hcnt Hfs.
  constructor.
  - rewrite Hls, Hos, List.map_app, List.length_app. simpl.
    rewrite He, Nat.add_1_r, epoch_range_S. reflexivity.
  - rewrite Hls, Hos, List.map_app. simpl.
    rewrite improvements_app, <- Ho, <- Hb, <- Himp. reflexivity.
  - rewrite Hls, List.map_app. simpl.
    rewrite running_best_app, <- Hb, <- Himp. exact Hbest.
  - rewrite Hos, Hcnt. destruct improved.
    + rewrite stall_true. reflexivity.
    + rewrite stall_false, Hc. lia.
  - rewrite Hos, existsb_unit. destruct improved; [intros _; exact Hfs |].
    rewrite orb_false_r, Hfs. exact Hs.
  - intros pre post Hsplit Hne. rewrite Hos in Hsplit.
    destruct (app_unit_split _ _ _ _ Hsplit Hne) as [post' Hpre].
    destruct post' as [| b post'].
    + rewrite List.app_nil_r in Hpre. subst pre. exact Hhead.
    + apply (Hw pre (b :: post') Hpre). discriminate.
Qed.

Lemma run_epoch_step (st st' : locals B) (w w' : world) (brk : bool) :
  loop_inv B args st w ->
  stall (outcomes (stdout w)) = O
  \/ Z.of_nat (stall (outcomes (stdout w))) < patience args ->
  early_stopped (stdout w) = false ->
  run_epoch B args train_loader val_loader
            (Z.of_nat (S (length (outcomes (stdout w))))) st w
  = (w', Ok (st', brk)) ->
  loop_inv B args st' w'
  /\ length (outcomes (stdout w')) = S (length (outcomes (stdout w)))
  /\ (brk = false ->
      early_stopped (stdout w') = false
      /\ (stall (outcomes (stdout w')) = O
          \/ Z.of_nat (stall (outcomes (stdout w'))) < patience args))
  /\ (brk = true ->
      early_stopped (stdout w') = true
      /\ patience args <= Z.of_nat (stall (outcomes (stdout w')))
      /\ (stall (outcomes (stdout w')) = 1%nat
          \/ Z.of_nat (stall (outcomes (stdout w'))) <= patience args)).
Proof.
  intros Hinv Hhead Hearly Hrun.
  destruct (epoch_losses B train_loader val_loader (trainer st))
    as [[[t avg_train] avg_val] | e] eqn:Hlosses;
    [| rewrite (run_epoch_err _ _ _ _ _ _ _ _ Hlosses) in Hrun; discriminate].
  pose proof (inv_counter _ _ _ _ Hinv) as Hc.
  destruct (ltb avg_val (best_val_loss st)) eqn:Hlt.
  - destruct (run_epoch_improving B args train_loader val_loader
                (Z.of_nat (S (length (outcomes (stdout w))))) st w t avg_train
                avg_val Hlosses Hlt)
      as [[_ Heq] | (_ & e & fs' & Heq & _)];
      rewrite Heq in Hrun; [| discriminate].
    injection Hrun as <- <- <-.
    assert (Hos : outcomes (stdout
        {| fs := write_file (output args) (CheckpointFile (state_dict (model B t)))
                   (makedirs (Path.dirname_or_dot (output args)) (fs w));
           stdout := (stdout w ++ [PrintEpoch (Z.of_nat (S (length (outcomes (stdout w)))))
                                     (epochs args) avg_train avg_val (get_last_lr B t)])
                     ++ [PrintSaved avg_val] |})
        = outcomes (stdout w) ++ [true]) by apply outcomes_epoch_saved.
    split; [| split; [| split]].
    + eapply (loop_inv_extend st _ w _ avg_val true); try eassumption; try reflexivity.
      * symmetry. exact Hlt.
      * simpl stdout. rewrite !epoch_lines_app. simpl.
        rewrite List.app_nil_r. reflexivity.
      * eexists. simpl. apply lookup_insert_eq.
    + rewrite Hos, List.length_app. simpl. lia.
    + intros _. split.
      * simpl stdout. rewrite !early_stopped_app, Hearly. reflexivity.
      * left. rewrite Hos. apply stall_true.
    + discriminate.
  - destruct (Z.lt_ge_cases (patience_counter st + 1) (patience args)) as [Hp | Hp].
    + rewrite (run_epoch_stalled _ _ _ _ _ _ _ _ _ _ Hlosses Hlt Hp) in Hrun.
      injection Hrun as <- <- <-.
      assert (Hos : outcomes (stdout
          {| fs := fs w;
             stdout := stdout w ++ [PrintEpoch (Z.of_nat (S (length (outcomes (stdout w)))))
                                      (epochs args) avg_train avg_val (get_last_lr B t)] |})
          = outcomes (stdout w) ++ [false]) by apply outcomes_epoch.
      split; [| split; [| split]].
      * eapply (loop_inv_extend st _ w _ avg_val false); try eassumption; try reflexivity.
        -- symmetry. exact Hlt.
        -- simpl stdout. rewrite !epoch_lines_app. reflexivity.
      * rewrite Hos, List.length_app. simpl. lia.
      * intros _. split.
        -- simpl stdout. rewrite !early_stopped_app, Hearly. reflexivity.
        -- right. rewrite Hos, stall_false. lia.
      * discriminate.
    + rewrite (run_epoch_stopped _ _ _ _ _ _ _ _ _ _ Hlosses Hlt Hp) in Hrun.
      injection Hrun as <- <- <-.
      assert (Hos : outcomes (stdout
          {| fs := fs w;
             stdout := (stdout w ++ [PrintEpoch (Z.of_nat (S (length (outcomes (stdout w)))))
                                       (epochs args) avg_train avg_val (get_last_lr B t)])
                       ++ [PrintEarlyStop (Z.of_nat (S (length (outcomes (stdout w)))))
                                          (patience args)] |})
          = outcomes (stdout w) ++ [false]) by apply outcomes_epoch_stop.
      split; [| split; [| split]].
      * eapply (loop_inv_extend st _ w _ avg_val false); try eassumption; try reflexivity.
        -- symmetry. exact Hlt.
        -- simpl stdout. rewrite !epoch_lines_app. simpl.
           rewrite List.app_nil_r. reflexivity.
      * rewrite Hos, List.length_app. simpl. lia.
      * discriminate.
      * intros _. split; [| split].
        -- simpl stdout. rewrite !early_stopped_app. simpl.
           apply orb_true_r.
        -- rewrite Hos, stall_false. lia.
        -- rewrite Hos, stall_false. destruct Hhead as [H0 | Hlt']; [left | right]; lia.
Qed.

End LoopFacts.

(** *** The whole loop and the whole run *)

Section RunFacts.

Variable B : Backend.
Variable args : Args.

Lemma epoch_loop_spec (train_loader val_loader : DataLoader) (k : nat) :
  forall (st st' : locals B) (w w' : world),
    loop_inv B args st w ->
    stall (outcomes (stdout w)) = O
    \/ Z.of_nat (stall (outcomes (stdout w))) < patience args ->
    early_stopped (stdout w) = false ->
    epoch_loop B args train_loader val_loader
               (map Z.of_nat (seq (S (length (outcomes (stdout w)))) k)) st w
    = (w', Ok st') ->
    loop_inv B args st' w'
    /\ (length (outcomes (stdout w)) <= length (outcomes (stdout w'))
        <= length (outcomes (stdout w)) + k)%nat
    /\ (1 <= k -> S (length (outcomes (stdout w))) <= length (outcomes (stdout w')))%nat
    /\ (early_stopped (stdout w') = false ->
        length (outcomes (stdout w')) = (length (outcomes (stdout w)) + k)%nat
        /\ (stall (outcomes (stdout w')) = O
            \/ Z.of_nat (stall (outcomes (stdout w'))) < patience args))
    /\ (early_stopped (stdout w') = true ->
        patience args <= Z.of_nat (stall (outcomes (stdout w')))
        /\ (stall (outcomes (stdout w')) = 1%nat
            \/ Z.of_nat (stall (outcomes (stdout w'))) <= patience args)).
Proof.
  induction k as [| k IH]; intros st st' w w' Hinv Hhead Hearly Hloop.
  - simpl in Hloop. injection Hloop as <- <-.
    split; [exact Hinv |]. split; [lia |]. split; [lia |].
    split; [intros _; split; [lia | exact Hhead] |].
    rewrite Hearly. discriminate.
  - simpl in Hloop. unfold io_bind in Hloop.
    destruct (run_epoch B args train_loader val_loader
                (Z.of_nat (S (length (outcomes (stdout w))))) st w)
      as [w1 [[st1 brk] | e]] eqn:Hrun; [| discriminate].
    destruct (run_epoch_step B args train_loader val_loader st st1 w w1 brk
                Hinv Hhead Hearly Hrun) as (Hinv1 & Hlen1 & Hcont & Hbrk).
    simpl in Hloop. destruct brk.
    + injection Hloop as <- <-.
      destruct (Hbrk eq_refl) as (He1 & Hp1 & Hp2).
      split; [exact Hinv1 |]. split; [lia |]. split; [lia |].
      split; [rewrite He1; discriminate |].
      intros _. split; assumption.
    + destruct (Hcont eq_refl) as (He1 & Hhead1).
      rewrite <- Hlen1 in Hloop.
      destruct (IH st1 st' w1 w' Hinv1 Hhead1 He1 Hloop)
        as (Hinv' & Hle & Hge & Hno & Hyes).
      split; [exact Hinv' |]. split; [lia |]. split; [lia |].
      split; [| exact Hyes].
      intros Hf. destruct (Hno Hf) as [Hn Hh]. split; [lia | exact Hh].
Qed.

(** Lines that are not epoch reports leave the reading of a run
    unchanged. *)
Lemma loop_inv_same (st : locals B) (w1 w2 : world) :
  outcomes (stdout w2) = outcomes (stdout w1) ->
  epoch_lines (stdout w2) = epoch_lines (stdout w1) ->
  fs w2 = fs w1 ->
  loop_inv B args st w1 -> loop_inv B args st w2.
Proof.
  intros Ho Hl Hf [He Hos Hb Hc Hs Hw].
  constructor; rewrite ?Ho, ?Hl, ?Hf; assumption.
Qed.

Lemma loop_inv_init (st : locals B) (w : world) :
  outcomes (stdout w) = [] ->
  epoch_lines (stdout w) = [] ->
  best_val_loss st = inf ->
  patience_counter st = 0 ->
  loop_inv B args st w.
Proof.
  intros Ho Hl Hb Hc. constructor; rewrite ?Ho, ?Hl; simpl; try assumption.
  - reflexivity.
  - reflexivity.
  - discriminate.
  - intros pre post Hsplit Hne. symmetry in Hsplit.
    apply List.app_eq_nil in Hsplit as [_ ->]. contradiction.
Qed.

(** The loop started from the initial variables on an output without
    epoch lines, followed by the two closing lines. *)
Lemma loop_then_report (train_loader val_loader : DataLoader)
    (t0 : Trainer B) (wi w1 : world) (st1 : locals B) :
  outcomes (stdout wi) = [] ->
  epoch_lines (stdout wi) = [] ->
  early_stopped (stdout wi) = false ->
  epoch_loop B args train_loader val_loader (epoch_range (epochs args))
    {| trainer := t0; best_val_loss := inf; patience_counter := 0 |} wi
  = (w1, Ok st1) ->
  forall w',
    w' = {| fs := fs w1;
            stdout := (stdout w1 ++ [PrintComplete (best_val_loss st1)])
                      ++ [PrintModelSavedTo (output args)] |} ->
    loop_inv B args st1 w'
    /\ (length (outcomes (stdout w')) <= Z.to_nat (epochs args))%nat
    /\ (1 <= epochs args -> (1 <= length (outcomes (stdout w')))%nat)
    /\ (early_stopped (stdout w') = false ->
        length (outcomes (stdout w')) = Z.to_nat (epochs args)
        /\ (stall (outcomes (stdout w')) = O
            \/ Z.of_nat (stall (outcomes (stdout w'))) < patience args))
    /\ (early_stopped (stdout w') = true ->
        patience args <= Z.of_nat (stall (outcomes (stdout w')))
        /\ (stall (outcomes (stdout w')) = 1%nat
            \/ Z.of_nat (stall (outcomes (stdout w'))) <= patience args)).
Proof.
  intros Ho0 Hl0 He0 Hloop w' ->.
  set (st0 := {| trainer := t0;
                 best_val_loss := inf; patience_counter := 0 |}) in *.
  assert (Hinv0 : loop_inv B args st0 wi)
    by (apply loop_inv_init; assumption || reflexivity).
  assert (Hhead0 : stall (outcomes (stdout wi)) = O
                   \/ Z.of_nat (stall (outcomes (stdout wi))) < patience args).
  { left. rewrite Ho0. reflexivity. }
  assert (Hrange : epoch_range (epochs args)
                   = map Z.of_nat (seq (S (length (outcomes (stdout wi))))
                                       (Z.to_nat (epochs args)))).
  { rewrite Ho0. reflexivity. }
  rewrite Hrange in Hloop.
  destruct (epoch_loop_spec train_loader val_loader _ st0 st1 wi w1
              Hinv0 Hhead0 He0 Hloop) as (Hinv & Hle & Hge & Hno & Hyes).
  rewrite Ho0 in Hle, Hge, Hno. simpl in Hle, Hge, Hno.
  destruct Hle as [_ Hle].
  assert (Hsame_o : outcomes ((stdout w1 ++ [PrintComplete (best_val_loss st1)])
                              ++ [PrintModelSavedTo (output args)])
                    = outcomes (stdout w1)).
  { rewrite !outcomes_app. reflexivity. }
  assert (Hsame_l : epoch_lines ((stdout w1 ++ [PrintComplete (best_val_loss st1)])
                                 ++ [PrintModelSavedTo (output args)])
                    = epoch_lines (stdout w1)).
  { rewrite !epoch_lines_app. simpl. rewrite !List.app_nil_r. reflexivity. }
  assert (Hsame_e : early_stopped ((stdout w1 ++ [PrintComplete (best_val_loss st1)])
                                   ++ [PrintModelSavedTo (output args)])
                    = early_stopped (stdout w1)).
  { rewrite !early_stopped_app. simpl. rewrite !orb_false_r. reflexivity. }
  simpl stdout. rewrite Hsame_o, Hsame_e.
  split; [apply (loop_inv_same st1 w1); auto |].
  split; [exact Hle |]. split; [intros HE; apply Hge; lia |].
  split; assumption.
Qed.

(** The world in which the loop starts: the device line, the sample
    counts and, for a small train view, the warning have been printed. *)
Lemma train_inv (fs0 : FileSystem) (w' : world) (r : result (locals B)) :
  run_main (train B args) fs0 = (w', r) ->
  match load_and_split (permutation B) fs0 (data args)
          default_val_fraction default_seed with
  | Err e =>
      w' = {| fs := fs0; stdout := [PrintDevice (cuda_is_available B)] |}
      /\ r = Err e
  | Ok (train_ds, val_ds) =>
      let wi :=
        {| fs := fs0;
           stdout := [PrintDevice (cuda_is_available B);
                      PrintSamples (Subset_len train_ds) (Subset_len val_ds)]
                     ++ (if (Subset_len train_ds <? 100)%nat
                         then [PrintWarning] else []) |} in
      match DataLoader_init train_ds (batch_size args) true true with
      | Err e => w' = wi /\ r = Err e
      | Ok train_loader =>
          match DataLoader_init val_ds (batch_size args) false false with
          | Err e => w' = wi /\ r = Err e
          | Ok val_loader =>
              match new_trainer B (lr args) (epochs args) with
              | Err e => w' = wi /\ r = Err e
              | Ok t0 =>
                  exists w1 r1,
                    epoch_loop B args train_loader val_loader
                      (epoch_range (epochs args))
                      {| trainer := t0; best_val_loss := inf;
                         patience_counter := 0 |} wi
                    = (w1, r1)
                    /\ match r1 with
                       | Err e => w' = w1 /\ r = Err e
                       | Ok st1 =>
                           w' = {| fs := fs w1;
                                   stdout :=
                                     (stdout w1
                                      ++ [PrintComplete (best_val_loss st1)])
                                     ++ [PrintModelSavedTo (output args)] |}
                           /\ r = Ok st1
                       end
              end
          end
      end
  end.
Proof.
  intros Hrun.
  unfold run_main, train, io_bind, print, read_fs, io_lift in Hrun.
  simpl in Hrun.
  destruct (load_and_split (permutation B) fs0 (data args)
              default_val_fraction default_seed)
    as [[train_ds val_ds] | e];
    [| injection Hrun as <- <-; split; reflexivity].
  simpl in Hrun. cbv zeta.
  destruct (Subset_len train_ds <? 100)%nat; simpl in Hrun;
    (destruct (DataLoader_init train_ds (batch_size args) true true)
      as [train_loader | e];
      [| injection Hrun as <- <-; split; reflexivity]);
    (destruct (DataLoader_init val_ds (batch_size args) false false)
      as [val_loader | e];
      [| injection Hrun as <- <-; split; reflexivity]);
    (destruct (new_trainer B (lr args) (epochs args)) as [t0 | e];
      [| injection Hrun as <- <-; split; reflexivity]);
    match type of Hrun with
    | context [epoch_loop B args train_loader val_loader ?rg ?s ?wi] =>
        destruct (epoch_loop B args train_loader val_loader rg s wi)
          as [w1 r1] eqn:Hloop
    end;
    exists w1, r1; (split; [exact Hloop |]);
    destruct r1 as [st1 | e]; injection Hrun as <- <-; split; reflexivity.
Qed.

(** What a completed run of [train] leaves behind. *)
Lemma train_spec (fs0 : FileSystem) (w' : world) (st' : locals B) :
  run_main (train B args) fs0 = (w', Ok st') ->
  loop_inv B args st' w'
  /\ (length (outcomes (stdout w')) <= Z.to_nat (epochs args))%nat
  /\ (1 <= epochs args -> (1 <= length (outcomes (stdout w')))%nat)
  /\ (early_stopped (stdout w') = false ->
      length (outcomes (stdout w')) = Z.to_nat (epochs args)
      /\ (stall (outcomes (stdout w')) = O
          \/ Z.of_nat (stall (outcomes (stdout w'))) < patience args))
  /\ (early_stopped (stdout w') = true ->
      patience args <= Z.of_nat (stall (outcomes (stdout w')))
      /\ (stall (outcomes (stdout w')) = 1%nat
          \/ Z.of_nat (stall (outcomes (stdout w'))) <= patience args)).
Proof.
  intros Hrun. apply train_inv in Hrun.
  destruct (load_and_split (permutation B) fs0 (data args)
              default_val_fraction default_seed)
    as [[train_ds val_ds] | e]; [| destruct Hrun as [_ H]; discriminate H].
  cbv zeta in Hrun.
  destruct (DataLoader_init train_ds (batch_size args) true true)
    as [train_loader | e]; [| destruct Hrun as [_ H]; discriminate H].
  destruct (DataLoader_init val_ds (batch_size args) false false)
    as [val_loader | e]; [| destruct Hrun as [_ H]; discriminate H].
  destruct (new_trainer B (lr args) (epochs args)) as [t0 | e];
    [| destruct Hrun as [_ H]; discriminate H].
  destruct Hrun as (w1 & r1 & Hloop & Hend).
  destruct r1 as [st1 | e]; [| destruct Hend as [_ H]; discriminate H].
  destruct Hend as [Hw Hr]. injection Hr as <-.
  eapply loop_then_report; [| | | exact Hloop | exact Hw];
    simpl; destruct (Subset_len train_ds <? 100)%nat; reflexivity.
Qed.

End RunFacts.

End TrainFacts.

(** *** Batches and averages *)

Module BatchFacts.

Import PyFloat Dataset Model Train TrainFacts FloatFacts.
Local Open Scope Z_scope.

Lemma chunks_nil {A : Type} (fuel bs : nat) : chunks fuel bs (@nil A) = [].
Proof. destruct fuel; reflexivity. Qed.

(** Fewer elements than one batch and [drop_last]: no batch at all. *)
Lemma batches_short {A : Type} (bs : nat) (l : list A) :
  (length l < bs)%nat -> batches bs true l = [].
Proof.
  intros Hlt. unfold batches.
  destruct l as [| a l]; [reflexivity |].
  simpl length in *. cbn [chunks].
  rewrite List.skipn_all2 by (simpl length; lia).
  rewrite chunks_nil. cbn [List.filter].
  rewrite List.firstn_all2 by (simpl length; lia).
  simpl length.
  destruct (Nat.eqb_spec (S (length l)) bs) as [Heq | Hne];
    [lia | reflexivity].
Qed.

Lemma py_index_err {A : Type} (l : list A) (i : Z) (e : exn) :
  py_index l i = Err e -> e = IndexError.
Proof.
  unfold py_index.
  destruct ((0 <=? (if i <? 0 then i + Z.of_nat (length l) else i))
            && ((if i <? 0 then i + Z.of_nat (length l) else i)
                <? Z.of_nat (length l))); [| congruence].
  destruct (nth_error l _); congruence.
Qed.

Lemma Subset_getitem_err (s : Subset) (i : Z) (e : exn) :
  Subset_getitem s i = Err e -> e = IndexError.
Proof.
  unfold Subset_getitem, SailingDataset_getitem.
  destruct (py_index (indices s) i) as [k | e1] eqn:H1; simpl;
    [| intros [= <-]; eapply py_index_err; eassumption].
  destruct (py_index (features (dataset s)) (Z.of_nat k)) as [f | e2] eqn:H2; simpl;
    [| intros [= <-]; eapply py_index_err; eassumption].
  destruct (py_index (targets (dataset s)) (Z.of_nat k)) as [g | e3] eqn:H3; simpl;
    [discriminate | intros [= <-]; eapply py_index_err; eassumption].
Qed.

Lemma fetch_err (s : Subset) (positions : list nat) (e : exn) :
  fetch s positions = Err e -> e = IndexError.
Proof.
  induction positions as [| p rest IH]; simpl; [discriminate |].
  destruct (Subset_getitem s (Z.of_nat p)) as [x | e1] eqn:H1; simpl;
    [| intros [= <-]; eapply Subset_getitem_err; eassumption].
  destruct (fetch s rest) as [xs | e2]; simpl; [discriminate |].
  intros [= <-]. apply IH. reflexivity.
Qed.

Lemma fit_batches_err (B : Backend) (ds : Subset) (bl : list (list nat)) (e : exn) :
  forall t loss k, fit_batches B ds bl t loss k = Err e -> e = IndexError.
Proof.
  induction bl as [| b rest IH]; intros t loss k; simpl; [discriminate |].
  destruct (fetch ds b) as [ss | e1] eqn:H1; simpl;
    [| intros [= <-]; eapply fetch_err; eassumption].
  destruct (fit_batch B t ss) as [t' l]. apply IH.
Qed.

Lemma eval_batches_err (B : Backend) (ds : Subset) (bl : list (list nat))
    (t : Trainer B) (e : exn) :
  forall loss k, eval_batches B ds bl t loss k = Err e -> e = IndexError.
Proof.
  induction bl as [| b rest IH]; intros loss k; simpl; [discriminate |].
  destruct (fetch ds b) as [ss | e1] eqn:H1; simpl;
    [| intros [= <-]; eapply fetch_err; eassumption].
  apply IH.
Qed.

Lemma average_no_zero_division (loss_sum : float) (n : Z) :
  average loss_sum n <> Err ZeroDivisionError.
Proof. unfold average. apply div_int_no_zero_division. lia. Qed.

Lemma epoch_range_unfold (n : nat) :
  epoch_range (Z.of_nat (S n)) = 1 :: map Z.of_nat (seq 2 n).
Proof. unfold epoch_range. rewrite Nat2Z.id. reflexivity. Qed.

Lemma average_zero : average zero 0 = Ok zero.
Proof. reflexivity. Qed.

End BatchFacts.

Section TrainClaims.

Import PyFloat Dataset Model Train TrainFacts FloatFacts BatchFacts.
Local Open Scope Z_scope.

(** C7: when the train loader (with [drop_last]) has fewer samples than
    one batch it yields zero batches; the average of zero batches is
    computed with divisor [max(0, 1) = 1] and is [0.0]; the epoch never
    raises [ZeroDivisionError]; and the average it reports is [0.0] for
    the train loss, and for the validation loss as well when the
    validation view is empty. *)
Theorem zero_batches_average (B : Backend) (train_loader val_loader : DataLoader)
    (t : Trainer B) :
  dl_drop_last train_loader = true ->
  (Subset_len (dl_dataset train_loader) < dl_batch_size train_loader)%nat ->
  (forall t0 n, length (snd (random_order B t0 n)) = n) ->
  (forall t0, snd (loader_batches B train_loader t0) = [])
  /\ Z.max 0 1 = 1
  /\ average zero 0 = Ok zero
  /\ epoch_losses B train_loader val_loader t <> Err ZeroDivisionError
  /\ (forall t' avg_train avg_val,
        epoch_losses B train_loader val_loader t = Ok (t', avg_train, avg_val) ->
        avg_train = zero
        /\ (Subset_len (dl_dataset val_loader) = O -> avg_val = zero)).
Proof.
  intros Hdrop Hshort Hlen.
  assert (Hnone : forall t0, snd (loader_batches B train_loader t0) = []).
  { intros t0. unfold loader_batches. rewrite Hdrop.
    destruct (dl_shuffle train_loader).
    - pose proof (Hlen t0 (Subset_len (dl_dataset train_loader))) as Hl.
      destruct (random_order B t0 (Subset_len (dl_dataset train_loader)))
        as [t1 order]. simpl in *.
      apply batches_short. lia.
    - simpl. apply batches_short. rewrite List.length_seq. exact Hshort. }
  split; [exact Hnone |]. split; [reflexivity |]. split; [reflexivity |].
  unfold epoch_losses.
  pose proof (Hnone (set_mode B true t)) as Htrain.
  destruct (loader_batches B train_loader (set_mode B true t)) as [t1 train_bl].
  simpl in Htrain. subst train_bl. simpl.
  destruct (loader_batches B val_loader (set_mode B false (scheduler_step B t1)))
    as [t2 val_bl] eqn:Hval.
  destruct (eval_batches B (dl_dataset val_loader) val_bl t2 zero 0)
    as [[val_loss val_batches] | e] eqn:Heval; simpl.
  - change (average zero 0) with (Ok zero). simpl.
    destruct (average val_loss val_batches) as [avg_val | e] eqn:Havg; simpl.
    + split; [discriminate |].
      intros t' avg_train avg_val' [= <- <- <-]. split; [reflexivity |].
      intros Hempty.
      assert (Hbl : val_bl = []).
      { unfold loader_batches in Hval. rewrite Hempty in Hval.
        destruct (dl_shuffle val_loader).
        - pose proof (Hlen (set_mode B false (scheduler_step B t1)) O) as Hl.
          destruct (random_order B (set_mode B false (scheduler_step B t1)) 0)
            as [t3 order]. simpl in Hl.
          destruct order; [| discriminate].
          injection Hval as _ <-. unfold batches. simpl.
          destruct (dl_drop_last val_loader); reflexivity.
        - injection Hval as _ <-. unfold batches. simpl.
          destruct (dl_drop_last val_loader); reflexivity. }
      subst val_bl. simpl in Heval. injection Heval as <- <-.
      change (average zero 0) with (Ok zero) in Havg. congruence.
    + split; [| discriminate].
      intros Heq. injection Heq as ->.
      exact (average_no_zero_division _ _ Havg).
  - split; [| discriminate].
    apply eval_batches_err in Heval. subst e. discriminate.
Qed.

Lemma zero_batches_average_witness :
  (forall t0, snd (loader_batches (scripted [one]) demo_train_loader t0) = [])
  /\ Z.max 0 1 = 1
  /\ average zero 0 = Ok zero
  /\ epoch_losses (scripted [one]) demo_train_loader demo_val_loader O
     <> Err ZeroDivisionError
  /\ (forall t' avg_train avg_val,
        epoch_losses (scripted [one]) demo_train_loader demo_val_loader O
        = Ok (t', avg_train, avg_val) ->
        avg_train = zero
        /\ (Subset_len (dl_dataset demo_val_loader) = O -> avg_val = zero)).
Proof.
  apply (zero_batches_average (scripted [one]) demo_train_loader demo_val_loader O).
  - reflexivity.
  - vm_compute. lia.
  - intros t0 n. apply List.length_seq.
Defined.




(** C4 (amended): for a patience of at least 1, in every completed run:
    the epochs executed are [1 .. N] with [N <= max_epochs]; the [k]-th
    outcome says whether epoch [k]'s validation average strictly improved
    on the best seen before it; no epoch is executed once [patience]
    consecutive epochs have failed to improve; the loop is left early
    exactly when the last [patience] epochs failed to improve, and then
    [N] is the epoch of the best loss plus [patience]; in every case [N]
    is at most that sum; and without an early exit [N = max_epochs] and
    fewer than [patience] epochs have passed since the last
    improvement. *)
Theorem early_stopping_bound (B : Backend) (args : Args) (fs0 : FileSystem)
    (w' : world) (st' : locals B) :
  1 <= patience args ->
  run_main (train B args) fs0 = (w', Ok st') ->
  map fst (epoch_lines (stdout w'))
  = epoch_range (Z.of_nat (length (outcomes (stdout w'))))
  /\ (length (outcomes (stdout w')) <= Z.to_nat (epochs args))%nat
  /\ outcomes (stdout w') = improvements inf (map snd (epoch_lines (stdout w')))
  /\ best_val_loss st' = running_best inf (map snd (epoch_lines (stdout w')))
  /\ (forall pre post, outcomes (stdout w') = pre ++ post -> post <> [] ->
        Z.of_nat (stall pre) < patience args)
  /\ Z.of_nat (length (outcomes (stdout w')))
     <= Z.of_nat (best_epoch (outcomes (stdout w'))) + patience args
  /\ (early_stopped (stdout w') = true
      <-> Z.of_nat (stall (outcomes (stdout w'))) = patience args)
  /\ (early_stopped (stdout w') = true ->
      Z.of_nat (length (outcomes (stdout w')))
      = Z.of_nat (best_epoch (outcomes (stdout w'))) + patience args)
  /\ (early_stopped (stdout w') = false ->
      length (outcomes (stdout w')) = Z.to_nat (epochs args)
      /\ Z.of_nat (stall (outcomes (stdout w'))) < patience args).
Proof.
  intros Hp Hrun.
  destruct (train_spec B args fs0 w' st' Hrun)
    as ([He Ho Hb Hc Hs Hw] & Hle & _ & Hno & Hyes).
  pose proof (stall_le (outcomes (stdout w'))) as Hsl.
  assert (Hbe : Z.of_nat (best_epoch (outcomes (stdout w')))
                = Z.of_nat (length (outcomes (stdout w')))
                  - Z.of_nat (stall (outcomes (stdout w'))))
    by (unfold best_epoch; lia).
  split; [exact He |]. split; [exact Hle |]. split; [exact Ho |].
  split; [exact Hb |].
  split; [intros pre post Hsplit Hne; destruct (Hw pre post Hsplit Hne); lia |].
  destruct (early_stopped (stdout w')) eqn:Hearly.
  - destruct (Hyes eq_refl) as [H1 H2].
    assert (Hst : Z.of_nat (stall (outcomes (stdout w'))) = patience args) by lia.
    split; [lia |]. split; [tauto |]. split; [lia | discriminate].
  - destruct (Hno eq_refl) as [H1 H2].
    assert (Hst : Z.of_nat (stall (outcomes (stdout w'))) < patience args) by lia.
    split; [lia |]. split; [split; [discriminate | lia] |].
    split; [discriminate | auto].
Qed.

(** C6 (amended): after every completed run of at least one epoch, epoch
    1 has been reported, and a checkpoint file exists whenever its
    validation average is strictly below the initial infinite best loss,
    that is, whenever it is neither NaN nor +inf; more generally whenever
    some epoch improved. *)
Theorem checkpoint_after_run (B : Backend) (args : Args) (fs0 : FileSystem)
    (w' : world) (st' : locals B) :
  1 <= epochs args ->
  run_main (train B args) fs0 = (w', Ok st') ->
  exists v1 rest,
    epoch_lines (stdout w') = (1, v1) :: rest
    /\ (ltb v1 inf = true -> checkpoint_exists (fs w') (output args))
    /\ (existsb id (outcomes (stdout w')) = true ->
        checkpoint_exists (fs w') (output args)).
Proof.
  intros HE Hrun.
  destruct (train_spec B args fs0 w' st' Hrun)
    as ([He Ho Hb Hc Hs Hw] & _ & Hge & _ & _).
  specialize (Hge HE).
  destruct (outcomes (stdout w')) as [| o os] eqn:Hos; [simpl in Hge; lia |].
  destruct (epoch_lines (stdout w')) as [| [e1 v1] rest] eqn:Hls;
    [discriminate |].
  assert (e1 = 1).
  { simpl length in He. rewrite epoch_range_unfold in He.
    simpl in He. congruence. }
  subst e1. exists v1, rest. split; [reflexivity |]. split; [| exact Hs].
  intros Hlt. apply Hs. simpl in Ho. rewrite Hlt in Ho.
  injection Ho as -> _. reflexivity.
Qed.

Lemma early_stopping_bound_witness :
  map fst (epoch_lines (stdout (demo_run [one; one; one] 3 1)))
  = epoch_range (Z.of_nat (length (outcomes (stdout (demo_run [one; one; one] 3 1)))))
  /\ (length (outcomes (stdout (demo_run [one; one; one] 3 1)))
      <= Z.to_nat (epochs (demo_args 3 1)))%nat
  /\ outcomes (stdout (demo_run [one; one; one] 3 1))
     = improvements inf (map snd (epoch_lines (stdout (demo_run [one; one; one] 3 1))))
  /\ best_val_loss (Build_locals (scripted [one; one; one]) 2%nat one 1)
     = running_best inf (map snd (epoch_lines (stdout (demo_run [one; one; one] 3 1))))
  /\ (forall pre post,
        outcomes (stdout (demo_run [one; one; one] 3 1)) = pre ++ post ->
        post <> [] -> Z.of_nat (stall pre) < patience (demo_args 3 1))
  /\ Z.of_nat (length (outcomes (stdout (demo_run [one; one; one] 3 1))))
     <= Z.of_nat (best_epoch (outcomes (stdout (demo_run [one; one; one] 3 1))))
        + patience (demo_args 3 1)
  /\ (early_stopped (stdout (demo_run [one; one; one] 3 1)) = true
      <-> Z.of_nat (stall (outcomes (stdout (demo_run [one; one; one] 3 1))))
          = patience (demo_args 3 1))
  /\ (early_stopped (stdout (demo_run [one; one; one] 3 1)) = true ->
      Z.of_nat (length (outcomes (stdout (demo_run [one; one; one] 3 1))))
      = Z.of_nat (best_epoch (outcomes (stdout (demo_run [one; one; one] 3 1))))
        + patience (demo_args 3 1))
  /\ (early_stopped (stdout (demo_run [one; one; one] 3 1)) = false ->
      length (outcomes (stdout (demo_run [one; one; one] 3 1)))
      = Z.to_nat (epochs (demo_args 3 1))
      /\ Z.of_nat (stall (outcomes (stdout (demo_run [one; one; one] 3 1))))
         < patience (demo_args 3 1)).
Proof.
  apply (early_stopping_bound (scripted [one; one; one]) (demo_args 3 1)
           (demo_fs 10) (demo_run [one; one; one] 3 1)
           (Build_locals (scripted [one; one; one]) 2%nat one 1)).
  - simpl. lia.
  - vm_compute. reflexivity.
Defined.

(** With [--patience 0] and a validation loss that stays at 1.0, epoch 1
    improves on the initial best, epoch 2 does not and the loop is left
    there: epoch 2 is later than the epoch of the best loss plus the
    patience, [1 + 0]. *)
Lemma early_stopping_counterexample :
  run_main (train (scripted [one; one; one]) (demo_args 3 0)) (demo_fs 10)
  = (demo_run [one; one; one] 3 0,
     Ok (Build_locals (scripted [one; one; one]) 2%nat one 1))
  /\ patience (demo_args 3 0) = 0
  /\ outcomes (stdout (demo_run [one; one; one] 3 0)) = [true; false]
  /\ early_stopped (stdout (demo_run [one; one; one] 3 0)) = true
  /\ best_epoch (outcomes (stdout (demo_run [one; one; one] 3 0))) = 1%nat
  /\ ~ (Z.of_nat (length (outcomes (stdout (demo_run [one; one; one] 3 0))))
        <= Z.of_nat (best_epoch (outcomes (stdout (demo_run [one; one; one] 3 0))))
           + patience (demo_args 3 0)).
Proof.
  split; [vm_compute; reflexivity |].
  split; [reflexivity |].
  split; [vm_compute; reflexivity |].
  split; [vm_compute; reflexivity |].
  split; [vm_compute; reflexivity |].
  vm_compute. intros H. apply H. reflexivity.
Qed.

Lemma checkpoint_after_run_witness :
  exists v1 rest,
    epoch_lines (stdout (demo_run [one] 1 10)) = (1, v1) :: rest
    /\ (ltb v1 inf = true ->
        checkpoint_exists (fs (demo_run [one] 1 10)) (output (demo_args 1 10)))
    /\ (existsb id (outcomes (stdout (demo_run [one] 1 10))) = true ->
        checkpoint_exists (fs (demo_run [one] 1 10)) (output (demo_args 1 10))).
Proof.
  apply (checkpoint_after_run (scripted [one]) (demo_args 1 10) (demo_fs 10)
           (demo_run [one] 1 10) (Build_locals (scripted [one]) 1%nat one 0)).
  - simpl. lia.
  - vm_compute. reflexivity.
Defined.

(** A validation average that is NaN in epoch 1 does not compare below
    the initial infinite best loss: the run of one epoch completes and no
    checkpoint file has been written. *)
Lemma checkpoint_after_run_counterexample :
  run_main (train (scripted [nan]) (demo_args 1 10)) (demo_fs 10)
  = (demo_run [nan] 1 10, Ok (Build_locals (scripted [nan]) 1%nat inf 1))
  /\ 1 <= epochs (demo_args 1 10)
  /\ epoch_lines (stdout (demo_run [nan] 1 10)) = [(1, nan)]
  /\ files (fs (demo_run [nan] 1 10)) !! output (demo_args 1 10) = None
  /\ ~ checkpoint_exists (fs (demo_run [nan] 1 10)) (output (demo_args 1 10)).
Proof.
  split; [vm_compute; reflexivity |].
  split; [simpl; lia |].
  split; [vm_compute; reflexivity |].
  split; [vm_compute; reflexivity |].
  intros [sd Hsd]. vm_compute in Hsd. discriminate Hsd.
Qed.

End TrainClaims.

(** * Further properties *)

(** ** dataset.py: loading *)

Module LoadFacts.

Import PyFloat Dataset DatasetFacts Model Extras.

Lemma column_index_Some (name : string) (cols : list string) (i : nat) :
  column_index name cols = Some i ->
  nth_error cols i = Some name /\ (i < length cols)%nat.
Proof.
  revert i. induction cols as [| c cs IH]; intros i; simpl; [discriminate |].
  destruct (String.eqb_spec c name) as [-> | Hne].
  - intros [= <-]. split; [reflexivity | lia].
  - destruct (column_index name cs) as [j |]; simpl; [| discriminate].
    intros [= <-]. destruct (IH j eq_refl) as [H1 H2]. split; [exact H1 | lia].
Qed.

Lemma column_index_None (name : string) (cols : list string) :
  column_index name cols = None -> ~ In name cols.
Proof.
  intros Hnone Hin. destruct (column_index_In _ _ Hin) as [i Hi]. congruence.
Qed.

Lemma column_indices_Ok (names cols : list string) (ixs : list nat) :
  column_indices names cols = Ok ixs ->
  Forall (fun c => In c cols) names
  /\ length ixs = length names
  /\ Forall (fun i => (i < length cols)%nat) ixs.
Proof.
  revert ixs. induction names as [| nm rest IH]; intros ixs; simpl.
  - intros [= <-]. repeat constructor.
  - destruct (column_index nm cols) as [i |] eqn:Hi; [| discriminate].
    destruct (column_indices rest cols) as [js | e]; simpl; [| discriminate].
    intros [= <-]. destruct (IH js eq_refl) as (H1 & H2 & H3).
    apply column_index_Some in Hi as [Hn Hlt].
    split; [constructor; [eapply List.nth_error_In; eassumption | exact H1] |].
    split; [simpl; lia | constructor; assumption].
Qed.

Lemma column_indices_Err (names cols : list string) (e : exn) :
  column_indices names cols = Err e -> e = KeyError.
Proof.
  induction names as [| nm rest IH]; simpl; [discriminate |].
  destruct (column_index nm cols) as [i |]; [| congruence].
  destruct (column_indices rest cols) as [js | e']; simpl; [discriminate |].
  intros [= <-]. apply IH. reflexivity.
Qed.

Lemma select_values_Err (names : list string) (df : DataFrame) (e : exn) :
  select_values names df = Err e -> e = KeyError.
Proof.
  unfold select_values.
  destruct (column_indices names (columns df)) as [ixs | e'] eqn:H; simpl;
    [discriminate |].
  intros [= <-]. eapply column_indices_Err. exact H.
Qed.

Lemma select_values_Ok (names : list string) (df : DataFrame)
    (v : list (list float)) :
  select_values names df = Ok v ->
  Forall (fun c => In c (columns df)) names
  /\ has_shape (length (rows df)) (length names) v.
Proof.
  unfold select_values.
  destruct (column_indices names (columns df)) as [ixs | e'] eqn:H; simpl;
    [| discriminate].
  intros [= <-]. apply column_indices_Ok in H as (H1 & H2 & _).
  split; [exact H1 |]. split; [apply length_map |].
  apply List.Forall_map, List.Forall_forall. intros row _. simpl.
  rewrite length_map. exact H2.
Qed.

(** A table that lacks a required column cannot be loaded: the
    constructor raises [KeyError]. *)
Lemma SailingDataset_init_missing (fs : FileSystem) (csv_path : string)
    (df : DataFrame) :
  files fs !! csv_path = Some (CsvFile df) ->
  ~ has_required_columns df ->
  SailingDataset_init fs csv_path = Err KeyError.
Proof.
  intros Hfile Hmiss. unfold SailingDataset_init, read_csv. rewrite Hfile. simpl.
  destruct (select_values FEATURE_COLS df) as [fv | e] eqn:Hf; simpl.
  - destruct (select_values TARGET_COLS df) as [tv | e] eqn:Ht; simpl.
    + exfalso. apply Hmiss. unfold has_required_columns.
      apply select_values_Ok in Hf as [Hf _].
      apply select_values_Ok in Ht as [Ht _].
      apply List.Forall_app. split; assumption.
    + apply select_values_Err in Ht. subst e. reflexivity.
  - apply select_values_Err in Hf. subst e. reflexivity.
Qed.

Lemma has_shape_f32 (b c : nat) (x : list (list float)) :
  has_shape b c x -> has_shape b c (float32_tensor x).
Proof. apply ModelFacts.has_shape_map. Qed.

(** A dataset that loads has one sample per row, each with 19 features
    and 2 targets. *)
Lemma SailingDataset_init_shape (fs : FileSystem) (csv_path : string)
    (ds : SailingDataset) :
  SailingDataset_init fs csv_path = Ok ds ->
  exists df,
    files fs !! csv_path = Some (CsvFile df)
    /\ has_required_columns df
    /\ SailingDataset_len ds = length (rows df)
    /\ has_shape (length (rows df)) INPUT_DIM (features ds)
    /\ has_shape (length (rows df)) OUTPUT_DIM (targets ds).
Proof.
  unfold SailingDataset_init, read_csv.
  destruct (files fs !! csv_path) as [[df | sd | m] |] eqn:Hfile; simpl;
    try discriminate.
  destruct (select_values FEATURE_COLS df) as [fv | e] eqn:Hf; simpl;
    [| discriminate].
  destruct (select_values TARGET_COLS df) as [tv | e] eqn:Ht; simpl;
    [| discriminate].
  intros [= <-]. exists df.
  apply select_values_Ok in Hf as [Hf Hfs].
  apply select_values_Ok in Ht as [Ht Hts].
  split; [reflexivity |].
  split; [apply List.Forall_app; split; assumption |].
  simpl. split; [| split].
  - unfold SailingDataset_len. simpl. apply has_shape_f32 in Hfs. apply Hfs.
  - apply has_shape_f32. exact Hfs.
  - apply has_shape_f32. exact Hts.
Qed.

Lemma py_index_in_range {A : Type} (l : list A) (i : Z) :
  0 <= i < Z.of_nat (length l) ->
  exists a, py_index l i = Ok a /\ nth_error l (Z.to_nat i) = Some a.
Proof.
  intros Hi. unfold py_index.
  destruct (i <? 0) eqn:Hneg; [apply Z.ltb_lt in Hneg; lia |].
  assert (Hc : (0 <=? i) && (i <? Z.of_nat (length l)) = true).
  { apply andb_true_iff. split; [apply Z.leb_le | apply Z.ltb_lt]; lia. }
  rewrite Hc.
  destruct (nth_error l (Z.to_nat i)) as [a |] eqn:Hn; [eauto |].
  apply List.nth_error_None in Hn. lia.
Qed.

Lemma py_index_wrap {A : Type} (l : list A) (i : Z) :
  i < 0 -> py_index l i = py_index l (i + Z.of_nat (length l)) \/
           (i + Z.of_nat (length l) < 0 /\ py_index l i = Err IndexError).
Proof.
  intros Hi. unfold py_index.
  destruct (i <? 0) eqn:Hneg; [| apply Z.ltb_ge in Hneg; lia].
  destruct (Z.lt_ge_cases (i + Z.of_nat (length l)) 0) as [Hlt | Hge].
  - right. split; [exact Hlt |].
    destruct (0 <=? i + Z.of_nat (length l)) eqn:E;
      [apply Z.leb_le in E; lia | reflexivity].
  - left. destruct (i + Z.of_nat (length l) <? 0) eqn:E;
      [apply Z.ltb_lt in E; lia | reflexivity].
Qed.

Lemma py_index_out_of_range {A : Type} (l : list A) (i : Z) :
  Z.of_nat (length l) <= i \/ i < - Z.of_nat (length l) ->
  py_index l i = Err IndexError.
Proof.
  intros Hi. unfold py_index.
  destruct (i <? 0) eqn:Hneg.
  - apply Z.ltb_lt in Hneg.
    destruct (0 <=? i + Z.of_nat (length l)) eqn:E;
      [apply Z.leb_le in E; lia | reflexivity].
  - apply Z.ltb_ge in Hneg.
    destruct (i <? Z.of_nat (length l)) eqn:E;
      [apply Z.ltb_lt in E; lia |].
    rewrite andb_false_r. reflexivity.
Qed.

Lemma has_shape_nth (b c : nat) (x : list (list float)) (i : nat)
    (row : list float) :
  has_shape b c x -> nth_error x i = Some row -> length row = c.
Proof.
  intros [_ Hrows] Hnth. rewrite List.Forall_forall in Hrows.
  apply Hrows. eapply List.nth_error_In. exact Hnth.
Qed.

Lemma column_index_app (nm : string) (cols names : list string) :
  In nm cols -> column_index nm (cols ++ names) = column_index nm cols.
Proof.
  induction cols as [| c cs IH]; intros Hnm; [destruct Hnm |].
  simpl. destruct (String.eqb_spec c nm) as [-> | Hne]; [reflexivity |].
  destruct Hnm as [-> | Hnm]; [congruence |].
  rewrite (IH Hnm). reflexivity.
Qed.

(** Selecting columns that the table has is not affected by columns
    appended on the right. *)
Lemma select_values_append (df : DataFrame) (names : list string)
    (cells : list (list float)) (req : list string) :
  rectangular df ->
  length cells = length (rows df) ->
  Forall (fun c => In c (columns df)) req ->
  select_values req (append_columns df names cells) = select_values req df.
Proof.
  intros Hrect Hcells Hreq. unfold select_values. simpl columns.
  assert (Hix : column_indices req (columns df ++ names)
                = column_indices req (columns df)).
  { induction Hreq as [| nm rest Hnm _ IH]; [reflexivity |]. simpl.
    rewrite IH, (column_index_app _ _ _ Hnm). reflexivity. }
  rewrite Hix.
  destruct (column_indices req (columns df)) as [ixs | e] eqn:Hixs;
    [| reflexivity].
  simpl. f_equal.
  apply column_indices_Ok in Hixs as (_ & _ & Hlt).
  simpl rows. rewrite List.map_map.
  unfold rectangular in Hrect. revert cells Hcells Hrect.
  generalize (length (columns df)) Hlt. intros width Hw.
  induction (rows df) as [| row rest IH]; intros cells Hcells Hrect;
    [reflexivity |].
  destruct cells as [| x xs]; [discriminate |].
  simpl. apply List.Forall_cons_iff in Hrect as [Hrow Hrest].
  f_equal; [| apply IH; [simpl in Hcells; lia | exact Hrest]].
  apply List.map_ext_in. intros i Hi.
  rewrite List.Forall_forall in Hw. specialize (Hw i Hi).
  apply List.app_nth1. lia.
Qed.

Lemma load_and_split_inv (permutation : Z -> nat -> list nat) (fs : FileSystem)
    (csv_path : string) (val_fraction : float) (seed : Z)
    (train_ds val_ds : Subset) :
  load_and_split permutation fs csv_path val_fraction seed = Ok (train_ds, val_ds) ->
  exists ds split,
    SailingDataset_init fs csv_path = Ok ds
    /\ 0 <= seed
    /\ split_point (SailingDataset_len ds) val_fraction = Ok split
    /\ train_ds = {| dataset := ds;
                     indices := slice_to (permutation seed (SailingDataset_len ds))
                                         split |}
    /\ val_ds = {| dataset := ds;
                   indices := slice_from (permutation seed (SailingDataset_len ds))
                                         split |}.
Proof.
  unfold load_and_split.
  destruct (SailingDataset_init fs csv_path) as [ds | e]; simpl; [| discriminate].
  unfold default_rng. destruct (Z.ltb_spec seed 0) as [Hneg | Hpos]; simpl;
    [discriminate |].
  destruct (split_point (SailingDataset_len ds) val_fraction) as [split | e]
    eqn:Hsplit; simpl; [| discriminate].
  intros [= <- <-]. exists ds, split.
  split; [reflexivity |]. split; [exact Hpos |].
  split; [exact Hsplit |]. split; reflexivity.
Qed.

Lemma In_slice_to {A : Type} (l : list A) (k : Z) (a : A) :
  In a (slice_to l k) -> In a l.
Proof.
  intros H. rewrite <- (slice_to_from l k). apply List.in_or_app. left. exact H.
Qed.

Lemma In_slice_from {A : Type} (l : list A) (k : Z) (a : A) :
  In a (slice_from l k) -> In a l.
Proof.
  intros H. rewrite <- (slice_to_from l k). apply List.in_or_app. right. exact H.
Qed.

(** In a dataset that has loaded every index in range yields a sample
    of 19 features and 2 targets. *)
Lemma SailingDataset_getitem_ok (fs : FileSystem) (csv_path : string)
    (ds : SailingDataset) (idx : Z) :
  SailingDataset_init fs csv_path = Ok ds ->
  0 <= idx < Z.of_nat (SailingDataset_len ds) ->
  exists f t, SailingDataset_getitem ds idx = Ok (f, t)
              /\ nth_error (features ds) (Z.to_nat idx) = Some f
              /\ nth_error (targets ds) (Z.to_nat idx) = Some t
              /\ length f = 19%nat /\ length t = 2%nat.
Proof.
  intros Hinit Hidx.
  destruct (SailingDataset_init_shape _ _ _ Hinit)
    as (df & _ & _ & Hlen & Hf & Ht).
  assert (Hlf : length (features ds) = SailingDataset_len ds) by reflexivity.
  assert (Hlt : length (targets ds) = SailingDataset_len ds).
  { rewrite Hlen. apply Ht. }
  unfold SailingDataset_getitem.
  destruct (py_index_in_range (features ds) idx ltac:(lia)) as (f & -> & Hnf).
  destruct (py_index_in_range (targets ds) idx ltac:(lia)) as (t & -> & Hnt).
  simpl. exists f, t. repeat split; try assumption.
  - eapply has_shape_nth; eassumption.
  - eapply has_shape_nth; eassumption.
Qed.

(** The stored indices of the views of a split are indices of the
    dataset, so every position of a view can be fetched. *)
Lemma view_getitem_ok (permutation : Z -> nat -> list nat)
    (fs : FileSystem) (csv_path : string) (val_fraction : float) (seed : Z)
    (train_ds val_ds v : Subset) (idx : Z) :
  (forall s n, Permutation (permutation s n) (seq 0 n)) ->
  load_and_split permutation fs csv_path val_fraction seed = Ok (train_ds, val_ds) ->
  v = train_ds \/ v = val_ds ->
  0 <= idx < Z.of_nat (Subset_len v) ->
  exists k f t,
    nth_error (indices v) (Z.to_nat idx) = Some k
    /\ (k < SailingDataset_len (dataset v))%nat
    /\ Subset_getitem v idx = Ok (f, t)
    /\ SailingDataset_getitem (dataset v) (Z.of_nat k) = Ok (f, t)
    /\ length f = 19%nat /\ length t = 2%nat.
Proof.
  intros Hperm Hload Hv Hidx.
  destruct (load_and_split_inv _ _ _ _ _ _ _ Hload)
    as (ds & split & Hinit & _ & _ & Htr & Hva).
  assert (Hds : dataset v = ds) by (destruct Hv; subst; reflexivity).
  assert (Hin : forall k, In k (indices v) -> (k < SailingDataset_len ds)%nat).
  { intros k Hk.
    assert (Hk' : In k (permutation seed (SailingDataset_len ds))).
    { destruct Hv; subst; simpl in Hk;
        [eapply In_slice_to | eapply In_slice_from]; exact Hk. }
    apply (Permutation_in _ (Hperm _ _)) in Hk'.
    apply List.in_seq in Hk'. lia. }
  unfold Subset_getitem, Subset_len in *.
  destruct (py_index_in_range (indices v) idx Hidx) as (k & Hk & Hnth).
  assert (Hlt : (k < SailingDataset_len ds)%nat).
  { apply Hin. eapply List.nth_error_In. exact Hnth. }
  destruct (SailingDataset_getitem_ok fs csv_path ds (Z.of_nat k) Hinit
              ltac:(lia)) as (f & t & Hget & _ & _ & Hf & Ht).
  exists k, f, t. rewrite Hk, Hds. simpl. repeat split; assumption.
Qed.

End LoadFacts.

Section LoadClaims.

Import PyFloat Dataset DatasetFacts Model Train Extras LoadFacts.

(** X1: a CSV file that lacks one of the 21 required columns is a fatal
    error: the dataset constructor raises [KeyError], so does
    [load_and_split] whatever the fraction and the seed, and [train]
    stops there, having printed the device line only and written no
    file. *)
Theorem missing_column_is_fatal (B : Backend) (args : Args) (fs0 : FileSystem)
    (df : DataFrame) :
  files fs0 !! data args = Some (CsvFile df) ->
  ~ has_required_columns df ->
  SailingDataset_init fs0 (data args) = Err KeyError
  /\ (forall permutation val_fraction seed,
        load_and_split permutation fs0 (data args) val_fraction seed
        = Err KeyError)
  /\ run_main (train B args) fs0
     = ({| fs := fs0; stdout := [PrintDevice (cuda_is_available B)] |},
        Err KeyError).
Proof.
  intros Hfile Hmiss.
  pose proof (SailingDataset_init_missing _ _ _ Hfile Hmiss) as Hinit.
  assert (Hload : forall permutation val_fraction seed,
             load_and_split permutation fs0 (data args) val_fraction seed
             = Err KeyError).
  { intros. unfold load_and_split. rewrite Hinit. reflexivity. }
  split; [exact Hinit |]. split; [exact Hload |].
  unfold run_main, train, io_bind, print, read_fs. simpl.
  rewrite Hload. reflexivity.
Qed.

Lemma missing_column_is_fatal_witness :
  SailingDataset_init
    (single_file "data/training_data.csv" (CsvFile (features_only_frame 3)))
    (data (demo_args 5 10)) = Err KeyError
  /\ (forall permutation val_fraction seed,
        load_and_split permutation
          (single_file "data/training_data.csv" (CsvFile (features_only_frame 3)))
          (data (demo_args 5 10)) val_fraction seed
        = Err KeyError)
  /\ run_main (train (scripted [one]) (demo_args 5 10))
       (single_file "data/training_data.csv" (CsvFile (features_only_frame 3)))
     = ({| fs := single_file "data/training_data.csv"
                   (CsvFile (features_only_frame 3));
           stdout := [PrintDevice (cuda_is_available (scripted [one]))] |},
        Err KeyError).
Proof.
  apply (missing_column_is_fatal (scripted [one]) (demo_args 5 10)
           (single_file "data/training_data.csv" (CsvFile (features_only_frame 3)))
           (features_only_frame 3)).
  - reflexivity.
  - intros H. unfold has_required_columns in H.
    apply List.Forall_app in H as [_ Ht].
    apply List.Forall_inv in Ht. simpl in Ht.
    repeat (destruct Ht as [Ht | Ht]; [discriminate Ht |]). exact Ht.
Defined.

(** X2: in a dataset that has loaded from a file of [n] rows, every index
    [0 <= idx < n] yields a sample of 19 features and 2 targets, a
    negative index [-n <= idx < 0] yields the sample at [idx + n], and
    every other index raises [IndexError]. *)
Theorem dataset_getitem_range (fs : FileSystem) (csv_path : string)
    (ds : SailingDataset) (idx : Z) :
  SailingDataset_init fs csv_path = Ok ds ->
  (0 <= idx < Z.of_nat (SailingDataset_len ds) ->
   exists f t, SailingDataset_getitem ds idx = Ok (f, t)
               /\ nth_error (features ds) (Z.to_nat idx) = Some f
               /\ nth_error (targets ds) (Z.to_nat idx) = Some t
               /\ length f = 19%nat /\ length t = 2%nat)
  /\ (- Z.of_nat (SailingDataset_len ds) <= idx < 0 ->
      SailingDataset_getitem ds idx
      = SailingDataset_getitem ds (idx + Z.of_nat (SailingDataset_len ds)))
  /\ (Z.of_nat (SailingDataset_len ds) <= idx
      \/ idx < - Z.of_nat (SailingDataset_len ds) ->
      SailingDataset_getitem ds idx = Err IndexError).
Proof.
  intros Hinit.
  destruct (SailingDataset_init_shape _ _ _ Hinit)
    as (df & _ & _ & Hlen & Hf & Ht).
  assert (Hlf : length (features ds) = SailingDataset_len ds) by reflexivity.
  assert (Hlt : length (targets ds) = SailingDataset_len ds).
  { rewrite Hlen. apply Ht. }
  split; [| split].
  - apply SailingDataset_getitem_ok with (fs := fs) (csv_path := csv_path).
    exact Hinit.
  - intros Hidx. unfold SailingDataset_getitem.
    destruct (py_index_wrap (features ds) idx ltac:(lia)) as [-> | [Hb _]];
      [| lia].
    destruct (py_index_wrap (targets ds) idx ltac:(lia)) as [-> | [Hb _]];
      [| lia].
    rewrite Hlf, Hlt. reflexivity.
  - intros Hidx. unfold SailingDataset_getitem.
    rewrite py_index_out_of_range by lia. reflexivity.
Qed.

Lemma dataset_getitem_range_witness :
  SailingDataset_init (demo_fs 3) "data/training_data.csv" = Ok (demo_dataset 3)
  /\ (0 <= 2 < Z.of_nat (SailingDataset_len (demo_dataset 3)) ->
      exists f t, SailingDataset_getitem (demo_dataset 3) 2 = Ok (f, t)
                  /\ nth_error (features (demo_dataset 3)) (Z.to_nat 2) = Some f
                  /\ nth_error (targets (demo_dataset 3)) (Z.to_nat 2) = Some t
                  /\ length f = 19%nat /\ length t = 2%nat).
Proof.
  assert (H : SailingDataset_init (demo_fs 3) "data/training_data.csv"
              = Ok (demo_dataset 3)) by (vm_compute; reflexivity).
  split; [exact H |].
  apply (proj1 (dataset_getitem_range (demo_fs 3) "data/training_data.csv"
                  (demo_dataset 3) 2 H)).
Defined.

(** X3: in each of the two views returned by [load_and_split], every
    position [0 <= idx < len(view)] yields the dataset sample at the
    view's stored index, a pair of 19 features and 2 targets: no stored
    index falls outside the dataset.  Positions at or beyond the length,
    or below its negation, raise [IndexError]. *)
Theorem view_getitem_range (permutation : Z -> nat -> list nat)
    (fs : FileSystem) (csv_path : string) (val_fraction : float) (seed : Z)
    (train_ds val_ds v : Subset) (idx : Z) :
  (forall s n, Permutation (permutation s n) (seq 0 n)) ->
  load_and_split permutation fs csv_path val_fraction seed = Ok (train_ds, val_ds) ->
  v = train_ds \/ v = val_ds ->
  (0 <= idx < Z.of_nat (Subset_len v) ->
   exists k f t,
     nth_error (indices v) (Z.to_nat idx) = Some k
     /\ (k < SailingDataset_len (dataset v))%nat
     /\ Subset_getitem v idx = Ok (f, t)
     /\ SailingDataset_getitem (dataset v) (Z.of_nat k) = Ok (f, t)
     /\ length f = 19%nat /\ length t = 2%nat)
  /\ (Z.of_nat (Subset_len v) <= idx \/ idx < - Z.of_nat (Subset_len v) ->
      Subset_getitem v idx = Err IndexError).
Proof.
  intros Hperm Hload Hv. split.
  - eapply view_getitem_ok; eassumption.
  - intros Hidx. unfold Subset_getitem, Subset_len in *.
    rewrite py_index_out_of_range by exact Hidx. reflexivity.
Qed.

Lemma view_getitem_range_witness :
  exists train_ds val_ds,
    load_and_split rotate_permutation (demo_fs 5) "data/training_data.csv"
                   default_val_fraction 42 = Ok (train_ds, val_ds)
    /\ (0 <= 3 < Z.of_nat (Subset_len train_ds) ->
        exists k f t,
          nth_error (indices train_ds) (Z.to_nat 3) = Some k
          /\ (k < SailingDataset_len (dataset train_ds))%nat
          /\ Subset_getitem train_ds 3 = Ok (f, t)
          /\ SailingDataset_getitem (dataset train_ds) (Z.of_nat k) = Ok (f, t)
          /\ length f = 19%nat /\ length t = 2%nat).
Proof.
  destruct (load_and_split rotate_permutation (demo_fs 5) "data/training_data.csv"
              default_val_fraction 42) as [[train_ds val_ds] | e] eqn:Hload;
    [| vm_compute in Hload; discriminate Hload].
  exists train_ds, val_ds. split; [reflexivity |].
  apply (proj1 (view_getitem_range rotate_permutation (demo_fs 5)
                  "data/training_data.csv" default_val_fraction 42
                  train_ds val_ds train_ds 3 rotate_permutation_perm Hload
                  (or_introl eq_refl))).
Defined.

(** X4: columns besides the required ones are ignored: a rectangular
    table with the required columns and the same table with further
    columns appended on its right load as the same dataset. *)
Theorem extra_columns_ignored (fs1 fs2 : FileSystem) (path1 path2 : string)
    (df : DataFrame) (names : list string) (cells : list (list float)) :
  files fs1 !! path1 = Some (CsvFile df) ->
  files fs2 !! path2 = Some (CsvFile (append_columns df names cells)) ->
  has_required_columns df ->
  rectangular df ->
  length cells = length (rows df) ->
  SailingDataset_init fs2 path2 = SailingDataset_init fs1 path1
  /\ exists ds, SailingDataset_init fs1 path1 = Ok ds.
Proof.
  intros Hf1 Hf2 Hcols Hrect Hcells.
  assert (Hsel : forall req, Forall (fun c => In c (columns df)) req ->
             select_values req (append_columns df names cells)
             = select_values req df)
    by (intros req Hreq; apply select_values_append; assumption).
  unfold has_required_columns in Hcols.
  apply List.Forall_app in Hcols as [Hfc Htc].
  split.
  - unfold SailingDataset_init, read_csv. rewrite Hf1, Hf2. simpl.
    rewrite (Hsel _ Hfc), (Hsel _ Htc). reflexivity.
  - destruct (SailingDataset_init_ok fs1 path1 df Hf1) as (ds & Hds & _);
      [apply List.Forall_app; split; assumption | eauto].
Qed.

Lemma extra_columns_ignored_witness :
  SailingDataset_init
    (single_file "wide.csv"
       (CsvFile (append_columns (constant_frame 2 zero) ["episode"%string]
                                [[one]; [one]])))
    "wide.csv"
  = SailingDataset_init (demo_fs 2) "data/training_data.csv"
  /\ exists ds, SailingDataset_init (demo_fs 2) "data/training_data.csv" = Ok ds.
Proof.
  apply (extra_columns_ignored (demo_fs 2)
           (single_file "wide.csv"
              (CsvFile (append_columns (constant_frame 2 zero) ["episode"%string]
                                       [[one]; [one]])))
           "data/training_data.csv" "wide.csv"
           (constant_frame 2 zero) ["episode"%string] [[one]; [one]]).
  - reflexivity.
  - reflexivity.
  - apply demo_frame_required.
  - repeat constructor.
  - reflexivity.
Defined.

End LoadClaims.

(** ** train.py: effects of a run *)

Module EffectFacts.

Import PyFloat Dataset DatasetFacts Model Train TrainFacts Extras.

Lemma only_checkpoint_refl (B : Backend) (path : string) (fs : FileSystem) :
  only_checkpoint_written B path fs fs.
Proof.
  split; [reflexivity |]. split; [left; reflexivity |].
  exists []. split; [symmetry; apply List.app_nil_r | constructor].
Qed.

Lemma only_checkpoint_trans (B : Backend) (path : string)
    (fs1 fs2 fs3 : FileSystem) :
  only_checkpoint_written B path fs1 fs2 ->
  only_checkpoint_written B path fs2 fs3 ->
  only_checkpoint_written B path fs1 fs3.
Proof.
  intros (Ha & Hb & ops1 & Hj1 & Ho1) (Ha' & Hb' & ops2 & Hj2 & Ho2).
  split; [intros p Hp; rewrite (Ha' p Hp); apply Ha; exact Hp |].
  split.
  - destruct Hb' as [Heq | [t Ht]]; [rewrite Heq; exact Hb | right; eauto].
  - exists (ops1 ++ ops2). split.
    + rewrite Hj2, Hj1, List.app_assoc. reflexivity.
    + apply List.Forall_app. split; assumption.
Qed.

Lemma only_checkpoint_save (B : Backend) (path : string) (fs : FileSystem)
    (t : Trainer B) :
  only_checkpoint_written B path fs
    (write_file path (CheckpointFile (state_dict (model B t)))
                (makedirs (Path.dirname_or_dot path) fs)).
Proof.
  split; [| split].
  - intros p Hp. simpl. apply lookup_insert_ne. congruence.
  - right. exists t. simpl. apply lookup_insert_eq.
  - exists [MakeDirs (Path.dirname_or_dot path); WriteFile path]. split.
    + simpl. rewrite <- List.app_assoc. reflexivity.
    + constructor; [left; reflexivity |].
      constructor; [right; reflexivity | constructor].
Qed.

Lemma only_checkpoint_makedirs (B : Backend) (path : string) (fs : FileSystem) :
  only_checkpoint_written B path fs (makedirs (Path.dirname_or_dot path) fs).
Proof.
  split; [reflexivity |]. split; [left; reflexivity |].
  exists [MakeDirs (Path.dirname_or_dot path)]. split; [reflexivity |].
  constructor; [left; reflexivity | constructor].
Qed.

Section Effects.

Variable B : Backend.
Variable args : Args.

(** One epoch, whether it completes or raises: the file system changes
    by at most one saved checkpoint and the output by loop lines. *)
Lemma run_epoch_effects (train_loader val_loader : DataLoader) (epoch : Z)
    (st : locals B) (w w' : world) (r : result (locals B * bool)) :
  run_epoch B args train_loader val_loader epoch st w = (w', r) ->
  only_checkpoint_written B (output args) (fs w) (fs w')
  /\ exists evs, stdout w' = stdout w ++ evs /\ Forall loop_event evs.
Proof.
  intros Hrun.
  destruct (epoch_losses B train_loader val_loader (trainer st))
    as [[[t avg_train] avg_val] | e] eqn:Hlosses.
  - destruct (ltb avg_val (best_val_loss st)) eqn:Hlt.
    + destruct (run_epoch_improving B args train_loader val_loader epoch st w
                  t avg_train avg_val Hlosses Hlt)
        as [[_ Heq] | (_ & e & fs' & Heq & Hfs)];
        rewrite Heq in Hrun; injection Hrun as <- <-; simpl.
      * split; [apply only_checkpoint_save |].
        eexists. split; [rewrite <- List.app_assoc; reflexivity |].
        repeat constructor.
      * split.
        -- destruct Hfs as [-> | ->];
             [apply only_checkpoint_refl | apply only_checkpoint_makedirs].
        -- eexists. split; [reflexivity | repeat constructor].
    + destruct (Z.lt_ge_cases (patience_counter st + 1) (patience args))
        as [Hp | Hp].
      * rewrite (run_epoch_stalled _ _ _ _ _ _ _ _ _ _ Hlosses Hlt Hp) in Hrun.
        injection Hrun as <- <-. simpl. split; [apply only_checkpoint_refl |].
        eexists. split; [reflexivity | repeat constructor].
      * rewrite (run_epoch_stopped _ _ _ _ _ _ _ _ _ _ Hlosses Hlt Hp) in Hrun.
        injection Hrun as <- <-. simpl. split; [apply only_checkpoint_refl |].
        eexists. split; [rewrite <- List.app_assoc; reflexivity |].
        repeat constructor.
  - rewrite (run_epoch_err _ _ _ _ _ _ _ _ Hlosses) in Hrun.
    injection Hrun as <- <-. split; [apply only_checkpoint_refl |].
    exists []. split; [symmetry; apply List.app_nil_r | constructor].
Qed.

Lemma epoch_loop_effects (train_loader val_loader : DataLoader)
    (range : list Z) :
  forall (st : locals B) (w w' : world) (r : result (locals B)),
    epoch_loop B args train_loader val_loader range st w = (w', r) ->
    only_checkpoint_written B (output args) (fs w) (fs w')
    /\ exists evs, stdout w' = stdout w ++ evs /\ Forall loop_event evs.
Proof.
  induction range as [| epoch rest IH]; intros st w w' r Hloop.
  - injection Hloop as <- <-. split; [apply only_checkpoint_refl |].
    exists []. split; [symmetry; apply List.app_nil_r | constructor].
  - simpl in Hloop. unfold io_bind in Hloop.
    destruct (run_epoch B args train_loader val_loader epoch st w)
      as [w1 r1] eqn:Hrun.
    destruct (run_epoch_effects _ _ _ _ _ _ _ Hrun) as (Hfs1 & evs1 & Hout1 & Hev1).
    destruct r1 as [[st1 brk] | e].
    + simpl in Hloop. destruct brk.
      * injection Hloop as <- <-. split; [exact Hfs1 | eauto].
      * destruct (IH _ _ _ _ Hloop) as (Hfs2 & evs2 & Hout2 & Hev2).
        split; [eapply only_checkpoint_trans; eassumption |].
        exists (evs1 ++ evs2). split.
        -- rewrite Hout2, Hout1, List.app_assoc. reflexivity.
        -- apply List.Forall_app. split; assumption.
    + injection Hloop as <- <-. split; [exact Hfs1 | eauto].
Qed.

(** The shape of a run of [train], whatever its outcome: the device
    line, then, if the data loads, the sample counts and the warning when
    there are fewer than 100 training samples, then, if the loaders can
    be built, the lines of the loop, and on completion the two closing
    lines. *)
Lemma train_shape (fs0 : FileSystem) (w' : world) (r : result (locals B)) :
  run_main (train B args) fs0 = (w', r) ->
  only_checkpoint_written B (output args) fs0 (fs w')
  /\ match r with
     | Err _ => True
     | Ok st' =>
         exists train_ds val_ds evs,
           load_and_split (permutation B) fs0 (data args)
                          default_val_fraction default_seed
           = Ok (train_ds, val_ds)
           /\ 0 < batch_size args
           /\ Forall loop_event evs
           /\ stdout w'
              = [PrintDevice (cuda_is_available B);
                 PrintSamples (Subset_len train_ds) (Subset_len val_ds)]
                ++ (if (Subset_len train_ds <? 100)%nat then [PrintWarning] else [])
                ++ evs
                ++ [PrintComplete (best_val_loss st');
                    PrintModelSavedTo (output args)]
     end.
Proof.
  intros Hrun. apply train_inv in Hrun.
  destruct (load_and_split (permutation B) fs0 (data args)
              default_val_fraction default_seed)
    as [[train_ds val_ds] | e];
    [| destruct Hrun as [-> ->]; split; [apply only_checkpoint_refl | exact I]].
  cbv zeta in Hrun.
  assert (Hfail : forall e,
            w' = {| fs := fs0;
                    stdout := [PrintDevice (cuda_is_available B);
                               PrintSamples (Subset_len train_ds)
                                            (Subset_len val_ds)]
                              ++ (if (Subset_len train_ds <? 100)%nat
                                  then [PrintWarning] else []) |}
            /\ r = Err e ->
            only_checkpoint_written B (output args) fs0 (fs w')
            /\ match r with
               | Err _ => True
               | Ok st' =>
                   exists train_ds0 val_ds0 evs,
                     Ok (train_ds, val_ds) = Ok (train_ds0, val_ds0)
                     /\ 0 < batch_size args
                     /\ Forall loop_event evs
                     /\ stdout w'
                        = [PrintDevice (cuda_is_available B);
                           PrintSamples (Subset_len train_ds0)
                                        (Subset_len val_ds0)]
                          ++ (if (Subset_len train_ds0 <? 100)%nat
                              then [PrintWarning] else [])
                          ++ evs
                          ++ [PrintComplete (best_val_loss st');
                              PrintModelSavedTo (output args)]
               end).
  { intros e [-> ->]. split; [apply only_checkpoint_refl | exact I]. }
  destruct (DataLoader_init train_ds (batch_size args) true true)
    as [train_loader | e] eqn:Htl; [| exact (Hfail e Hrun)].
  destruct (DataLoader_init val_ds (batch_size args) false false)
    as [val_loader | e] eqn:Hvl; [| exact (Hfail e Hrun)].
  destruct (new_trainer B (lr args) (epochs args)) as [t0 | e];
    [| exact (Hfail e Hrun)].
  clear Hfail.
  destruct Hrun as (w1 & r1 & Hloop & Hend).
  destruct (epoch_loop_effects _ _ _ _ _ _ _ Hloop) as (Hfs & evs & Hout & Hev).
  simpl in Hfs, Hout.
  destruct r1 as [st1 | e]; destruct Hend as [-> ->]; simpl;
    (split; [exact Hfs |]); [| exact I].
  exists train_ds, val_ds, evs.
  split; [reflexivity |].
  split.
  { unfold DataLoader_init in Hvl. simpl in Hvl.
    destruct (Z.leb_spec (batch_size args) 0) as [Hbs | Hbs];
      [discriminate | exact Hbs]. }
  split; [exact Hev |].
  rewrite Hout. destruct (Subset_len train_ds <? 100)%nat; simpl;
    rewrite <- ?List.app_assoc; reflexivity.
Qed.

End Effects.

End EffectFacts.

Section EffectClaims.

Import PyFloat Dataset DatasetFacts Model Train TrainFacts Extras EffectFacts.



(** X6: the output of a completed run is the device line, the line with
    the sizes of the two views, the small-dataset warning exactly when
    the train view has fewer than 100 samples, the lines of the epoch
    loop, and the two closing lines, the first of which reports the best
    validation loss. *)
Theorem training_log_shape (B : Backend) (args : Args) (fs0 : FileSystem)
    (w' : world) (st' : locals B) :
  run_main (train B args) fs0 = (w', Ok st') ->
  exists train_ds val_ds evs,
    load_and_split (permutation B) fs0 (data args)
                   default_val_fraction default_seed
    = Ok (train_ds, val_ds)
    /\ Forall loop_event evs
    /\ stdout w'
       = [PrintDevice (cuda_is_available B);
          PrintSamples (Subset_len train_ds) (Subset_len val_ds)]
         ++ (if (Subset_len train_ds <? 100)%nat then [PrintWarning] else [])
         ++ evs
         ++ [PrintComplete (best_val_loss st');
             PrintModelSavedTo (output args)]
    /\ (In PrintWarning (stdout w') <-> (Subset_len train_ds < 100)%nat).
Proof.
  intros Hrun. destruct (train_shape B args fs0 w' (Ok st') Hrun)
    as [_ (train_ds & val_ds & evs & Hload & _ & Hev & Hout)].
  exists train_ds, val_ds, evs.
  split; [exact Hload |]. split; [exact Hev |]. split; [exact Hout |].
  rewrite Hout. rewrite !List.in_app_iff.
  assert (Hnot : ~ In PrintWarning evs).
  { intros Hin. rewrite List.Forall_forall in Hev. exact (Hev _ Hin). }
  destruct (Nat.ltb_spec (Subset_len train_ds) 100) as [Hlt | Hge]; simpl.
  - split; [intros _; exact Hlt | intros _; right; left; left; reflexivity].
  - split; [| lia].
    intros [[H | [H | []]] | [[] | [H | [H | [H | []]]]]];
      try discriminate H. contradiction.
Qed.

Lemma training_log_shape_witness :
  exists train_ds val_ds evs,
    load_and_split (permutation (scripted [one; one; one])) (demo_fs 10)
                   (data (demo_args 3 1)) default_val_fraction default_seed
    = Ok (train_ds, val_ds)
    /\ Forall loop_event evs
    /\ stdout (demo_run [one; one; one] 3 1)
       = [PrintDevice (cuda_is_available (scripted [one; one; one]));
          PrintSamples (Subset_len train_ds) (Subset_len val_ds)]
         ++ (if (Subset_len train_ds <? 100)%nat then [PrintWarning] else [])
         ++ evs
         ++ [PrintComplete
               (best_val_loss (Build_locals (scripted [one; one; one]) 2%nat one 1));
             PrintModelSavedTo (output (demo_args 3 1))]
    /\ (In PrintWarning (stdout (demo_run [one; one; one] 3 1))
        <-> (Subset_len train_ds < 100)%nat).
Proof.
  apply (training_log_shape (scripted [one; one; one]) (demo_args 3 1)
           (demo_fs 10) (demo_run [one; one; one] 3 1)
           (Build_locals (scripted [one; one; one]) 2%nat one 1)).
  vm_compute. reflexivity.
Defined.

(** X7: with [--epochs 0] (or a negative number) no epoch is run: the
    file system is left untouched whatever the outcome, and a run that
    completes reports the initial infinite best loss and still prints the
    line that names the checkpoint path, although nothing was saved. *)
Theorem no_epochs_no_checkpoint (B : Backend) (args : Args) (fs0 : FileSystem)
    (w' : world) (r : result (locals B)) :
  epochs args <= 0 ->
  run_main (train B args) fs0 = (w', r) ->
  fs w' = fs0
  /\ (forall st', r = Ok st' ->
        best_val_loss st' = inf
        /\ patience_counter st' = 0
        /\ epoch_lines (stdout w') = []
        /\ exists out, stdout w' = out ++ [PrintComplete inf;
                                           PrintModelSavedTo (output args)]).
Proof.
  intros Hep Hrun.
  assert (Hrange : epoch_range (epochs args) = []).
  { unfold epoch_range. replace (Z.to_nat (epochs args)) with O by lia.
    reflexivity. }
  apply train_inv in Hrun. rewrite Hrange in Hrun.
  destruct (load_and_split (permutation B) fs0 (data args)
              default_val_fraction default_seed)
    as [[train_ds val_ds] | e];
    [| destruct Hrun as [-> ->]; split; [reflexivity | discriminate]].
  cbv zeta in Hrun.
  destruct (DataLoader_init train_ds (batch_size args) true true)
    as [tl | e];
    [| destruct Hrun as [-> ->]; split; [reflexivity | discriminate]].
  destruct (DataLoader_init val_ds (batch_size args) false false)
    as [vl | e];
    [| destruct Hrun as [-> ->]; split; [reflexivity | discriminate]].
  destruct (new_trainer B (lr args) (epochs args)) as [t0 | e];
    [| destruct Hrun as [-> ->]; split; [reflexivity | discriminate]].
  destruct Hrun as (w1 & r1 & Hloop & Hend).
  simpl in Hloop. injection Hloop as <- <-.
  destruct Hend as [-> ->]. simpl. split; [reflexivity |].
  intros st' [= <-]. simpl.
  split; [reflexivity |]. split; [reflexivity |].
  split.
  - destruct (Subset_len train_ds <? 100)%nat; reflexivity.
  - match goal with
    | |- exists out, ?l = _ => exists (firstn (length l - 2) l)
    end.
    destruct (Subset_len train_ds <? 100)%nat; reflexivity.
Qed.

Lemma no_epochs_no_checkpoint_witness :
  fs (demo_run [one] 0 10) = demo_fs 10
  /\ (forall st', Ok (Build_locals (scripted [one]) 0%nat inf 0) = Ok st' ->
        best_val_loss st' = inf
        /\ patience_counter st' = 0
        /\ epoch_lines (stdout (demo_run [one] 0 10)) = []
        /\ exists out, stdout (demo_run [one] 0 10)
                       = out ++ [PrintComplete inf;
                                 PrintModelSavedTo (output (demo_args 0 10))]).
Proof.
  apply (no_epochs_no_checkpoint (scripted [one]) (demo_args 0 10) (demo_fs 10)
           (demo_run [one] 0 10) (Ok (Build_locals (scripted [one]) 0%nat inf 0))).
  - simpl. lia.
  - vm_compute. reflexivity.
Defined.

End EffectClaims.

(** ** train.py: the reported best loss *)

Module BestFacts.

Import PyFloat Dataset Model Train TrainFacts Extras.

Lemma ltb_irrefl (a : float) : ltb a a = false.
Proof.
  unfold ltb, SFltb. destruct a as [[] | [] | | [] m e]; simpl; try reflexivity;
    rewrite Z.compare_refl;
    change (Pos.compare_cont Eq m m) with (Pos.compare m m);
    rewrite Pos.compare_refl; reflexivity.
Qed.

Ltac order_cases :=
  repeat match goal with
  | H : context [Z.compare ?a ?b] |- _ =>
      destruct (Z.compare_spec a b); simpl in H; try discriminate H
  | H : context [Pos.compare ?a ?b] |- _ =>
      destruct (Pos.compare_spec a b); simpl in H; try discriminate H
  | |- context [Z.compare ?a ?b] =>
      destruct (Z.compare_spec a b); simpl
  | |- context [Pos.compare ?a ?b] =>
      destruct (Pos.compare_spec a b); simpl
  end.

(** The comparison of doubles is transitive (a NaN compares below
    nothing and above nothing). *)
Lemma ltb_trans (a b c : float) :
  ltb a b = true -> ltb b c = true -> ltb a c = true.
Proof.
  unfold ltb, SFltb.
  destruct a as [[] | [] | | [] m1 e1]; destruct b as [[] | [] | | [] m2 e2];
    simpl; try discriminate;
    destruct c as [[] | [] | | [] m3 e3]; simpl; try discriminate;
    try reflexivity;
    change (Pos.compare_cont Eq) with Pos.compare in *;
    intros H1 H2; order_cases; try reflexivity; try lia.
Qed.

(** The running best is a lower bound of the losses seen and of the
    starting value, and is one of them. *)
Lemma running_best_spec (vals : list float) :
  forall b,
    Forall (fun v => ltb v (running_best b vals) = false) vals
    /\ ltb b (running_best b vals) = false
    /\ (running_best b vals = b \/ In (running_best b vals) vals).
Proof.
  induction vals as [| v vals IH] using List.rev_ind; intros b.
  - simpl. split; [constructor |]. split; [apply ltb_irrefl | left; reflexivity].
  - rewrite running_best_app.
    destruct (IH b) as (Hall & Hb & Hin).
    destruct (ltb v (running_best b vals)) eqn:Hlt.
    + split; [| split].
      * apply List.Forall_app. split.
        -- eapply List.Forall_impl; [| exact Hall]. intros u Hu. simpl in Hu.
           destruct (ltb u v) eqn:Huv; [| reflexivity].
           rewrite (ltb_trans _ _ _ Huv Hlt) in Hu. discriminate.
        -- constructor; [apply ltb_irrefl | constructor].
      * destruct (ltb b v) eqn:Hbv; [| reflexivity].
        rewrite (ltb_trans _ _ _ Hbv Hlt) in Hb. discriminate.
      * right. apply List.in_or_app. right. left. reflexivity.
    + split; [| split].
      * apply List.Forall_app. split; [exact Hall |].
        constructor; [exact Hlt | constructor].
      * exact Hb.
      * destruct Hin as [Heq | Hin]; [left; exact Heq |].
        right. apply List.in_or_app. left. exact Hin.
Qed.

End BestFacts.

Section BestClaims.

Import PyFloat Dataset Model Train TrainFacts Extras EffectFacts BestFacts.

(** X8: the value a completed run reports is the best validation loss
    seen, not the last one: no epoch's validation average is strictly
    below it, and it is either the validation average of one of the
    epochs run or, when no epoch improved, the initial infinity. *)
Theorem reported_best_is_minimum (B : Backend) (args : Args) (fs0 : FileSystem)
    (w' : world) (st' : locals B) :
  run_main (train B args) fs0 = (w', Ok st') ->
  In (PrintComplete (best_val_loss st')) (stdout w')
  /\ Forall (fun line => ltb (snd line) (best_val_loss st') = false)
            (epoch_lines (stdout w'))
  /\ ((best_val_loss st' = inf /\ existsb id (outcomes (stdout w')) = false)
      \/ In (best_val_loss st') (map snd (epoch_lines (stdout w')))).
Proof.
  intros Hrun.
  destruct (train_spec B args fs0 w' st' Hrun) as ([He Ho Hb Hc Hs Hw] & _).
  destruct (train_shape B args fs0 w' (Ok st') Hrun)
    as [_ (train_ds & val_ds & evs & _ & _ & _ & Hout)].
  destruct (running_best_spec (map snd (epoch_lines (stdout w'))) inf)
    as (Hall & _ & Hin).
  rewrite <- Hb in Hall, Hin.
  split; [| split].
  - rewrite Hout. rewrite !List.in_app_iff. right. right. right. left. reflexivity.
  - apply List.Forall_map in Hall. exact Hall.
  - destruct (existsb id (outcomes (stdout w'))) eqn:Hex.
    + right. destruct Hin as [Heq | Hin]; [| exact Hin].
      exfalso. rewrite Ho in Hex. rewrite Hb in Heq. clear -Hex Heq.
      revert Hex Heq. generalize (map snd (epoch_lines (stdout w'))).
      intros vals. 
      assert (Hgen : forall b, existsb id (improvements b vals) = true ->
                               running_best b vals <> b).
      { induction vals as [| v vals IH]; intros b Hex; [discriminate |].
        simpl in Hex. unfold running_best. simpl.
        fold (running_best (if ltb v b then v else b) vals).
        destruct (ltb v b) eqn:Hlt; simpl in Hex.
        - intros Heq.
          destruct (running_best_spec vals v) as (_ & Hv & _).
          rewrite Heq in Hv. congruence.
        - apply IH. exact Hex. }
      intros Hex Heq. exact (Hgen inf Hex Heq).
    + destruct Hin as [Heq | Hin]; [left; split; [exact Heq | reflexivity] |].
      right. exact Hin.
Qed.

Lemma reported_best_is_minimum_witness :
  In (PrintComplete (best_val_loss (Build_locals (scripted [one; one; one]) 2%nat one 1)))
     (stdout (demo_run [one; one; one] 3 1))
  /\ Forall (fun line =>
               ltb (snd line)
                   (best_val_loss (Build_locals (scripted [one; one; one]) 2%nat one 1))
               = false)
            (epoch_lines (stdout (demo_run [one; one; one] 3 1)))
  /\ ((best_val_loss (Build_locals (scripted [one; one; one]) 2%nat one 1) = inf
       /\ existsb id (outcomes (stdout (demo_run [one; one; one] 3 1))) = false)
      \/ In (best_val_loss (Build_locals (scripted [one; one; one]) 2%nat one 1))
            (map snd (epoch_lines (stdout (demo_run [one; one; one] 3 1))))).
Proof.
  apply (reported_best_is_minimum (scripted [one; one; one]) (demo_args 3 1)
           (demo_fs 10) (demo_run [one; one; one] 3 1)
           (Build_locals (scripted [one; one; one]) 2%nat one 1)).
  vm_compute. reflexivity.
Defined.

End BestClaims.

(** ** train.py: a run on well-formed data raises nothing *)

Module TotalFacts.

Import PyFloat Dataset DatasetFacts Model Train TrainFacts FloatFacts Extras
       LoadFacts.

Lemma chunks_In {A : Type} (fuel bs : nat) :
  forall (l c : list A) (x : A),
    In c (chunks fuel bs l) -> In x c -> In x l.
Proof.
  induction fuel as [| fuel IH]; intros l c x Hc Hx; [destruct Hc |].
  destruct l as [| a l]; [destruct Hc |].
  cbn [chunks] in Hc. destruct Hc as [<- | Hc].
  - rewrite <- (List.firstn_skipn bs (a :: l)). apply List.in_or_app. left. exact Hx.
  - rewrite <- (List.firstn_skipn bs (a :: l)). apply List.in_or_app. right.
    eapply IH; eassumption.
Qed.

Lemma chunks_length_le {A : Type} (fuel bs : nat) (l : list A) :
  (length (chunks fuel bs l) <= fuel)%nat.
Proof.
  revert l. induction fuel as [| fuel IH]; intros l; [simpl; lia |].
  destruct l as [| a l]; [simpl; lia |].
  cbn [chunks]. simpl length. specialize (IH (skipn bs (a :: l))). lia.
Qed.

Lemma batches_In {A : Type} (bs : nat) (drop_last : bool) (l c : list A) (x : A) :
  In c (batches bs drop_last l) -> In x c -> In x l.
Proof.
  unfold batches. intros Hc Hx.
  destruct drop_last; [apply List.filter_In in Hc as [Hc _] |];
    eapply chunks_In; eassumption.
Qed.

Lemma batches_length_le {A : Type} (bs : nat) (drop_last : bool) (l : list A) :
  (length (batches bs drop_last l) <= length l)%nat.
Proof.
  unfold batches. pose proof (chunks_length_le (length l) bs l) as H.
  destruct drop_last; [| exact H].
  pose proof (List.filter_length_le (fun c => Nat.eqb (length c) bs)
                (chunks (length l) bs l)). lia.
Qed.

Lemma fetch_ok (v : Subset) (positions : list nat) :
  fetchable v ->
  Forall (fun p => (p < Subset_len v)%nat) positions ->
  exists ss, fetch v positions = Ok ss.
Proof.
  intros Hv. induction 1 as [| p rest Hp _ IH]; simpl; [eauto |].
  destruct (Hv (Z.of_nat p) ltac:(lia)) as [s ->].
  destruct IH as [ss ->]. simpl. eauto.
Qed.

Section Total.

Variable B : Backend.

Lemma fit_batches_ok (v : Subset) (bl : list (list nat)) :
  fetchable v ->
  Forall (Forall (fun p => (p < Subset_len v)%nat)) bl ->
  forall (t : Trainer B) (loss : float) (k : Z),
    exists t' loss', fit_batches B v bl t loss k
                     = Ok (t', loss', k + Z.of_nat (length bl)).
Proof.
  intros Hv. induction 1 as [| b rest Hb _ IH]; intros t loss k; simpl.
  - do 2 eexists. rewrite Z.add_0_r. reflexivity.
  - destruct (fetch_ok v b Hv Hb) as [ss ->]. simpl.
    destruct (fit_batch B t ss) as [t1 l1].
    destruct (IH t1 (add loss l1) (k + 1)) as (t' & loss' & ->).
    do 2 eexists. f_equal. f_equal. lia.
Qed.

Lemma eval_batches_ok (v : Subset) (bl : list (list nat)) (t : Trainer B) :
  fetchable v ->
  Forall (Forall (fun p => (p < Subset_len v)%nat)) bl ->
  forall (loss : float) (k : Z),
    exists loss', eval_batches B v bl t loss k
                  = Ok (loss', k + Z.of_nat (length bl)).
Proof.
  intros Hv. induction 1 as [| b rest Hb _ IH]; intros loss k; simpl.
  - eexists. rewrite Z.add_0_r. reflexivity.
  - destruct (fetch_ok v b Hv Hb) as [ss ->]. simpl.
    destruct (IH (add loss (eval_batch B t ss)) (k + 1)) as (loss' & ->).
    eexists. f_equal. f_equal. lia.
Qed.

Lemma average_ok (loss_sum : float) (n : Z) :
  0 <= n < 2 ^ 53 -> exists a, average loss_sum n = Ok a.
Proof.
  intros Hn. unfold average, div_int.
  destruct (of_int_small (Z.max n 1) ltac:(lia)) as (m & e & -> & _).
  simpl. eauto.
Qed.

(** The batches of a pass over a loader hold positions of its view, and
    there are at most as many batches as samples. *)
Lemma loader_batches_valid (dl : DataLoader) (t : Trainer B) :
  shuffles B ->
  Forall (Forall (fun p => (p < Subset_len (dl_dataset dl))%nat))
         (snd (loader_batches B dl t))
  /\ (length (snd (loader_batches B dl t)) <= Subset_len (dl_dataset dl))%nat.
Proof.
  intros [_ Hord]. unfold loader_batches.
  set (n := Subset_len (dl_dataset dl)).
  assert (Hgen : forall order, Permutation order (seq 0 n) ->
            Forall (Forall (fun p => (p < n)%nat))
                   (batches (dl_batch_size dl) (dl_drop_last dl) order)
            /\ (length (batches (dl_batch_size dl) (dl_drop_last dl) order)
                <= n)%nat).
  { intros order Hperm. split.
    - apply List.Forall_forall. intros b Hb.
      apply List.Forall_forall. intros p Hp.
      pose proof (batches_In _ _ _ _ _ Hb Hp) as Hin.
      apply (Permutation_in _ Hperm) in Hin. apply List.in_seq in Hin. lia.
    - pose proof (batches_length_le (dl_batch_size dl) (dl_drop_last dl) order).
      rewrite (Permutation_length Hperm), List.length_seq in H. exact H. }
  destruct (dl_shuffle dl).
  - specialize (Hord t n). destruct (random_order B t n) as [t1 order].
    simpl in *. apply Hgen. exact Hord.
  - simpl. apply Hgen. reflexivity.
Qed.

Lemma epoch_losses_ok (train_loader val_loader : DataLoader) (t : Trainer B) :
  shuffles B ->
  fetchable (dl_dataset train_loader) ->
  fetchable (dl_dataset val_loader) ->
  Z.of_nat (Subset_len (dl_dataset train_loader)) < 2 ^ 53 ->
  Z.of_nat (Subset_len (dl_dataset val_loader)) < 2 ^ 53 ->
  exists t' avg_train avg_val,
    epoch_losses B train_loader val_loader t = Ok (t', avg_train, avg_val).
Proof.
  intros Hsh Hft Hfv Hnt Hnv. unfold epoch_losses.
  destruct (loader_batches_valid train_loader (set_mode B true t) Hsh)
    as [Hvalid_t Hlen_t].
  destruct (loader_batches B train_loader (set_mode B true t)) as [t1 train_bl].
  simpl in Hvalid_t, Hlen_t.
  destruct (fit_batches_ok _ _ Hft Hvalid_t t1 zero 0) as (t2 & tl & ->).
  simpl.
  destruct (loader_batches_valid val_loader
              (set_mode B false (scheduler_step B t2)) Hsh) as [Hvalid_v Hlen_v].
  destruct (loader_batches B val_loader (set_mode B false (scheduler_step B t2)))
    as [t3 val_bl].
  simpl in Hvalid_v, Hlen_v.
  destruct (eval_batches_ok _ _ t3 Hfv Hvalid_v zero 0) as (vl & ->).
  simpl.
  destruct (average_ok tl (0 + Z.of_nat (length train_bl)) ltac:(lia)) as [a1 ->].
  destruct (average_ok vl (0 + Z.of_nat (length val_bl)) ltac:(lia)) as [a2 ->].
  simpl. eauto.
Qed.

Lemma dirname_or_dot_nonempty (path : string) :
  Path.dirname_or_dot path <> ""%string.
Proof.
  unfold Path.dirname_or_dot.
  destruct (String.eqb_spec (Path.dirname path) ""%string) as [_ | Hne];
    [discriminate | exact Hne].
Qed.

Lemma never_refused_accepts (path : string) (fs : FileSystem) :
  never_refused path fs -> accepts_save path fs.
Proof.
  intros [Hne Hnone]. unfold accepts_save, os_check. simpl op_path.
  rewrite (proj2 (String.eqb_neq _ _) (dirname_or_dot_nonempty path)).
  rewrite (proj2 (String.eqb_neq _ _) Hne).
  rewrite (Hnone _ _ (or_introl eq_refl)).
  simpl refusal. rewrite (Hnone _ _ (or_intror eq_refl)).
  split; reflexivity.
Qed.

Lemma never_refused_same (path : string) (fs fs' : FileSystem) :
  refusal fs' = refusal fs -> never_refused path fs -> never_refused path fs'.
Proof.
  intros Heq [Hne Hnone]. split; [exact Hne |]. rewrite Heq. exact Hnone.
Qed.

Lemma run_epoch_ok (args : Args) (train_loader val_loader : DataLoader)
    (epoch : Z) (st : locals B) (w : world) :
  shuffles B ->
  fetchable (dl_dataset train_loader) ->
  fetchable (dl_dataset val_loader) ->
  Z.of_nat (Subset_len (dl_dataset train_loader)) < 2 ^ 53 ->
  Z.of_nat (Subset_len (dl_dataset val_loader)) < 2 ^ 53 ->
  never_refused (output args) (fs w) ->
  exists w' st' brk,
    run_epoch B args train_loader val_loader epoch st w = (w', Ok (st', brk))
    /\ never_refused (output args) (fs w').
Proof.
  intros Hsh Hft Hfv Hnt Hnv Hos.
  destruct (epoch_losses_ok train_loader val_loader (trainer st)
              Hsh Hft Hfv Hnt Hnv) as (t & a1 & a2 & Hlosses).
  destruct (ltb a2 (best_val_loss st)) eqn:Hlt.
  - rewrite (run_epoch_improved _ _ _ _ _ _ _ _ _ _ Hlosses Hlt
               (never_refused_accepts _ _ Hos)).
    do 3 eexists. split; [reflexivity |].
    apply (never_refused_same _ (fs w)); [reflexivity | exact Hos].
  - destruct (Z.lt_ge_cases (patience_counter st + 1) (patience args))
      as [Hp | Hp].
    + rewrite (run_epoch_stalled _ _ _ _ _ _ _ _ _ _ Hlosses Hlt Hp). eauto.
    + rewrite (run_epoch_stopped _ _ _ _ _ _ _ _ _ _ Hlosses Hlt Hp). eauto.
Qed.

Lemma epoch_loop_ok (args : Args) (train_loader val_loader : DataLoader)
    (range : list Z) :
  shuffles B ->
  fetchable (dl_dataset train_loader) ->
  fetchable (dl_dataset val_loader) ->
  Z.of_nat (Subset_len (dl_dataset train_loader)) < 2 ^ 53 ->
  Z.of_nat (Subset_len (dl_dataset val_loader)) < 2 ^ 53 ->
  forall (st : locals B) (w : world),
    never_refused (output args) (fs w) ->
    exists w' st',
      epoch_loop B args train_loader val_loader range st w = (w', Ok st').
Proof.
  intros Hsh Hft Hfv Hnt Hnv.
  induction range as [| epoch rest IH]; intros st w Hos; simpl;
    [unfold io_ret; eauto |].
  unfold io_bind.
  destruct (run_epoch_ok args train_loader val_loader epoch st w
              Hsh Hft Hfv Hnt Hnv Hos) as (w1 & st1 & brk & -> & Hos1).
  simpl. destruct brk; [unfold io_ret; eauto | apply IH; exact Hos1].
Qed.

End Total.

End TotalFacts.

Section TotalClaims.

Import PyFloat Dataset DatasetFacts Model Train TrainFacts Extras LoadFacts
       TotalFacts.

(** X9: what can make [train] raise.  On a CSV file with the required
    columns and fewer than [2^53] rows whose split leaves a training view
    that is not empty (a split point of at least 1), with a positive batch
    size, a learning rate and an epoch count that the constructors of the
    optimiser and the scheduler accept, and an output path that is not
    empty and at which the operating system never refuses a save, [train]
    raises no exception, whatever the loss values (NaN and infinities
    included) and the patience: it runs to its closing lines. *)
Theorem train_completes (B : Backend) (args : Args) (fs0 : FileSystem)
    (df : DataFrame) (k : Z) (t0 : Trainer B) :
  shuffles B ->
  files fs0 !! data args = Some (CsvFile df) ->
  has_required_columns df ->
  Z.of_nat (length (rows df)) < 2 ^ 53 ->
  split_point (length (rows df)) default_val_fraction = Ok k ->
  1 <= k ->
  0 < batch_size args ->
  new_trainer B (lr args) (epochs args) = Ok t0 ->
  never_refused (output args) fs0 ->
  exists w' st', run_main (train B args) fs0 = (w', Ok st').
Proof.
  intros Hsh Hfile Hcols Hrows Hk Hk1 Hbs Hnew Hos.
  destruct (load_and_split_ok (permutation B) _ _ _ default_val_fraction
              default_seed k Hfile Hcols ltac:(unfold default_seed; lia) Hk)
    as (ds & Hlen & Hload).
  set (perm := permutation B default_seed (length (rows df))) in *.
  set (train_ds := {| dataset := ds; indices := slice_to perm k |}) in *.
  set (val_ds := {| dataset := ds; indices := slice_from perm k |}) in *.
  assert (Hperm : length perm = length (rows df)).
  { subst perm. rewrite (Permutation_length (proj1 Hsh _ _)).
    apply List.length_seq. }
  assert (Hfetch : forall v, v = train_ds \/ v = val_ds -> fetchable v).
  { intros v Hv idx Hidx.
    destruct (view_getitem_ok (permutation B) _ _ _ _ train_ds val_ds v idx
                (proj1 Hsh) Hload Hv Hidx) as (j & f & t & _ & _ & Hget & _).
    eauto. }
  assert (Hsize : forall v, v = train_ds \/ v = val_ds ->
                            Z.of_nat (Subset_len v) < 2 ^ 53).
  { intros v Hv.
    assert (Hle : (Subset_len v <= length perm)%nat).
    { unfold Subset_len. rewrite <- (slice_to_from perm k), List.length_app.
      destruct Hv; subst; simpl; lia. }
    lia. }
  assert (Hrows1 : (1 <= length (rows df))%nat).
  { destruct (length (rows df)) eqn:Hn; [| lia].
    vm_compute in Hk. injection Hk as <-. lia. }
  assert (Hne : (Subset_len train_ds =? 0)%nat = false).
  { apply Nat.eqb_neq. unfold Subset_len, train_ds. simpl indices.
    rewrite slice_to_nonneg by lia. rewrite List.length_firstn. lia. }
  destruct (run_main (train B args) fs0) as [w' r] eqn:Hrun.
  pose proof (train_inv B args fs0 w' r Hrun) as Hinv.
  rewrite Hload in Hinv. cbv zeta in Hinv.
  unfold DataLoader_init in Hinv. rewrite Hne in Hinv. simpl in Hinv.
  destruct (Z.leb_spec (batch_size args) 0) as [Hneg | _]; [lia |].
  rewrite Hnew in Hinv.
  destruct Hinv as (w1 & r1 & Hloop & Hend).
  match type of Hloop with
  | epoch_loop B args ?tl ?vl ?rg ?s ?wi = _ =>
      destruct (epoch_loop_ok B args tl vl rg Hsh
                  (Hfetch train_ds (or_introl eq_refl))
                  (Hfetch val_ds (or_intror eq_refl))
                  (Hsize train_ds (or_introl eq_refl))
                  (Hsize val_ds (or_intror eq_refl)) s wi Hos)
        as (w1' & st1 & Hok)
  end.
  rewrite Hok in Hloop. injection Hloop as <- <-.
  destruct Hend as [-> ->]. eauto.
Qed.

Lemma train_completes_witness :
  exists w' st',
    run_main (train (scripted [nan; one]) (demo_args 5 10)) (demo_fs 10)
    = (w', Ok st').
Proof.
  apply (train_completes (scripted [nan; one]) (demo_args 5 10) (demo_fs 10)
           (constant_frame 10 zero) 8 O).
  - split; [apply rotate_permutation_perm | intros t n; reflexivity].
  - reflexivity.
  - apply demo_frame_required.
  - vm_compute. reflexivity.
  - vm_compute. reflexivity.
  - lia.
  - simpl. lia.
  - reflexivity.
  - split; [discriminate | reflexivity].
Defined.

End TotalClaims.

(** ** train.py: what the two loaders hand to the loops *)

Module LoaderFacts.

Import PyFloat Dataset Model Train TrainFacts BatchFacts Extras.

Lemma firstn_add {A : Type} (n m : nat) :
  forall l : list A, firstn (n + m) l = firstn n l ++ firstn m (skipn n l).
Proof.
  induction n as [| n IH]; intros l; [reflexivity |].
  destruct l as [| a l]; simpl.
  - rewrite List.firstn_nil. reflexivity.
  - rewrite IH. reflexivity.
Qed.

(** Without [drop_last] the chunks are the list, cut into non-empty
    pieces of at most [bs] elements. *)
Lemma chunks_concat {A : Type} (bs : nat) :
  (0 < bs)%nat ->
  forall (fuel : nat) (l : list A),
    (length l <= fuel)%nat ->
    concat (chunks fuel bs l) = l
    /\ Forall (fun c => (0 < length c <= bs)%nat) (chunks fuel bs l).
Proof.
  intros Hbs. induction fuel as [| fuel IH]; intros l Hlen.
  - destruct l; [split; [reflexivity | constructor] | simpl in Hlen; lia].
  - destruct l as [| a l]; [split; [reflexivity | constructor] |].
    cbn [chunks].
    destruct (IH (skipn bs (a :: l))) as [Hc Hf].
    { rewrite List.length_skipn. simpl length in *. lia. }
    split.
    + cbn [concat]. rewrite Hc. apply List.firstn_skipn.
    + constructor; [| exact Hf].
      rewrite List.length_firstn. simpl length. lia.
Qed.

(** With [drop_last] only the full chunks stay: there are
    [length l / bs] of them and together they are the longest prefix of
    the list whose length is a multiple of [bs]. *)
Lemma chunks_full {A : Type} (bs : nat) :
  (0 < bs)%nat ->
  forall (fuel : nat) (l : list A),
    (length l <= fuel)%nat ->
    let full := List.filter (fun c => Nat.eqb (length c) bs) (chunks fuel bs l) in
    concat full = firstn (bs * (length l / bs)) l
    /\ length full = (length l / bs)%nat.
Proof.
  intros Hbs.
  assert (Hnil : forall fuel,
             concat (List.filter (fun c => Nat.eqb (length c) bs)
                       (chunks fuel bs (@nil A)))
             = firstn (bs * (length (@nil A) / bs)) []
             /\ length (List.filter (fun c => Nat.eqb (length c) bs)
                          (chunks fuel bs (@nil A)))
                = (length (@nil A) / bs)%nat).
  { intros fuel. rewrite chunks_nil. cbn [List.filter concat length].
    rewrite Nat.Div0.div_0_l, List.firstn_nil. split; reflexivity. }
  induction fuel as [| fuel IH]; intros l Hlen; cbv zeta.
  - destruct l; [apply Hnil | simpl in Hlen; lia].
  - destruct l as [| a l]; [apply Hnil |].
    specialize (IH (skipn bs (a :: l))). cbv zeta in IH.
    cbn [chunks]. cbn [List.filter].
    destruct (Nat.ltb_spec (length (a :: l)) bs) as [Hshort | Hlong].
    + rewrite List.skipn_all2 by lia. rewrite chunks_nil.
      rewrite List.firstn_all2 by lia.
      rewrite (proj2 (Nat.eqb_neq _ _)) by lia.
      rewrite Nat.div_small by exact Hshort.
      rewrite Nat.mul_0_r. split; reflexivity.
    + assert (Hfirst : length (firstn bs (a :: l)) = bs)
        by (rewrite List.length_firstn; lia).
      rewrite Hfirst, Nat.eqb_refl.
      destruct IH as [Hc Hn].
      { rewrite List.length_skipn. simpl length in *. lia. }
      rewrite List.length_skipn in Hc, Hn.
      assert (Hdiv : (length (a :: l) / bs = S ((length (a :: l) - bs) / bs))%nat).
      { replace (length (a :: l)) with ((length (a :: l) - bs) + 1 * bs)%nat
          at 1 by lia.
        rewrite Nat.div_add by lia. lia. }
      rewrite Hdiv. split.
      * cbn [concat]. rewrite Hc.
        replace (bs * S ((length (a :: l) - bs) / bs))%nat
          with (bs + bs * ((length (a :: l) - bs) / bs))%nat by lia.
        rewrite firstn_add. reflexivity.
      * simpl length. rewrite Hn. reflexivity.
Qed.

Lemma batches_keep_last {A : Type} (bs : nat) (l : list A) :
  (0 < bs)%nat ->
  concat (batches bs false l) = l
  /\ Forall (fun c => (0 < length c <= bs)%nat) (batches bs false l).
Proof.
  intros Hbs. unfold batches. apply chunks_concat; [exact Hbs | lia].
Qed.

Lemma batches_drop_last {A : Type} (bs : nat) (l : list A) :
  (0 < bs)%nat ->
  concat (batches bs true l) = firstn (bs * (length l / bs)) l
  /\ length (batches bs true l) = (length l / bs)%nat
  /\ Forall (fun c => length c = bs) (batches bs true l).
Proof.
  intros Hbs. unfold batches.
  destruct (chunks_full bs Hbs (length l) l (le_n _)) as [Hc Hn].
  split; [exact Hc |]. split; [exact Hn |].
  apply List.Forall_forall. intros c Hin.
  apply List.filter_In in Hin as [_ Hfull]. apply Nat.eqb_eq. exact Hfull.
Qed.

Lemma NoDup_firstn {A : Type} (n : nat) (l : list A) :
  List.NoDup l -> List.NoDup (firstn n l).
Proof.
  intros Hnd. rewrite <- (List.firstn_skipn n l) in Hnd.
  apply List.NoDup_app_remove_r in Hnd. exact Hnd.
Qed.

Lemma In_firstn {A : Type} (n : nat) (l : list A) (x : A) :
  In x (firstn n l) -> In x l.
Proof.
  intros Hin. rewrite <- (List.firstn_skipn n l). apply List.in_or_app.
  left. exact Hin.
Qed.

End LoaderFacts.

Section LoaderClaims.

Import PyFloat Dataset Model Train TrainFacts BatchFacts Extras LoaderFacts.
Local Open Scope nat_scope.

(** X14: the training loader that [train] builds (shuffled, with
    [drop_last]) hands every epoch [n / batch_size] batches of exactly
    [batch_size] positions each, [n] being the number of training
    samples; no sample occurs twice in an epoch and every position is one
    of the training view.  So an epoch trains on
    [batch_size * (n / batch_size)] distinct samples and leaves out
    [n mod batch_size] of them, fewer than one batch. *)
Theorem train_loader_full_batches (B : Backend) (train_ds : Subset)
    (batch_size : Z) (train_loader : DataLoader) (t : Trainer B) :
  (forall t0 n, Permutation (snd (random_order B t0 n)) (seq 0 n)) ->
  DataLoader_init train_ds batch_size true true = Ok train_loader ->
  let bl := snd (loader_batches B train_loader t) in
  let n := Subset_len train_ds in
  length bl = n / Z.to_nat batch_size
  /\ Forall (fun b => length b = Z.to_nat batch_size) bl
  /\ length (concat bl) = Z.to_nat batch_size * (n / Z.to_nat batch_size)
  /\ length (concat bl) + n mod Z.to_nat batch_size = n
  /\ List.NoDup (concat bl)
  /\ Forall (fun p => p < n) (concat bl).
Proof.
  intros Hperm Hinit. cbv zeta. unfold DataLoader_init in Hinit.
  destruct (true && (Subset_len train_ds =? 0)%nat); [discriminate |].
  destruct (Z.leb_spec batch_size 0) as [Hneg | Hpos]; [discriminate |].
  injection Hinit as <-. unfold loader_batches.
  cbn [dl_shuffle dl_drop_last dl_batch_size dl_dataset].
  pose proof (Hperm t (Subset_len train_ds)) as Hp.
  destruct (random_order B t (Subset_len train_ds)) as [t' order].
  cbn [snd] in *.
  assert (Hbs : 0 < Z.to_nat batch_size) by lia.
  assert (Hlen : length order = Subset_len train_ds).
  { rewrite (Permutation_length Hp). apply List.length_seq. }
  destruct (batches_drop_last (Z.to_nat batch_size) order Hbs)
    as (Hc & Hn & Hf).
  rewrite Hlen in Hc, Hn.
  assert (Hle : Z.to_nat batch_size * (Subset_len train_ds / Z.to_nat batch_size)
                <= Subset_len train_ds)
    by (apply Nat.Div0.mul_div_le).
  assert (Hcl : length (concat (batches (Z.to_nat batch_size) true order))
                = Z.to_nat batch_size
                  * (Subset_len train_ds / Z.to_nat batch_size)).
  { rewrite Hc, List.length_firstn. lia. }
  split; [exact Hn |]. split; [exact Hf |]. split; [exact Hcl |].
  split.
  { rewrite Hcl.
    pose proof (Nat.div_mod_eq (Subset_len train_ds) (Z.to_nat batch_size)).
    lia. }
  split.
  - rewrite Hc. apply NoDup_firstn.
    apply (Permutation_NoDup (Permutation_sym Hp)). apply List.seq_NoDup.
  - rewrite Hc. apply List.Forall_forall. intros p Hin.
    apply In_firstn in Hin.
    apply (Permutation_in _ Hp) in Hin. apply List.in_seq in Hin. lia.
Qed.

Lemma train_loader_full_batches_witness :
  let bl := snd (loader_batches (scripted [one])
                   {| dl_dataset := {| dataset := demo_dataset 10;
                                       indices := seq 0 8 |};
                      dl_batch_size := 3; dl_shuffle := true;
                      dl_drop_last := true |} 0) in
  let n := Subset_len {| dataset := demo_dataset 10; indices := seq 0 8 |} in
  length bl = n / Z.to_nat 3
  /\ Forall (fun b => length b = Z.to_nat 3) bl
  /\ length (concat bl) = Z.to_nat 3 * (n / Z.to_nat 3)
  /\ length (concat bl) + n mod Z.to_nat 3 = n
  /\ List.NoDup (concat bl)
  /\ Forall (fun p => p < n) (concat bl).
Proof.
  apply (train_loader_full_batches (scripted [one])
           {| dataset := demo_dataset 10; indices := seq 0 8 |} 3%Z
           {| dl_dataset := {| dataset := demo_dataset 10; indices := seq 0 8 |};
              dl_batch_size := 3; dl_shuffle := true; dl_drop_last := true |}
           0).
  - intros t0 n. simpl. apply Permutation_refl.
  - reflexivity.
Defined.

(** X15: the validation loader that [train] builds (not shuffled, no
    [drop_last]) hands every epoch the positions [0 .. n-1] of the
    validation view in order, each exactly once, in non-empty batches of
    at most [batch_size]: every validation sample enters every epoch's
    validation loss, and there is no batch at all only when the
    validation view is empty. *)
Theorem val_loader_covers_all (B : Backend) (val_ds : Subset)
    (batch_size : Z) (val_loader : DataLoader) (t : Trainer B) :
  DataLoader_init val_ds batch_size false false = Ok val_loader ->
  concat (snd (loader_batches B val_loader t)) = seq 0 (Subset_len val_ds)
  /\ Forall (fun b => 0 < length b <= Z.to_nat batch_size)
            (snd (loader_batches B val_loader t))
  /\ (snd (loader_batches B val_loader t) = [] <-> Subset_len val_ds = 0).
Proof.
  intros Hinit. unfold DataLoader_init in Hinit. simpl in Hinit.
  destruct (Z.leb_spec batch_size 0) as [Hneg | Hpos]; [discriminate |].
  injection Hinit as <-. unfold loader_batches.
  cbn [dl_shuffle dl_drop_last dl_batch_size dl_dataset fst snd].
  assert (Hbs : 0 < Z.to_nat batch_size) by lia.
  destruct (batches_keep_last (Z.to_nat batch_size)
              (seq 0 (Subset_len val_ds)) Hbs) as [Hc Hf].
  split; [exact Hc |]. split; [exact Hf |].
  split.
  - intros Hnil. rewrite Hnil in Hc. simpl in Hc.
    apply (f_equal (@length nat)) in Hc. rewrite List.length_seq in Hc.
    symmetry. exact Hc.
  - intros Hz. rewrite Hz. reflexivity.
Qed.

Lemma val_loader_covers_all_witness :
  concat (snd (loader_batches (scripted [one]) demo_val_loader 0))
  = seq 0 (Subset_len {| dataset := demo_dataset 10; indices := [8; 9] |})
  /\ Forall (fun b => 0 < length b <= Z.to_nat 256)
            (snd (loader_batches (scripted [one]) demo_val_loader 0))
  /\ (snd (loader_batches (scripted [one]) demo_val_loader 0) = []
      <-> Subset_len {| dataset := demo_dataset 10; indices := [8; 9] |} = 0).
Proof.
  apply (val_loader_covers_all (scripted [one])
           {| dataset := demo_dataset 10; indices := [8; 9] |} 256%Z
           demo_val_loader 0).
  reflexivity.
Defined.

End LoaderClaims.

(** ** export_onnx.py and checkpoints *)

Module CheckpointFacts.

Import PyFloat Dataset Model ModelFacts ExportOnnx ExportFacts Extras.

(** Layers of the same kinds carry the same parameter names. *)
Lemma named_parameters_names (layers layers' : list layer) :
  Forall2 layer_compat layers layers' ->
  forall i, map fst (named_parameters_from i layers)
            = map fst (named_parameters_from i layers').
Proof.
  induction 1 as [| ly ly' rest rest' Hc _ IH]; intros i; [reflexivity |].
  destruct ly as [l |], ly' as [l' |]; simpl in Hc; try contradiction; simpl.
  - rewrite IH. reflexivity.
  - apply IH.
Qed.

(** What a successful strict load builds: layers compatible with the
    model's, holding the tensors of the checkpoint. *)
Lemma load_layers_result (layers : list layer) :
  forall (i : nat) (sd : gmap string tensor) (layers' : list layer),
    load_layers i layers sd = Ok layers' ->
    Forall2 layer_compat layers layers'
    /\ Forall (fun kv => sd !! fst kv = Some (snd kv))
              (named_parameters_from i layers').
Proof.
  induction layers as [| ly rest IH]; intros i sd layers' Hload.
  - injection Hload as <-. split; constructor.
  - destruct ly as [l |]; simpl in Hload.
    + apply rbind_ok in Hload as (w & Hw & Hload).
      apply rbind_ok in Hload as (b & Hb & Hload).
      apply rbind_ok in Hload as (rest' & Hrest & Hload).
      apply load_param_ok in Hw as [Hw1 Hw2].
      apply load_param_ok in Hb as [Hb1 Hb2].
      destruct (IH _ _ _ Hrest) as [Hc Hall].
      destruct w as [wv | wm]; [discriminate |].
      destruct b as [bv | bm]; [| discriminate].
      injection Hload as <-. split.
      * constructor; [| exact Hc]. simpl.
        split; [reflexivity |]. split; [symmetry; exact Hw2 |].
        simpl in Hb2. congruence.
      * simpl. constructor; [exact Hw1 |]. constructor; [exact Hb1 | exact Hall].
    + apply rbind_ok in Hload as (rest' & Hrest & Hload).
      injection Hload as <-. destruct (IH _ _ _ Hrest) as [Hc Hall].
      split; [constructor; [exact I | exact Hc] | exact Hall].
Qed.

(** A strict load succeeds as soon as the checkpoint holds, under every
    parameter name of the model, a tensor of the model's shape. *)
Lemma load_layers_succeeds (layers src : list layer) :
  Forall2 layer_compat layers src ->
  forall (i : nat) (sd : gmap string tensor),
    Forall (fun kv => sd !! fst kv = Some (snd kv))
           (named_parameters_from i src) ->
    exists layers', load_layers i layers sd = Ok layers'.
Proof.
  induction 1 as [| ly ly' rest rest' Hc _ IH]; intros i sd Hall;
    [simpl; eauto |].
  destruct ly as [l |], ly' as [l' |]; simpl in Hc; try contradiction.
  - destruct Hc as (_ & Hw & Hb). simpl in Hall.
    apply List.Forall_cons_iff in Hall as [Hlw Hall].
    apply List.Forall_cons_iff in Hall as [Hlb Hall].
    simpl in Hlw, Hlb. simpl. unfold load_param. rewrite Hlw, Hlb.
    rewrite bool_decide_eq_true_2 by (symmetry; exact Hw). simpl.
    rewrite bool_decide_eq_true_2 by (simpl; congruence). simpl.
    destruct (IH (S i) sd Hall) as [rest'' ->]. simpl. eauto.
  - simpl in Hall. simpl. destruct (IH (S i) sd Hall) as [rest'' ->].
    simpl. eauto.
Qed.

Lemma fmap_fst_map (l : list (string * tensor)) : l.*1 = map fst l.
Proof. induction l as [| a l IH]; simpl; [reflexivity | rewrite <- IH; reflexivity]. Qed.

Lemma lookup_named (l : list (string * tensor)) (k : string) (v : tensor) :
  List.NoDup (map fst l) -> In (k, v) l ->
  (list_to_map l : gmap string tensor) !! k = Some v.
Proof.
  intros Hnd Hin. apply elem_of_list_to_map_1.
  - apply NoDup_ListNoDup. exact Hnd.
  - apply list_elem_of_In. exact Hin.
Qed.

(** With distinct parameter names, the state dict of a model that was
    loaded from a checkpoint is that checkpoint. *)
Lemma load_state_dict_roundtrip (m m' : SailingAI) (sd : gmap string tensor) :
  List.NoDup (map fst (named_parameters m)) ->
  load_state_dict m sd = Ok m' ->
  state_dict m' = sd
  /\ Forall2 layer_compat (net m) (net m')
  /\ training m' = training m.
Proof.
  intros Hnd Hload.
  pose proof (load_state_dict_matches _ _ _ Hload) as [Hdom _].
  unfold load_state_dict in Hload. case_bool_decide as Hsub; [| discriminate].
  apply rbind_ok in Hload as (layers & Hlayers & Hload).
  injection Hload as <-. simpl.
  destruct (load_layers_result _ _ _ _ Hlayers) as [Hc Hall].
  split; [| split; [exact Hc | reflexivity]].
  unfold state_dict, named_parameters. simpl net.
  pose proof (named_parameters_names _ _ Hc 0%nat) as Hnames.
  unfold named_parameters in Hnd. rewrite Hnames in Hnd.
  apply map_eq. intros k.
  destruct (list_to_map (named_parameters_from 0 layers) !! k) as [v |] eqn:Hk.
  - apply elem_of_list_to_map_2, list_elem_of_In in Hk.
    rewrite List.Forall_forall in Hall. symmetry. exact (Hall _ Hk).
  - symmetry. apply not_elem_of_dom. rewrite Hdom.
    unfold state_dict, named_parameters. rewrite dom_list_to_map_L.
    rewrite fmap_fst_map, Hnames, <- fmap_fst_map, <- dom_list_to_map_L.
    apply not_elem_of_dom. exact Hk.
Qed.

(** The names of the parameters of a model with the constructor's
    topology. *)
Lemma shaped_parameter_names (m : SailingAI) :
  SailingAI_shaped m ->
  map fst (named_parameters m)
  = [ "net.0.weight"; "net.0.bias"; "net.2.weight"; "net.2.bias";
      "net.4.weight"; "net.4.bias"; "net.6.weight"; "net.6.bias" ]%string.
Proof.
  intros (l1 & l2 & l3 & l4 & Hnet & _).
  unfold named_parameters. rewrite Hnet. vm_compute. reflexivity.
Qed.

Lemma shaped_names_NoDup (m : SailingAI) :
  SailingAI_shaped m -> List.NoDup (map fst (named_parameters m)).
Proof.
  intros Hm. rewrite (shaped_parameter_names m Hm).
  repeat (constructor; [simpl; intuition discriminate |]). constructor.
Qed.

Lemma shape_Mat_shaped (r c : nat) (w : list (list float)) :
  has_shape (S r) c w -> shape (Mat w) = [S r; c].
Proof.
  intros [Hlen Hrows]. simpl. destruct w as [| row w]; [discriminate |].
  simpl. apply List.Forall_inv in Hrows. simpl in Hlen. congruence.
Qed.

Lemma Linear_shaped_compat (n_in n_out : nat) (l l' : Linear) :
  Linear_shaped n_in (S n_out) l -> Linear_shaped n_in (S n_out) l' ->
  layer_compat (LinearLayer l) (LinearLayer l').
Proof.
  intros (Hi & Hw & Hb) (Hi' & Hw' & Hb'). cbn [layer_compat].
  split; [congruence |].
  rewrite (shape_Mat_shaped _ _ _ Hw), (shape_Mat_shaped _ _ _ Hw').
  split; [reflexivity | congruence].
Qed.

Lemma shaped_compat (m m' : SailingAI) :
  SailingAI_shaped m -> SailingAI_shaped m' ->
  Forall2 layer_compat (net m) (net m').
Proof.
  intros (l1 & l2 & l3 & l4 & -> & S1 & S2 & S3 & S4)
         (k1 & k2 & k3 & k4 & -> & T1 & T2 & T3 & T4).
  repeat (constructor; [first [exact I | eapply Linear_shaped_compat; eassumption] |]).
  constructor.
Qed.

(** Compatible layers holding the same tensors compute the same
    function. *)
Lemma compat_forward (layers layers' : list layer) :
  Forall2 layer_compat layers layers' ->
  forall i, named_parameters_from i layers = named_parameters_from i layers' ->
  forall x, Sequential_forward layers x = Sequential_forward layers' x.
Proof.
  induction 1 as [| ly ly' rest rest' Hc _ IH]; intros i Hp x; [reflexivity |].
  destruct ly as [l |], ly' as [l' |]; simpl in Hc; try contradiction.
  - simpl in Hp. injection Hp as Hw Hb Hrest. destruct Hc as (Hin & _ & _).
    simpl. unfold Linear_forward. rewrite Hin, Hw, Hb.
    destruct (forallb _ x); simpl; [apply (IH (S i) Hrest) | reflexivity].
  - simpl in Hp. simpl. apply (IH (S i) Hp).
Qed.


Lemma compat_sym (layers layers' : list layer) :
  Forall2 layer_compat layers layers' -> Forall2 layer_compat layers' layers.
Proof.
  induction 1 as [| ly ly' rest rest' Hc _ IH]; constructor; [| exact IH].
  destruct ly, ly'; cbn [layer_compat] in *; try contradiction; try exact I.
  destruct Hc as (H1 & H2 & H3). auto.
Qed.

Lemma compat_trans (a b c : list layer) :
  Forall2 layer_compat a b -> Forall2 layer_compat b c ->
  Forall2 layer_compat a c.
Proof.
  intros Hab. revert c. induction Hab as [| x y a b Hxy _ IH]; intros c Hbc;
    inversion Hbc as [| y' z b' c' Hyz Hrest]; subst; constructor.
  - destruct x, y, z; cbn [layer_compat] in *; try contradiction; try exact I.
    destruct Hxy as (H1 & H2 & H3), Hyz as (K1 & K2 & K3).
    repeat split; congruence.
  - apply IH. exact Hrest.
Qed.

(** Two lists of named tensors with the same names, both read off the
    same checkpoint, are equal. *)
Lemma named_equal (sd : gmap string tensor) (l l' : list (string * tensor)) :
  map fst l = map fst l' ->
  Forall (fun kv => sd !! fst kv = Some (snd kv)) l ->
  Forall (fun kv => sd !! fst kv = Some (snd kv)) l' ->
  l = l'.
Proof.
  revert l'. induction l as [| [k v] l IH]; intros [| [k' v'] l'] Hn Hl Hl';
    try discriminate; [reflexivity |].
  simpl in Hn. injection Hn as <- Hn.
  apply List.Forall_cons_iff in Hl as [Hv Hl].
  apply List.Forall_cons_iff in Hl' as [Hv' Hl']. simpl in Hv, Hv'.
  f_equal; [congruence | apply IH; assumption].
Qed.

Lemma state_dict_lookups (m : SailingAI) :
  List.NoDup (map fst (named_parameters m)) ->
  Forall (fun kv => state_dict m !! fst kv = Some (snd kv)) (named_parameters m).
Proof.
  intros Hnd. apply List.Forall_forall. intros [k v] Hin. simpl.
  apply lookup_named; assumption.
Qed.

(** Loading, into a model with the constructor's topology, the state
    dict of another such model. *)
Lemma load_saved (m0 m_src : SailingAI) :
  SailingAI_shaped m0 -> SailingAI_shaped m_src ->
  exists m', load_state_dict m0 (state_dict m_src) = Ok m'
             /\ state_dict m' = state_dict m_src
             /\ named_parameters m' = named_parameters m_src
             /\ Forall2 layer_compat (net m0) (net m')
             /\ (forall x, forward m' x = forward m_src x)
             /\ training m' = training m0.
Proof.
  intros H0 Hs.
  pose proof (shaped_compat _ _ H0 Hs) as Hc.
  pose proof (shaped_names_NoDup _ H0) as Hnd0.
  pose proof (shaped_names_NoDup _ Hs) as Hnds.
  pose proof (state_dict_lookups _ Hnds) as Hlook.
  destruct (load_layers_succeeds _ _ Hc 0%nat (state_dict m_src) Hlook)
    as [layers Hlayers].
  assert (Hload : load_state_dict m0 (state_dict m_src)
                  = Ok {| net := layers; training := training m0 |}).
  { unfold load_state_dict. rewrite bool_decide_eq_true_2.
    - rewrite Hlayers. reflexivity.
    - unfold state_dict. rewrite !dom_list_to_map_L.
      rewrite (fmap_fst_map (named_parameters m0)).
      rewrite (fmap_fst_map (named_parameters m_src)).
      rewrite (shaped_parameter_names _ H0), (shaped_parameter_names _ Hs).
      reflexivity. }
  eexists. split; [exact Hload |].
  destruct (load_state_dict_roundtrip _ _ _ Hnd0 Hload) as (Hsd & Hc' & Htr).
  destruct (load_layers_result _ _ _ _ Hlayers) as [_ Hall].
  simpl net in Hc'.
  assert (Hnp : named_parameters {| net := layers; training := training m0 |}
                = named_parameters m_src).
  { unfold named_parameters. simpl net.
    apply (named_equal (state_dict m_src)).
    - rewrite <- (named_parameters_names _ _ Hc' 0%nat).
      apply (named_parameters_names _ _ Hc).
    - exact Hall.
    - exact Hlook. }
  split; [exact Hsd |]. split; [exact Hnp |]. split; [exact Hc' |].
  split; [| exact Htr].
  intros x. unfold forward.
  apply (compat_forward _ _ (compat_trans _ _ _ (compat_sym _ _ Hc') Hc) 0%nat).
  exact Hnp.
Qed.


End CheckpointFacts.

Section CheckpointClaims.

Import PyFloat Dataset Model ModelFacts ExportOnnx ExportFacts Extras
       CheckpointFacts.
Local Open Scope string_scope.

(** X11: a checkpoint saved from any model with the network's topology
    (a trained one, say) loads into a freshly constructed model; the
    loaded model holds exactly the saved tensors, computes the same
    forward function as the model that was saved, and keeps its own
    training flag. *)
Theorem checkpoint_roundtrip (init : nat -> nat -> nat -> float)
    (m_src : SailingAI) :
  SailingAI_shaped m_src ->
  exists m', load_state_dict (SailingAI_default init) (state_dict m_src) = Ok m'
             /\ state_dict m' = state_dict m_src
             /\ (forall x, forward m' x = forward m_src x)
             /\ training m' = true.
Proof.
  intros Hs.
  destruct (load_saved (SailingAI_default init) m_src
              (SailingAI_default_shaped init) Hs)
    as (m' & Hload & Hsd & _ & _ & Hf & Htr).
  exists m'. repeat split; assumption.
Qed.

Lemma checkpoint_roundtrip_witness :
  exists m', load_state_dict (SailingAI_default zero_init)
               (state_dict (SailingAI_default (fun _ _ _ => Train.one))) = Ok m'
             /\ state_dict m' = state_dict (SailingAI_default (fun _ _ _ => Train.one))
             /\ (forall x, forward m' x
                           = forward (SailingAI_default (fun _ _ _ => Train.one)) x)
             /\ training m' = true.
Proof.
  apply (checkpoint_roundtrip zero_init (SailingAI_default (fun _ _ _ => Train.one))).
  apply SailingAI_default_shaped.
Defined.



End CheckpointClaims.
(** ** train.py and export_onnx.py: from a run to the exported model *)

Module HandoverFacts.

Import PyFloat Dataset DatasetFacts Model Train TrainFacts Extras.


Section Handover.

Variable B : Backend.
Variable args : Args.




End Handover.

End HandoverFacts.

Section HandoverClaims.

Import PyFloat Dataset Model ModelFacts Train TrainFacts Extras CheckpointFacts
       HandoverFacts.



End HandoverClaims.
